(** * DocumentsHandler: a shallow embedding of UDV's document browser

    Source: UDV-Core/src/Modules/Documents/DocumentsHandler.js (the handler)
    and Document.js (the catalog entry).

    Conventions of the embedding.
    - In the handler a JavaScript number is an exact rational or NaN
      ([number]): what the handler does with indices, flags, the scene and
      the page does not depend on rounding.  The values of the fade do: the
      part of [update] that computes them is embedded a second time on IEEE
      754 binary64 numbers ([Binary64]), and every statement about those
      values is made there.
    - A JavaScript object is named by a reference.  Documents are only ever
      created by [initialize], which pushes them on [AllDocuments] and never
      removes one, so a document's reference is its position in that array.
    - Every method returns [undefined]; a method is a function from the world
      to an [outcome] (returned, or the exception thrown) and the world as
      the call left it.
    - The DOM is the record of the properties the handler assigns.
    - three.js, iTowns, the planar controls and moment.js are collaborators:
      the scene is the set of its children, the controls are what the handler
      reads of them and a log of the travels it asked for. *)

From Stdlib Require Import ZArith QArith Qround Qminmax Lqa Lia Ascii String List.
From Stdlib Require Import Floats.SpecFloat.
From stdpp Require Import base option list gmap strings.

Close Scope Q_scope.
Open Scope string_scope.
Open Scope list_scope.

(** ** Numbers *)

(** The numbers of the handler, without rounding: sums, products and
    quotients are exact here.  They stand for the JavaScript numbers where a
    statement is about which branch is taken on integers (the indices of the
    catalog), or does not depend on a value at all; the values the fade
    computes are stated on [Binary64], where they are rounded. *)
Inductive number : Type :=
| Num (q : Q)
| NaN.

(** [isNaN(x)] *)
Definition isNaN (x : number) : bool :=
  match x with NaN => true | Num _ => false end.

(** [x + y] on numbers *)
Definition nadd (x y : number) : number :=
  match x, y with
  | Num a, Num b => Num (a + b)%Q
  | _, _ => NaN
  end.

(** [x - y] on numbers *)
Definition nsub (x y : number) : number :=
  match x, y with
  | Num a, Num b => Num (a - b)%Q
  | _, _ => NaN
  end.

(** [- x] *)
Definition nneg (x : number) : number :=
  match x with
  | Num a => Num (- a)%Q
  | NaN => NaN
  end.

(** [x * y] on numbers *)
Definition nmul (x y : number) : number :=
  match x, y with
  | Num a, Num b => Num (a * b)%Q
  | _, _ => NaN
  end.

(** [x / y]; a zero divisor gives an infinity (or NaN) in JavaScript, which
    is outside the model and read here as NaN. *)
Definition ndiv (x y : number) : number :=
  match x, y with
  | Num a, Num b => if Qeq_bool b 0 then NaN else Num (a / b)%Q
  | _, _ => NaN
  end.

(** [x >= y]: false as soon as one side is NaN *)
Definition nge (x y : number) : bool :=
  match x, y with
  | Num a, Num b => Qle_bool b a
  | _, _ => false
  end.

(** [x === y] on numbers: NaN is equal to nothing *)
Definition nstrict_eq (x y : number) : bool :=
  match x, y with
  | Num a, Num b => Qeq_bool a b
  | _, _ => false
  end.

(** [Math.trunc(x)] *)
Definition ntrunc (x : number) : number :=
  match x with
  | Num a => Num (inject_Z (Z.quot (Qnum a) (Z.pos (Qden a))))
  | NaN => NaN
  end.

(** [x || d] for a numeric option: undefined, 0 and NaN are falsy *)
Definition number_or (x : option number) (d : number) : number :=
  match x with
  | Some (Num a) => if Qeq_bool a 0 then d else Num a
  | Some NaN => d
  | None => d
  end.

Definition of_nat (n : nat) : number := Num (inject_Z (Z.of_nat n)).

(** The array index a number denotes: [a[x]] is an element only when [x] is
    a non-negative integer. *)
Definition array_index (x : number) : option nat :=
  match x with
  | Num a =>
      if Qeq_bool a (inject_Z (Qfloor a)) && (0 <=? Qfloor a)%Z
      then Some (Z.to_nat (Qfloor a)) else None
  | NaN => None
  end.

(** ** Geometry and scene objects *)

Record Vector3 : Type := { v_x : number; v_y : number; v_z : number }.

Record Quaternion : Type :=
  { q_x : number; q_y : number; q_z : number; q_w : number }.

(** A reference to a [Document]: its position in [AllDocuments]. *)
Abbreviation docref := nat.

(** A reference to an object of the scene graph: the image plane or the
    wireframe of a document, or an object that belongs to another module. *)
Inductive objref : Type :=
| PlaneOf (d : docref)
| FrameOf (d : docref)
| Foreign (k : nat).

Global Instance objref_eq_dec : EqDecision objref.
Proof. solve_decision. Defined.

Global Instance objref_countable : Countable objref.
Proof.
  refine (inj_countable'
    (fun o => match o with
              | PlaneOf d => inl d
              | FrameOf d => inr (inl d)
              | Foreign k => inr (inr k)
              end)
    (fun s => match s with
              | inl d => PlaneOf d
              | inr (inl d) => FrameOf d
              | inr (inr k) => Foreign k
              end) _).
  intros []; reflexivity.
Defined.

(** [Object3D.userData]: the handler reads [type] and [doc] only. *)
Record UserData : Type :=
  { ud_type : option string; ud_doc : option docref }.

(** The default [userData] of a three.js object: [{}]. *)
Definition no_userData : UserData := {| ud_type := None; ud_doc := None |}.

Inductive Material : Type :=
| TextureMaterial (url : string)        (* {map: texture loaded from url} *)
| WireframeMaterial (color : Z).        (* {color, wireframe: true} *)

Record Mesh : Type := {
  mesh_ref : objref;
  mesh_size : Z * Z;                    (* PlaneGeometry(width, height, 1, 1) *)
  mesh_material : Material;
  mesh_layer : Z;
  mesh_position : Vector3;
  mesh_lookAt : option Vector3;         (* target of the last lookAt *)
  mesh_userData : UserData
}.

Definition lookAt (target : Vector3) (m : Mesh) : Mesh :=
  {| mesh_ref := mesh_ref m; mesh_size := mesh_size m;
     mesh_material := mesh_material m; mesh_layer := mesh_layer m;
     mesh_position := mesh_position m; mesh_lookAt := Some target;
     mesh_userData := mesh_userData m |}.

(** ** Document (Document.js) *)

(** A moment.js date, named by the text it was built from. *)
Inductive Moment : Type := moment (text : string).

Record Document : Type := {
  index : number;
  doc_ID : number;
  imageSourceHD : string;
  imageSourceBD : string;
  metaData : string;
  startDate : Moment;
  title : string;
  useBillboard : bool;
  billboardPosition : Vector3;
  viewPosition : Vector3;
  viewQuaternion : Quaternion;
  billboardGeometry : option Mesh;
  billboardGeometryFrame : option Mesh;
  docBillboardData : option UserData
}.

(** [this.createBillboard()]; [self] is the reference of [this], and
    [docImageSourceBD], [billboardPosition] are the constructor's arguments
    the closure captured. *)
Definition createBillboard (self : docref) (docImageSourceBD : string)
    (billboardPosition0 : Vector3) (this : Document) : Document :=
  let data := {| ud_type := Some "billboard"; ud_doc := Some self |} in
  {| index := index this; doc_ID := doc_ID this;
     imageSourceHD := imageSourceHD this; imageSourceBD := imageSourceBD this;
     metaData := metaData this; startDate := startDate this;
     title := title this; useBillboard := useBillboard this;
     billboardPosition := billboardPosition this;
     viewPosition := viewPosition this; viewQuaternion := viewQuaternion this;
     billboardGeometry := Some
       {| mesh_ref := PlaneOf self; mesh_size := (80, 50)%Z;
          mesh_material := TextureMaterial docImageSourceBD;
          mesh_layer := 1; mesh_position := billboardPosition0;
          mesh_lookAt := None; mesh_userData := data |};
     billboardGeometryFrame := Some
       {| mesh_ref := FrameOf self; mesh_size := (80, 50)%Z;
          mesh_material := WireframeMaterial 0x00ffaa;
          mesh_layer := 1; mesh_position := billboardPosition0;
          mesh_lookAt := None; mesh_userData := no_userData |};
     docBillboardData := Some data |}.

(** [new Document(docTitle, docIndex, ...)], allocated at reference [self]. *)
Definition new_Document (self : docref) (docTitle : string)
    (docIndex doc_ID0 : number) (docImageSourceHD docImageSourceBD : string)
    (billboardPosition0 docViewPosition : Vector3)
    (docViewQuaternion : Quaternion) (docDate : Moment) (metaData0 : string)
    : Document :=
  let this :=
    {| index := docIndex; doc_ID := doc_ID0;
       imageSourceHD := docImageSourceHD; imageSourceBD := docImageSourceBD;
       metaData := metaData0; startDate := docDate; title := docTitle;
       useBillboard := negb (isNaN (v_x billboardPosition0))
                       && negb (isNaN (v_y billboardPosition0))
                       && negb (isNaN (v_z billboardPosition0));
       billboardPosition := billboardPosition0;
       viewPosition := docViewPosition; viewQuaternion := docViewQuaternion;
       billboardGeometry := None; billboardGeometryFrame := None;
       docBillboardData := None |} in
  if useBillboard this
  then createBillboard self docImageSourceBD billboardPosition0 this
  else this.

(** ** The world: the handler, and what it reaches of its collaborators *)

(** A value assigned to a property of a DOM element. [DLabel s x] is the
    string [s + x] for a number [x]. *)
Inductive domvalue : Type :=
| DStr (s : string)
| DNum (x : number)
| DLabel (s : string) (x : number)
| DNull.

(** A call on a collaborator whose result the handler does not use. *)
Inductive command : Type :=
| initiateTravel (position : Vector3) (quaternion : Quaternion)
| changeTime (date : Moment)
| notifyChange (needsRedraw : bool)
| dispatchEvent (type : string).

(** A TemporalController, by name. *)
Definition TemporalController : Type := nat.

(** [this], with the two [var]s of the constructor that the methods close
    over ([billboardsAreActive], [showBillboardButton]). *)
Record Handler : Type := {
  docBrowserWindowIsActive : bool;
  billboardsAreActive : bool;
  showBillboardButton : bool;
  temporal : option TemporalController;
  AllDocuments : list Document;
  currentDoc : option docref;           (* None: null or undefined *)
  fadeDuration : number;
  isOrientingDoc : bool;
  isFadingDoc : bool;
  fadeAlpha : number
}.

Record Env : Type := {
  dom : gmap (string * string) domvalue;  (* (element id, property) *)
  scene : gset objref;                    (* view.scene.children *)
  controls_state : Z;                     (* controls.state *)
  camera_position : Vector3;              (* controls.camera.position *)
  innerWidth : number;                    (* window.innerWidth *)
  innerHeight : number;
  global_temporal : option TemporalController;
                                          (* the global named temporal *)
  called : list command                   (* latest first *)
}.

Record World : Type := { this : Handler; env : Env }.

Definition with_this (f : Handler -> Handler) (w : World) : World :=
  {| this := f (this w); env := env w |}.

Definition with_env (f : Env -> Env) (w : World) : World :=
  {| this := this w; env := f (env w) |}.

Definition set_docBrowserWindowIsActive (b : bool) (h : Handler) : Handler :=
  {| docBrowserWindowIsActive := b;
     billboardsAreActive := billboardsAreActive h;
     showBillboardButton := showBillboardButton h; temporal := temporal h;
     AllDocuments := AllDocuments h; currentDoc := currentDoc h;
     fadeDuration := fadeDuration h; isOrientingDoc := isOrientingDoc h;
     isFadingDoc := isFadingDoc h; fadeAlpha := fadeAlpha h |}.

Definition set_billboardsAreActive (b : bool) (h : Handler) : Handler :=
  {| docBrowserWindowIsActive := docBrowserWindowIsActive h;
     billboardsAreActive := b;
     showBillboardButton := showBillboardButton h; temporal := temporal h;
     AllDocuments := AllDocuments h; currentDoc := currentDoc h;
     fadeDuration := fadeDuration h; isOrientingDoc := isOrientingDoc h;
     isFadingDoc := isFadingDoc h; fadeAlpha := fadeAlpha h |}.

Definition set_AllDocuments (l : list Document) (h : Handler) : Handler :=
  {| docBrowserWindowIsActive := docBrowserWindowIsActive h;
     billboardsAreActive := billboardsAreActive h;
     showBillboardButton := showBillboardButton h; temporal := temporal h;
     AllDocuments := l; currentDoc := currentDoc h;
     fadeDuration := fadeDuration h; isOrientingDoc := isOrientingDoc h;
     isFadingDoc := isFadingDoc h; fadeAlpha := fadeAlpha h |}.

Definition set_currentDoc (c : option docref) (h : Handler) : Handler :=
  {| docBrowserWindowIsActive := docBrowserWindowIsActive h;
     billboardsAreActive := billboardsAreActive h;
     showBillboardButton := showBillboardButton h; temporal := temporal h;
     AllDocuments := AllDocuments h; currentDoc := c;
     fadeDuration := fadeDuration h; isOrientingDoc := isOrientingDoc h;
     isFadingDoc := isFadingDoc h; fadeAlpha := fadeAlpha h |}.

Definition set_isOrientingDoc (b : bool) (h : Handler) : Handler :=
  {| docBrowserWindowIsActive := docBrowserWindowIsActive h;
     billboardsAreActive := billboardsAreActive h;
     showBillboardButton := showBillboardButton h; temporal := temporal h;
     AllDocuments := AllDocuments h; currentDoc := currentDoc h;
     fadeDuration := fadeDuration h; isOrientingDoc := b;
     isFadingDoc := isFadingDoc h; fadeAlpha := fadeAlpha h |}.

Definition set_isFadingDoc (b : bool) (h : Handler) : Handler :=
  {| docBrowserWindowIsActive := docBrowserWindowIsActive h;
     billboardsAreActive := billboardsAreActive h;
     showBillboardButton := showBillboardButton h; temporal := temporal h;
     AllDocuments := AllDocuments h; currentDoc := currentDoc h;
     fadeDuration := fadeDuration h; isOrientingDoc := isOrientingDoc h;
     isFadingDoc := b; fadeAlpha := fadeAlpha h |}.

Definition set_fadeAlpha (x : number) (h : Handler) : Handler :=
  {| docBrowserWindowIsActive := docBrowserWindowIsActive h;
     billboardsAreActive := billboardsAreActive h;
     showBillboardButton := showBillboardButton h; temporal := temporal h;
     AllDocuments := AllDocuments h; currentDoc := currentDoc h;
     fadeDuration := fadeDuration h; isOrientingDoc := isOrientingDoc h;
     isFadingDoc := isFadingDoc h; fadeAlpha := x |}.

Definition set_dom (m : gmap (string * string) domvalue) (e : Env) : Env :=
  {| dom := m; scene := scene e; controls_state := controls_state e;
     camera_position := camera_position e; innerWidth := innerWidth e;
     innerHeight := innerHeight e; global_temporal := global_temporal e;
     called := called e |}.

Definition set_scene (s : gset objref) (e : Env) : Env :=
  {| dom := dom e; scene := s; controls_state := controls_state e;
     camera_position := camera_position e; innerWidth := innerWidth e;
     innerHeight := innerHeight e; global_temporal := global_temporal e;
     called := called e |}.

Definition set_called (l : list command) (e : Env) : Env :=
  {| dom := dom e; scene := scene e; controls_state := controls_state e;
     camera_position := camera_position e; innerWidth := innerWidth e;
     innerHeight := innerHeight e; global_temporal := global_temporal e;
     called := l |}.

(** The controls move on their own between two calls of the handler. *)
Definition set_controls (st : Z) (cam : Vector3) (e : Env) : Env :=
  {| dom := dom e; scene := scene e; controls_state := st;
     camera_position := cam; innerWidth := innerWidth e;
     innerHeight := innerHeight e; global_temporal := global_temporal e;
     called := called e |}.

(** ** Methods *)

Inductive exn : Type := TypeError | ReferenceError.

Inductive outcome : Type :=
| Returned
| Thrown (e : exn).

Definition method : Type := World -> outcome * World.

Definition skip : method := fun w => (Returned, w).

Definition throw (e : exn) : method := fun w => (Thrown e, w).

Definition andThen (a b : method) : method :=
  fun w => match a w with
           | (Returned, w') => b w'
           | (Thrown e, w') => (Thrown e, w')
           end.

Declare Scope method_scope.
Delimit Scope method_scope with method.
Bind Scope method_scope with method.
Notation "a ;; b" := (andThen a b)
  (at level 100, b at level 200, right associativity) : method_scope.
Open Scope method_scope.

Definition assign (f : Handler -> Handler) : method :=
  fun w => (Returned, with_this f w).

Definition ifElse (c : World -> bool) (a b : method) : method :=
  fun w => if c w then a w else b w.

(** [document.getElementById(id).prop = v] *)
Definition setProperty (id prop : string) (v : domvalue) : method :=
  fun w => (Returned, with_env (fun e => set_dom (<[(id, prop) := v]> (dom e)) e) w).

Definition getProperty (id prop : string) (w : World) : option domvalue :=
  dom (env w) !! (id, prop).

Definition call (c : command) : method :=
  fun w => (Returned, with_env (fun e => set_called (c :: called e) e) w).

(** The document [this.currentDoc] refers to. *)
Definition currentDocument (w : World) : option Document :=
  match currentDoc (this w) with
  | Some r => AllDocuments (this w) !! r
  | None => None
  end.

(** Reading a property of [this.currentDoc] throws when it is null or
    undefined. *)
Definition withCurrentDoc (k : Document -> method) : method :=
  fun w => match currentDocument w with
           | Some d => k d w
           | None => (Thrown TypeError, w)
           end.

(** [this.AllDocuments.forEach(body)] *)
Fixpoint forEach_from (n : nat) (i : docref)
    (body : docref -> Document -> method) : method :=
  match n with
  | O => skip
  | S n' =>
      fun w => match AllDocuments (this w) !! i with
               | Some element => (body i element ;; forEach_from n' (S i) body) w
               | None => (Returned, w)
               end
  end.

Definition forEach (body : docref -> Document -> method) : method :=
  fun w => forEach_from (length (AllDocuments (this w))) 0 body w.

(** The two meshes of a billboard. *)
Inductive part : Type := Plane | Frame.

Definition mesh_of (p : part) (d : Document) : option Mesh :=
  match p with
  | Plane => billboardGeometry d
  | Frame => billboardGeometryFrame d
  end.

Definition set_mesh (p : part) (m : Mesh) (d : Document) : Document :=
  {| index := index d; doc_ID := doc_ID d;
     imageSourceHD := imageSourceHD d; imageSourceBD := imageSourceBD d;
     metaData := metaData d; startDate := startDate d; title := title d;
     useBillboard := useBillboard d;
     billboardPosition := billboardPosition d;
     viewPosition := viewPosition d; viewQuaternion := viewQuaternion d;
     billboardGeometry :=
       match p with Plane => Some m | Frame => billboardGeometry d end;
     billboardGeometryFrame :=
       match p with Plane => billboardGeometryFrame d | Frame => Some m end;
     docBillboardData := docBillboardData d |}.

(** [element.<mesh>.lookAt(target)] on the document at [i]; a null mesh has
    no method to call. *)
Definition meshLookAt (i : docref) (p : part) (target : Vector3) : method :=
  fun w =>
    match AllDocuments (this w) !! i with
    | Some d =>
        match mesh_of p d with
        | Some m =>
            (Returned,
             with_this (fun h => set_AllDocuments
               (<[i := set_mesh p (lookAt target m) d]> (AllDocuments h)) h) w)
        | None => (Thrown TypeError, w)
        end
    | None => (Thrown TypeError, w)
    end.

(** [element.<mesh>.updateMatrixWorld()]: the matrices are not recorded, the
    call only needs the mesh to be there. *)
Definition updateMatrixWorld (i : docref) (p : part) : method :=
  fun w =>
    match AllDocuments (this w) !! i with
    | Some d =>
        match mesh_of p d with
        | Some _ => (Returned, w)
        | None => (Thrown TypeError, w)
        end
    | None => (Thrown TypeError, w)
    end.

(** [this.view.scene.add(x)]: three.js makes an Object3D a child (once) and
    only logs an error for anything else. *)
Definition sceneAdd (x : option Mesh) : method :=
  fun w =>
    match x with
    | Some m =>
        (Returned, with_env (fun e => set_scene ({[mesh_ref m]} ∪ scene e) e) w)
    | None => (Returned, w)
    end.

(** [this.view.scene.remove(x)] *)
Definition sceneRemove (x : option Mesh) : method :=
  fun w =>
    match x with
    | Some m =>
        (Returned, with_env (fun e => set_scene (scene e ∖ {[mesh_ref m]}) e) w)
    | None => (Returned, w)
    end.

(** [updateBrowser()] *)
Definition updateBrowser : method :=
  withCurrentDoc (fun d =>
    setProperty "docBrowserPreviewImg" "src" (DStr (imageSourceBD d)) ;;
    setProperty "docBrowserMetaData" "innerHTML" (DStr (metaData d)) ;;
    setProperty "docBrowserTitle" "innerHTML" (DStr (title d)) ;;
    setProperty "docBrowserIndex" "innerHTML" (DLabel "index : " (index d))).

(** [showBillboards(forceShow)] *)
Definition showBillboards (forceShow : bool) : method :=
  ifElse (fun w => negb forceShow && negb (billboardsAreActive (this w)))
    skip
    (setProperty "docBrowserToggleBillboard" "innerHTML"
       (DStr "Masquer Billboards") ;;
     forEach (fun i element =>
       if negb (useBillboard element) then skip
       else
         sceneAdd (billboardGeometry element) ;;
         sceneAdd (billboardGeometryFrame element) ;;
         updateMatrixWorld i Plane ;;
         updateMatrixWorld i Frame) ;;
     call (notifyChange true)).

(** [hideBillboards(forceHide)] *)
Definition hideBillboards (forceHide : bool) : method :=
  ifElse (fun w => negb forceHide && billboardsAreActive (this w))
    skip
    (setProperty "docBrowserToggleBillboard" "innerHTML"
       (DStr "Afficher Billboards") ;;
     forEach (fun i element =>
       if negb (useBillboard element) then skip
       else
         sceneRemove (billboardGeometry element) ;;
         sceneRemove (billboardGeometryFrame element) ;;
         updateMatrixWorld i Plane ;;
         updateMatrixWorld i Frame) ;;
     call (notifyChange true)).

(** [toggleBillboards()] *)
Definition toggleBillboards : method :=
  ifElse (fun w => billboardsAreActive (this w))
    (assign (set_billboardsAreActive false) ;; hideBillboards true)
    (assign (set_billboardsAreActive true) ;; showBillboards true).

(** The three blocks of [update]: the switch from orienting to fading, the
    fade, and the billboards that turn to the camera.  The numbers of the
    fade are exact here; [Binary64.update] has them as JavaScript rounds
    them. *)
Definition beginFade : method :=
  assign (set_isOrientingDoc false) ;;
  assign (set_isFadingDoc true) ;;
  assign (set_fadeAlpha (Num 0)) ;;
  setProperty "docOpaSlider" "value" (DNum (Num 0)) ;;
  setProperty "docOpacity" "value" (DNum (Num 0)) ;;
  setProperty "docFullImg" "style.opacity" (DNum (Num 0)) ;;
  setProperty "docFullPanel" "style.display" (DStr "block").

Definition fade (dt : number) : method :=
  (fun w => assign (set_fadeAlpha
     (nadd (fadeAlpha (this w)) (ndiv dt (fadeDuration (this w))))) w) ;;
  ifElse (fun w => nge (fadeAlpha (this w)) (Num 1))
    (assign (set_isFadingDoc false) ;;
     setProperty "docFullImg" "style.opacity" (DNum (Num 1)) ;;
     setProperty "docOpaSlider" "value" (DNum (Num 100)) ;;
     setProperty "docOpacity" "value" (DNum (Num 100)))
    (fun w =>
       let a := fadeAlpha (this w) in
       (setProperty "docFullImg" "style.opacity" (DNum a) ;;
        setProperty "docOpaSlider" "value" (DNum (nmul a (Num 100))) ;;
        setProperty "docOpacity" "value"
          (DNum (ntrunc (nmul a (Num 100))))) w) ;;
  call (notifyChange false).

Definition billboardsLookAtCamera : method :=
  forEach (fun i element =>
    if negb (useBillboard element) then skip
    else fun w =>
      (meshLookAt i Plane (camera_position (env w)) ;;
       meshLookAt i Frame (camera_position (env w)) ;;
       updateMatrixWorld i Plane ;;
       updateMatrixWorld i Frame) w).

(** [update(dt, updateLoopRestarted)] *)
Definition update (dt : number) (updateLoopRestarted : bool) : method :=
  let dt := if updateLoopRestarted then Num 16 else dt in
  ifElse (fun w => isOrientingDoc (this w)
                   && (controls_state (env w) =? -1)%Z)
    beginFade skip ;;
  ifElse (fun w => isFadingDoc (this w)) (fade dt) skip ;;
  billboardsLookAtCamera.

(** [this.currentDoc = this.AllDocuments[x]] *)
Definition setCurrentDocAt (x : number) : method :=
  fun w =>
    let target :=
      match array_index x with
      | Some k => if decide (k < length (AllDocuments (this w)))
                  then Some k else None
      | None => None
      end in
    assign (set_currentDoc target) w.

(** [nextDoc()] *)
Definition nextDoc : method :=
  withCurrentDoc (fun d =>
    let index := index d in
    ifElse (fun w => nge (nadd index (Num 1))
                         (of_nat (length (AllDocuments (this w)))))
      skip
      (setCurrentDocAt (nadd index (Num 1)) ;; updateBrowser)).

(** [previousDoc()] *)
Definition previousDoc : method :=
  withCurrentDoc (fun d =>
    let index := index d in
    if nstrict_eq index (Num 0) then skip
    else setCurrentDocAt (nsub index (Num 1)) ;; updateBrowser).

(** The first lines of [focusOnDoc]: the image is displayed (it begins to
    load) but with opacity 0. *)
Definition displayHidden (d : Document) : method :=
  setProperty "docFullImg" "src" (DStr (imageSourceHD d)) ;;
  setProperty "docBrowserPreviewImg" "src" (DStr (imageSourceBD d)) ;;
  setProperty "docFullImg" "style.opacity" (DNum (Num 0)) ;;
  setProperty "docOpaSlider" "value" (DNum (Num 0)) ;;
  setProperty "docOpacity" "value" (DNum (Num 0)) ;;
  setProperty "docFull" "style.display" (DStr "block") ;;
  setProperty "docFullPanel" "style.display" (DStr "none").

(** The travel of the camera, asked for when the pose is valid;
    [initiateTravel(position, "auto", quaternion, true)]. *)
Definition travelToView (d : Document) : method :=
  if negb (isNaN (v_x (viewPosition d)))
     && negb (isNaN (q_x (viewQuaternion d)))
  then call (initiateTravel (viewPosition d) (viewQuaternion d))
  else skip.

(** The date follows the document when [this.temporal] is set.  The call
    goes through the identifier [temporal], which no scope of the module
    declares: it is looked up among the globals. *)
Definition adjustDate (d : Document) : method :=
  ifElse (fun w => match temporal (this w) with
                   | Some _ => true
                   | None => false
                   end)
    (fun w => match global_temporal (env w) with
              | Some _ => call (changeTime (startDate d)) w
              | None => throw ReferenceError w
              end)
    skip.

(** [focusOnDoc()] *)
Definition focusOnDoc : method :=
  withCurrentDoc (fun d =>
    displayHidden d ;;
    travelToView d ;;
    adjustDate d ;;
    hideBillboards true ;;
    assign (set_isOrientingDoc true) ;;
    assign (set_isFadingDoc false) ;;
    call (notifyChange false)).

(** [closeDocFull()] *)
Definition closeDocFull : method :=
  setProperty "docFull" "style.display" (DStr "none") ;;
  setProperty "docFullImg" "src" DNull ;;
  showBillboards false.

(** [toggleDocBrowserWindow()] *)
Definition toggleDocBrowserWindow : method :=
  (fun w => setProperty "docBrowserWindow" "style.display"
     (DStr (if docBrowserWindowIsActive (this w) then "block" else "none")) w) ;;
  (fun w => assign (set_docBrowserWindowIsActive
     (if docBrowserWindowIsActive (this w) then true else false)) w).

(** ** The fade, on binary64 numbers *)

(** The values of the fade depend on how JavaScript rounds: its numbers are
    IEEE 754 binary64 numbers.  The two blocks of [update] that compute with
    numbers are embedded here a second time, on binary64 numbers, with the
    operations as the Standard Library specifies them (round to nearest,
    ties to even).  The state is what these blocks read and assign; the
    third block of [update] (the billboards) computes with no number and is
    not repeated. *)

Module Binary64.

Definition double : Type := spec_float.

(** A numeric literal that is an integer. *)
Definition of_Z (z : Z) : double := binary_normalize 53 1024 z 0 false.

(** [x + y], [x * y], [x / y] *)
Definition add : double -> double -> double := SFadd 53 1024.
Definition mul : double -> double -> double := SFmul 53 1024.
Definition div : double -> double -> double := SFdiv 53 1024.

(** [x >= y]: false as soon as one side is NaN *)
Definition ge (x y : double) : bool :=
  match SFcompare x y with
  | Some Gt | Some Eq => true
  | _ => false
  end.

(** [Math.trunc(x)]: the integer part of [x], with its sign *)
Definition trunc (x : double) : double :=
  match x with
  | S754_finite s m e =>
      if (0 <=? e)%Z then x
      else match Z.shiftr (Z.pos m) (- e) with
           | Z.pos q =>
               binary_normalize 53 1024 (if s then Z.neg q else Z.pos q) 0 false
           | _ => S754_zero s
           end
  | _ => x
  end.

(** The rational number that a finite binary64 number is. *)
Definition exact (x : double) : option Q :=
  match x with
  | S754_zero _ => Some 0%Q
  | S754_finite s m e =>
      Some (inject_Z (if s then Z.neg m else Z.pos m) * Qpower 2 e)%Q
  | _ => None
  end.

(** What the fade reads and assigns: four attributes of the handler, the
    state of the controls, the numbers last assigned to the opacity of
    docFullImg and to the values of docOpaSlider and docOpacity (none as
    long as the handler assigned none), the display last assigned to
    docFullPanel, and how many times [view.notifyChange(false)] was
    called. *)
Record Oriented : Type := {
  isOrientingDoc : bool;
  isFadingDoc : bool;
  fadeAlpha : double;
  fadeDuration : double;
  controls_state : Z;
  img_opacity : option double;
  slider_value : option double;
  output_value : option double;
  panel_display : option string;
  notified : nat
}.

Definition set_controls_state (state : Z) (s : Oriented) : Oriented :=
  {| isOrientingDoc := isOrientingDoc s; isFadingDoc := isFadingDoc s;
     fadeAlpha := fadeAlpha s; fadeDuration := fadeDuration s;
     controls_state := state;
     img_opacity := img_opacity s; slider_value := slider_value s;
     output_value := output_value s; panel_display := panel_display s;
     notified := notified s |}.

(** The first block of [update], when its test holds. *)
Definition beginFade (s : Oriented) : Oriented :=
  {| isOrientingDoc := false; isFadingDoc := true;
     fadeAlpha := of_Z 0; fadeDuration := fadeDuration s;
     controls_state := controls_state s;
     img_opacity := Some (of_Z 0); slider_value := Some (of_Z 0);
     output_value := Some (of_Z 0); panel_display := Some "block";
     notified := notified s |}.

(** The second block of [update], when its test holds. *)
Definition fade (dt : double) (s : Oriented) : Oriented :=
  let alpha := add (fadeAlpha s) (div dt (fadeDuration s)) in
  if ge alpha (of_Z 1)
  then {| isOrientingDoc := isOrientingDoc s; isFadingDoc := false;
          fadeAlpha := alpha; fadeDuration := fadeDuration s;
          controls_state := controls_state s;
          img_opacity := Some (of_Z 1); slider_value := Some (of_Z 100);
          output_value := Some (of_Z 100);
          panel_display := panel_display s;
          notified := S (notified s) |}
  else {| isOrientingDoc := isOrientingDoc s; isFadingDoc := isFadingDoc s;
          fadeAlpha := alpha; fadeDuration := fadeDuration s;
          controls_state := controls_state s;
          img_opacity := Some alpha;
          slider_value := Some (mul alpha (of_Z 100));
          output_value := Some (trunc (mul alpha (of_Z 100)));
          panel_display := panel_display s;
          notified := S (notified s) |}.

(** [update(dt, updateLoopRestarted)], up to the billboards *)
Definition update (dt : double) (updateLoopRestarted : bool)
    (s : Oriented) : Oriented :=
  let dt := if updateLoopRestarted then of_Z 16 else dt in
  let s := if isOrientingDoc s && (controls_state s =? -1)%Z
           then beginFade s else s in
  if isFadingDoc s then fade dt s else s.

(** A frame: the controls as [update] finds them, and its arguments. *)
Record frame : Type := {
  frame_state : Z;
  frame_dt : double;
  frame_restarted : bool
}.

Definition step (s : Oriented) (f : frame) : Oriented :=
  update (frame_dt f) (frame_restarted f)
    (set_controls_state (frame_state f) s).

Definition play (fs : list frame) (s : Oriented) : Oriented :=
  foldl step s fs.

(** The time a frame adds to the fade, in milliseconds. *)
Definition elapsed (f : frame) : double :=
  if frame_restarted f then of_Z 16 else frame_dt f.

(** The quotients of the times [dts] by [D], added one after the other to
    [a], every quotient and every sum rounded. *)
Definition roundedSum (D a : double) (dts : list double) : double :=
  foldl (fun a dt => add a (div dt D)) a dts.

End Binary64.

(** ** The loader, the mouse and the constructor *)

Record MouseEvent : Type := { clientX : number; clientY : number }.

(** An object a ray went through: [intersects[i].object]. *)
Record Object3D : Type := { object_ref : objref; userData : UserData }.

Record Options : Type := {
  docBrowserWindowStartActive : option bool;
  options_temporal : option TemporalController;
  docFadeDuration : option number
}.

(** What the platform provides and the embedding does not look into. *)
Class Platform : Type := {
  (** the built-in [parseFloat], on the text of a field *)
  parseFloat : string -> number;
  (** three.js' raycaster: the objects among the scene's children that the
      ray from the camera through the point [(x, y)] of the screen goes
      through, nearest first *)
  intersectObjects : number -> number -> World -> list Object3D
}.

Section Collaborators.

Context `{Platform}.

(** [parseFloat(docData[k])]: a missing field is [undefined], which parses to
    NaN. *)
Definition parseFloatAt (docData : list string) (k : nat) : number :=
  match docData !! k with
  | Some s => parseFloat s
  | None => NaN
  end.

(** ["Vilo3D/Docs/" + docData[k]] *)
Definition docPathAt (docData : list string) (k : nat) : string :=
  ("Vilo3D/Docs/" ++ default "undefined" (docData !! k))%string.

(** One turn of the loop of [initialize], up to the push: the Document built
    from the row [docData], or nothing when [docData[k].toString()] has no
    field to read (a TypeError). *)
Definition readRow (self : docref) (docData : list string) : option Document :=
  let docIndex := parseFloatAt docData 0 in
  let doc_ID := parseFloatAt docData 1 in
  let docImageSourceHD := docPathAt docData 2 in
  let docImageSourceBD := docPathAt docData 3 in
  docTitle ← docData !! 4;
  docStartDate ← moment <$> docData !! 5;
  docMetaData ← docData !! 6;
  let docViewPos :=
    {| v_x := parseFloatAt docData 7; v_y := parseFloatAt docData 8;
       v_z := parseFloatAt docData 9 |} in
  let docViewQuat :=
    {| q_x := parseFloatAt docData 10; q_y := parseFloatAt docData 11;
       q_z := parseFloatAt docData 12; q_w := parseFloatAt docData 13 |} in
  let docBillboardPos :=
    {| v_x := parseFloatAt docData 14; v_y := parseFloatAt docData 15;
       v_z := parseFloatAt docData 16 |} in
  Some (new_Document self docTitle docIndex doc_ID docImageSourceHD
          docImageSourceBD docBillboardPos docViewPos docViewQuat
          docStartDate docMetaData).

(** The [for] loop of [initialize] *)
Fixpoint fillAllDocuments (docDataFromFile : list (list string)) : method :=
  match docDataFromFile with
  | [] => skip
  | docData :: rest =>
      (fun w =>
         match readRow (length (AllDocuments (this w))) docData with
         | Some doc =>
             assign (fun h => set_AllDocuments (AllDocuments h ++ [doc]) h) w
         | None => throw TypeError w
         end) ;;
      fillAllDocuments rest
  end.

(** [initialize(docDataFromFile)] *)
Definition initialize (docDataFromFile : list (list string)) : method :=
  fillAllDocuments docDataFromFile ;;
  setCurrentDocAt (Num 0) ;;
  updateBrowser ;;
  ifElse (fun w => billboardsAreActive (this w))
    (showBillboards true) (hideBillboards true) ;;
  call (dispatchEvent "docInit").

(** The loop of [onMouseClick] over the intersections *)
Fixpoint focusOnFirstBillboard (intersects : list Object3D) : method :=
  match intersects with
  | [] => skip
  | o :: rest =>
      if decide (ud_type (userData o) = Some "billboard")
      then assign (set_currentDoc (ud_doc (userData o))) ;; focusOnDoc
      else focusOnFirstBillboard rest
  end.

(** The position of the click in normalized device coordinates:
    [(clientX / innerWidth) * 2 - 1] and [-(clientY / innerHeight) * 2 + 1]. *)
Definition mouseOf (event : MouseEvent) (w : World) : number * number :=
  (nsub (nmul (ndiv (clientX event) (innerWidth (env w))) (Num 2)) (Num 1),
   nadd (nmul (nneg (ndiv (clientY event) (innerHeight (env w)))) (Num 2))
        (Num 1)).

(** [onMouseClick(event)] *)
Definition onMouseClick (event : MouseEvent) : method :=
  fun w =>
    let mouse := mouseOf event w in
    focusOnFirstBillboard (intersectObjects mouse.1 mouse.2 w) w.

(** [new DocumentsHandler(view, controls, dataFile, options)] in the page
    [page]: the elements of the template, then the attributes.  The CSV file
    is read later; [initialize] is its callback. *)
Definition DocumentsHandler (options : Options) (page : Env) : World :=
  let docBrowserWindowIsActive0 :=
    default false (docBrowserWindowStartActive options) in
  let billboardsAreActive0 := false in
  let showBillboardButton0 := false in
  let assignments : list (string * string * domvalue) :=
    [ (* the template *)
      ("docBrowserTitle", "innerHTML", DStr "doc title");
      ("docBrowserMetaData", "innerHTML", DStr "metadata");
      ("docOpaSlider", "value", DStr "75");
      ("docOpacity", "value", DStr "50");
      ("docBrowserToggleBillboard", "innerHTML", DStr "Billboard");
      ("docBrowserToggleBillboard", "style.display", DStr "none");
      (* the default image *)
      ("docBrowserPreviewImg", "src", DStr "DefaultImage.png");
      (* setup display *)
      ("docBrowserToggleBillboard", "style.display",
         DStr (if showBillboardButton0 then "block" else "none"));
      ("docBrowserWindow", "style.display",
         DStr (if negb docBrowserWindowIsActive0 then "none" else "block")) ] in
  {| this :=
       {| docBrowserWindowIsActive := docBrowserWindowIsActive0;
          billboardsAreActive := billboardsAreActive0;
          showBillboardButton := showBillboardButton0;
          temporal := options_temporal options;
          AllDocuments := [];
          currentDoc := None;
          fadeDuration := number_or (docFadeDuration options) (Num 2750);
          isOrientingDoc := false;
          isFadingDoc := false;
          fadeAlpha := Num 0 |};
     env := set_dom
              (foldl (fun m kv => <[kv.1 := kv.2]> m) (dom page) assignments)
              page |}.

(** ** Runs *)

(** What happens to a handler: a call of one of its methods (by the page, a
    listener or the frame requester), or a move of the controls. *)
Inductive event : Type :=
| Initialize (docDataFromFile : list (list string))
| Update (dt : number) (updateLoopRestarted : bool)
| NextDoc
| PreviousDoc
| ShowBillboards (forceShow : bool)
| HideBillboards (forceHide : bool)
| ToggleBillboards
| FocusOnDoc
| CloseDocFull
| ToggleDocBrowserWindow
| MouseClick (e : MouseEvent)
| ControlsMove (state : Z) (camera : Vector3).

Definition handle (ev : event) : method :=
  match ev with
  | Initialize rows => initialize rows
  | Update dt r => update dt r
  | NextDoc => nextDoc
  | PreviousDoc => previousDoc
  | ShowBillboards b => showBillboards b
  | HideBillboards b => hideBillboards b
  | ToggleBillboards => toggleBillboards
  | FocusOnDoc => focusOnDoc
  | CloseDocFull => closeDocFull
  | ToggleDocBrowserWindow => toggleDocBrowserWindow
  | MouseClick e => onMouseClick e
  | ControlsMove st cam =>
      fun w => (Returned, with_env (set_controls st cam) w)
  end.

(** An exception ends the call that threw it, not the page: the next event
    finds the world as the call left it. *)
Definition run (evs : list event) (w : World) : World :=
  foldl (fun w ev => (handle ev w).2) w evs.

(** A frame: the controls as [update] finds them, and its arguments. *)
Record frame : Type := {
  frame_state : Z;
  frame_camera : Vector3;
  frame_dt : number;
  frame_restarted : bool
}.

Definition frame_events (f : frame) : list event :=
  [ControlsMove (frame_state f) (frame_camera f);
   Update (frame_dt f) (frame_restarted f)].

Definition play (fs : list frame) (w : World) : World :=
  run (fs ≫= frame_events) w.

(** What a row says, read off the row itself.  A field holds a number:
    what the built-in [parseFloat] reads in its text, and NaN when the row
    has no such field. *)
Definition saysNumber (docData : list string) (k : nat) (x : number) : Prop :=
  match docData !! k with
  | Some s => x = parseFloat s
  | None => x = NaN
  end.

(** A field holds the name of an image of the directory of the documents. *)
Definition saysPath (docData : list string) (k : nat) (path : string) : Prop :=
  match docData !! k with
  | Some s => path = String.append "Vilo3D/Docs/" s
  | None => path = "Vilo3D/Docs/undefined"
  end.

(** The document [d] holds what the row [docData] says, field by field: the
    seventeen fields of the row, in the order of the file. *)
Definition builtFromRow (docData : list string) (d : Document) : Prop :=
  saysNumber docData 0 (index d)
  /\ saysNumber docData 1 (doc_ID d)
  /\ saysPath docData 2 (imageSourceHD d)
  /\ saysPath docData 3 (imageSourceBD d)
  /\ docData !! 4 = Some (title d)
  /\ (exists date, docData !! 5 = Some date /\ startDate d = moment date)
  /\ docData !! 6 = Some (metaData d)
  /\ saysNumber docData 7 (v_x (viewPosition d))
  /\ saysNumber docData 8 (v_y (viewPosition d))
  /\ saysNumber docData 9 (v_z (viewPosition d))
  /\ saysNumber docData 10 (q_x (viewQuaternion d))
  /\ saysNumber docData 11 (q_y (viewQuaternion d))
  /\ saysNumber docData 12 (q_z (viewQuaternion d))
  /\ saysNumber docData 13 (q_w (viewQuaternion d))
  /\ saysNumber docData 14 (v_x (billboardPosition d))
  /\ saysNumber docData 15 (v_y (billboardPosition d))
  /\ saysNumber docData 16 (v_z (billboardPosition d)).

End Collaborators.

(** ** Vocabulary of the statements *)

(** The opacity of the full image, as last assigned. *)
Definition opacity (w : World) : option domvalue :=
  getProperty "docFullImg" "style.opacity" w.

(** What a Document built at reference [i] looks like: a billboard has its
    two meshes, named after the document, and the plane carries the data a
    click reads; a Document without billboard has no mesh. *)
Definition built (i : docref) (d : Document) : bool :=
  match billboardGeometry d, billboardGeometryFrame d with
  | Some p, Some f =>
      useBillboard d
      && bool_decide (mesh_ref p = PlaneOf i)
      && bool_decide (mesh_ref f = FrameOf i)
      && bool_decide (ud_type (mesh_userData p) = Some "billboard")
      && bool_decide (ud_doc (mesh_userData p) = Some i)
  | None, None => negb (useBillboard d)
  | _, _ => false
  end.

(** Every document of the catalog is as its constructor left it, up to the
    turns of its meshes. *)
Definition consistent (w : World) : Prop :=
  forallb (fun p => built p.1 p.2) (imap pair (AllDocuments (this w))) = true.

(** Every loaded document's [index] is its position in [AllDocuments]. *)
Definition indexed (w : World) : Prop :=
  forallb (fun p => nstrict_eq (index p.2) (of_nat p.1))
          (imap pair (AllDocuments (this w))) = true.

(** The browser shows the document [d]. *)
Definition browserShows (d : Document) (w : World) : Prop :=
  getProperty "docBrowserPreviewImg" "src" w = Some (DStr (imageSourceBD d))
  /\ getProperty "docBrowserMetaData" "innerHTML" w = Some (DStr (metaData d))
  /\ getProperty "docBrowserTitle" "innerHTML" w = Some (DStr (title d))
  /\ getProperty "docBrowserIndex" "innerHTML" w
     = Some (DLabel "index : " (index d)).

(** The references of the meshes of the documents that use a billboard. *)
Definition billboardObjects (docs : list Document) : gset objref :=
  list_to_set
    (docs ≫= fun d =>
       if useBillboard d
       then omap (fun p => mesh_ref <$> mesh_of p d) [Plane; Frame]
       else []).

(** Every document that uses a billboard has its plane and its frame in the
    scene. *)
Definition billboardsShown (w : World) : Prop :=
  forall d, d ∈ AllDocuments (this w) -> useBillboard d = true ->
    exists p f, billboardGeometry d = Some p
                /\ billboardGeometryFrame d = Some f
                /\ mesh_ref p ∈ scene (env w) /\ mesh_ref f ∈ scene (env w).

(** No plane and no frame of a document is in the scene. *)
Definition billboardsHidden (w : World) : Prop :=
  forall d p m, d ∈ AllDocuments (this w) -> mesh_of p d = Some m ->
    mesh_ref m ∉ scene (env w).

(** What the scene of [w'] has and the scene of [w] had not is a mesh of a
    document that uses a billboard. *)
Definition onlyBillboardsAdded (w w' : World) : Prop :=
  forall x, x ∈ scene (env w') ->
    x ∈ scene (env w)
    \/ exists d p m, d ∈ AllDocuments (this w) /\ useBillboard d = true
                     /\ mesh_of p d = Some m /\ mesh_ref m = x.

(** The pose that [focusOnDoc] takes for valid. *)
Definition validPose (d : Document) : bool :=
  negb (isNaN (v_x (viewPosition d))) && negb (isNaN (q_x (viewQuaternion d))).

(** The full image of [d] is displayed, with opacity 0. *)
Definition displayedHidden (d : Document) (w : World) : Prop :=
  getProperty "docFullImg" "src" w = Some (DStr (imageSourceHD d))
  /\ getProperty "docFull" "style.display" w = Some (DStr "block")
  /\ opacity w = Some (DNum (Num 0)).

(** What [focusOnDoc] asks of its collaborators when it returns, latest
    first. *)
Definition focusCalls (d : Document) (w : World) : list command :=
  ([notifyChange false; notifyChange true]
   ++ match temporal (this w) with
      | Some _ => [changeTime (startDate d)]
      | None => []
      end
   ++ (if validPose d
       then [initiateTravel (viewPosition d) (viewQuaternion d)] else [])).


(** A method keeps [P] when the world it leaves satisfies [P] whenever the
    world it found did, whether it returns or throws. *)
Definition keeps (P : World -> Prop) (m : method) : Prop :=
  forall w, P w -> P (m w).2.

(** [P] does not look at the collaborators. *)
Definition envBlind (P : World -> Prop) : Prop :=
  forall f w, P w -> P (with_env f w).

(** [P] does not look at the catalog, the current document, or the flags of
    the billboards and of the browser window. *)
Definition catalogBlind (P : World -> Prop) : Prop :=
  (forall l w, P w -> P (with_this (set_AllDocuments l) w))
  /\ (forall c w, P w -> P (with_this (set_currentDoc c) w))
  /\ (forall b w, P w -> P (with_this (set_billboardsAreActive b) w))
  /\ (forall b w, P w -> P (with_this (set_docBrowserWindowIsActive b) w)).

(** The state of the oriented view. *)
Definition fadeState (w : World) : bool * bool * number * number :=
  (isOrientingDoc (this w), isFadingDoc (this w), fadeAlpha (this w),
   fadeDuration (this w)).

(** The state of the oriented view after an [update] that finds the
    controls idle or not and adds [dt] milliseconds. *)
Definition fadeStep (idle : bool) (dt : number)
    (s : bool * bool * number * number) : bool * bool * number * number :=
  let '(orienting, fading, alpha, duration) := s in
  let '(orienting, fading, alpha) :=
    if orienting && idle then (false, true, Num 0)
    else (orienting, fading, alpha) in
  if fading
  then let alpha := nadd alpha (ndiv dt duration) in
       (orienting, negb (nge alpha (Num 1)), alpha, duration)
  else (orienting, fading, alpha, duration).

(** The orienting and the fading flags are not both set. *)
Definition exclusive (w : World) : Prop :=
  isOrientingDoc (this w) && isFadingDoc (this w) = false.


(** The world [showBillboards] leaves when it goes past its guard. *)
Definition shownWorld (w : World) : World :=
  with_env (fun e => set_called (notifyChange true :: called e) e)
    (with_env
       (set_scene (scene (env w) ∪ billboardObjects (AllDocuments (this w))))
       (with_env
          (fun e => set_dom
             (<[("docBrowserToggleBillboard", "innerHTML") :=
                  DStr "Masquer Billboards"]> (dom e)) e) w)).

(** The world [hideBillboards] leaves when it goes past its guard. *)
Definition hiddenWorld (w : World) : World :=
  with_env (fun e => set_called (notifyChange true :: called e) e)
    (with_env
       (set_scene (scene (env w) ∖ billboardObjects (AllDocuments (this w))))
       (with_env
          (fun e => set_dom
             (<[("docBrowserToggleBillboard", "innerHTML") :=
                  DStr "Afficher Billboards"]> (dom e)) e) w)).

(** The document [d] once its billboard, if it has one, has turned to
    [target]. *)
Definition facing (target : Vector3) (d : Document) : Document :=
  if useBillboard d
  then match billboardGeometry d, billboardGeometryFrame d with
       | Some p, Some f =>
           set_mesh Frame (lookAt target f) (set_mesh Plane (lookAt target p) d)
       | _, _ => d
       end
  else d.


(** An assignment to an attribute of the handler that is neither the
    catalog, the flag of the billboards, nor one of the options. *)
Definition flagSetter (f : Handler -> Handler) : Prop :=
  forall h, AllDocuments (f h) = AllDocuments h
    /\ billboardsAreActive (f h) = billboardsAreActive h
    /\ fadeDuration (f h) = fadeDuration h
    /\ temporal (f h) = temporal h
    /\ showBillboardButton (f h) = showBillboardButton h.

(** The events that do not ask for the billboards: every event but a call
    of [toggleBillboards] (the listener of the button) and a call of
    [showBillboards] that forces them. *)
Definition quietEvent (ev : event) : bool :=
  match ev with
  | ToggleBillboards => false
  | ShowBillboards forceShow => negb forceShow
  | _ => true
  end.

Definition isInitialize (ev : event) : bool :=
  match ev with
  | Initialize _ => true
  | _ => false
  end.

(** The billboards have not been asked for: the flag is unset, the button
    is not displayed, and the scene holds nothing that [S0] did not. *)
Definition quiet (S0 : gset objref) (w : World) : Prop :=
  billboardsAreActive (this w) = false
  /\ scene (env w) ⊆ S0
  /\ getProperty "docBrowserToggleBillboard" "style.display" w
     = Some (DStr "none").

(** A mesh, and a document, whatever it looks at. *)
Definition unturnedMesh (m : Mesh) : Mesh :=
  {| mesh_ref := mesh_ref m; mesh_size := mesh_size m;
     mesh_material := mesh_material m; mesh_layer := mesh_layer m;
     mesh_position := mesh_position m; mesh_lookAt := None;
     mesh_userData := mesh_userData m |}.

Definition unturned (d : Document) : Document :=
  {| index := index d; doc_ID := doc_ID d;
     imageSourceHD := imageSourceHD d; imageSourceBD := imageSourceBD d;
     metaData := metaData d; startDate := startDate d; title := title d;
     useBillboard := useBillboard d;
     billboardPosition := billboardPosition d;
     viewPosition := viewPosition d; viewQuaternion := viewQuaternion d;
     billboardGeometry := unturnedMesh <$> billboardGeometry d;
     billboardGeometryFrame := unturnedMesh <$> billboardGeometryFrame d;
     docBillboardData := docBillboardData d |}.

(** The events after which the handler is never left with an exception,
    once constructed. *)
Definition neverThrows (ev : event) : bool :=
  match ev with
  | Update _ _ | ShowBillboards _ | HideBillboards _ | ToggleBillboards
  | CloseDocFull | ToggleDocBrowserWindow | ControlsMove _ _ => true
  | _ => false
  end.


(** The properties of the page that [focusOnDoc] assigns. *)
Definition focusWrites : list (string * string) :=
  [("docFullImg", "src"); ("docBrowserPreviewImg", "src");
   ("docFullImg", "style.opacity"); ("docOpaSlider", "value");
   ("docOpacity", "value"); ("docFull", "style.display");
   ("docFullPanel", "style.display");
   ("docBrowserToggleBillboard", "innerHTML")].


(** ** A small catalog, for the examples *)

Module Demo.

(** Reads an unsigned decimal integer; anything else is NaN. *)
Fixpoint readDigits (s : string) (acc : option Z) : option Z :=
  match s with
  | EmptyString => acc
  | String c rest =>
      let n := (Z.of_nat (nat_of_ascii c) - 48)%Z in
      if (0 <=? n)%Z && (n <=? 9)%Z
      then readDigits rest (Some (10 * default 0%Z acc + n)%Z)
      else None
  end.

Definition object_of (m : Mesh) : Object3D :=
  {| object_ref := mesh_ref m; userData := mesh_userData m |}.

(** A ray that goes through a foreign object, then through the frame and the
    plane of every billboard that is in the scene. *)
Definition throughEverything (x y : number) (w : World) : list Object3D :=
  {| object_ref := Foreign 0; userData := no_userData |} ::
  (AllDocuments (this w) ≫= fun d =>
     match billboardGeometryFrame d, billboardGeometry d with
     | Some f, Some p =>
         if bool_decide (mesh_ref p ∈ scene (env w))
         then [object_of f; object_of p] else []
     | _, _ => []
     end).

Definition platform : Platform :=
  {| parseFloat := fun s => match readDigits s None with
                            | Some z => Num (inject_Z z)
                            | None => NaN
                            end;
     intersectObjects := throughEverything |}.

Definition rows : list (list string) :=
  [ ["0"; "101"; "a_hd.jpg"; "a.jpg"; "Bellecour"; "1900-01-01"; "photograph";
     "10"; "20"; "30"; "0"; "0"; "0"; "1"; "5"; "6"; "7"];
    ["1"; "205"; "b_hd.jpg"; "b.jpg"; "Fourviere"; "1920-06-01"; "postcard";
     ""; ""; ""; ""; ""; ""; ""; ""; ""; ""];
    ["2"; "317"; "c_hd.jpg"; "c.jpg"; "Part-Dieu"; "1975-03-01"; "plan";
     "40"; "50"; "60"; "0"; "1"; "0"; "0"; "8"; "9"; "3"] ].

Definition page : Env :=
  {| dom := ∅;
     scene := {[Foreign 0]};
     controls_state := -1;
     camera_position := {| v_x := Num 0; v_y := Num 0; v_z := Num 100 |};
     innerWidth := Num 800;
     innerHeight := Num 600;
     global_temporal := None;
     called := [] |}.

Definition options : Options :=
  {| docBrowserWindowStartActive := None;
     options_temporal := None;
     docFadeDuration := Some (Num 1000) |}.

(** The handler once its catalog is loaded. *)
Definition loaded : World :=
  @run platform [Initialize rows] (DocumentsHandler options page).

(** The same, with the billboards shown. *)
Definition shown : World := @run platform [ToggleBillboards] loaded.

(** A frame of [dt] milliseconds that finds the controls in [state]. *)
Definition after (state : Z) (dt : Q) : frame :=
  {| frame_state := state; frame_camera := camera_position page;
     frame_dt := Num dt; frame_restarted := false |}.

(** The loaded handler after [focusOnDoc()]. *)
Definition focused : World := (focusOnDoc loaded).2.

(** The first document of the catalog. *)
Definition bellecour : Document :=
  new_Document 0 "Bellecour" (Num 0) (Num 101)
    "Vilo3D/Docs/a_hd.jpg" "Vilo3D/Docs/a.jpg"
    {| v_x := Num 5; v_y := Num 6; v_z := Num 7 |}
    {| v_x := Num 10; v_y := Num 20; v_z := Num 30 |}
    {| q_x := Num 0; q_y := Num 0; q_z := Num 0; q_w := Num 1 |}
    (moment "1900-01-01") "photograph".

(** A handler that was given a TemporalController, in a page where nothing
    global is named [temporal]; its catalog is loaded and its billboards are
    shown. *)
Definition dated : World :=
  @run platform [Initialize rows; ToggleBillboards]
    (DocumentsHandler
       {| docBrowserWindowStartActive := None;
          options_temporal := Some 0;
          docFadeDuration := None |}
       page).

(** The plane of the billboard of the first document. *)
Definition plane : Mesh :=
  {| mesh_ref := PlaneOf 0; mesh_size := (80, 50)%Z;
     mesh_material := TextureMaterial "Vilo3D/Docs/a.jpg";
     mesh_layer := 1;
     mesh_position := {| v_x := Num 5; v_y := Num 6; v_z := Num 7 |};
     mesh_lookAt := None;
     mesh_userData := {| ud_type := Some "billboard"; ud_doc := Some 0 |} |}.

(** A row that stops after its metadata. *)
Definition cut : list string :=
  ["3"; "409"; "d_hd.jpg"; "d.jpg"; "Croix-Rousse"; "1950-01-01"; "map"].

(** A click in the middle of the window. *)
Definition click : MouseEvent := {| clientX := Num 400; clientY := Num 300 |}.


(** The oriented view of a fade of 1000 ms, as [focusOnDoc] leaves it once
    the travel is over. *)
Definition oriented : Binary64.Oriented :=
  {| Binary64.isOrientingDoc := true; Binary64.isFadingDoc := false;
     Binary64.fadeAlpha := Binary64.of_Z 0;
     Binary64.fadeDuration := Binary64.of_Z 1000;
     Binary64.controls_state := -1;
     Binary64.img_opacity := Some (Binary64.of_Z 0);
     Binary64.slider_value := Some (Binary64.of_Z 0);
     Binary64.output_value := Some (Binary64.of_Z 0);
     Binary64.panel_display := Some "none";
     Binary64.notified := 1 |}.

(** A frame of [dt] milliseconds that finds the controls idle. *)
Definition tick (dt : Z) : Binary64.frame :=
  {| Binary64.frame_state := -1; Binary64.frame_dt := Binary64.of_Z dt;
     Binary64.frame_restarted := false |}.

End Demo.

(** * Properties *)

Section Properties.

Context `{Platform}.

(** ** Sequencing *)

Lemma keeps_skip P : keeps P skip.
Proof. intros w Hw. exact Hw. Qed.

Lemma keeps_throw P e : keeps P (throw e).
Proof. intros w Hw. exact Hw. Qed.

Lemma keeps_andThen P a b : keeps P a -> keeps P b -> keeps P (a ;; b).
Proof.
  intros Ha Hb w Hw. unfold andThen.
  specialize (Ha w Hw). destruct (a w) as [[|e] w']; simpl in *.
  - apply Hb, Ha.
  - exact Ha.
Qed.

Lemma keeps_ifElse P c a b : keeps P a -> keeps P b -> keeps P (ifElse c a b).
Proof.
  intros Ha Hb w Hw. unfold ifElse. destruct (c w); [apply Ha | apply Hb]; exact Hw.
Qed.

Lemma keeps_reading P (m : World -> method) :
  (forall w0, keeps P (m w0)) -> keeps P (fun w => m w w).
Proof. intros Hm w Hw. apply Hm, Hw. Qed.

Lemma keeps_withCurrentDoc P k :
  (forall d, keeps P (k d)) -> keeps P (withCurrentDoc k).
Proof.
  intros Hk w Hw. unfold withCurrentDoc.
  destruct (currentDocument w); [apply Hk, Hw | exact Hw].
Qed.

Lemma keeps_forEach_from P body n :
  (forall i d, keeps P (body i d)) -> forall i, keeps P (forEach_from n i body).
Proof.
  intros Hbody. induction n as [|n IH]; intros i w Hw; simpl.
  - exact Hw.
  - destruct (AllDocuments (this w) !! i) as [d|]; [|exact Hw].
    apply (keeps_andThen P); [apply Hbody | apply IH | exact Hw].
Qed.

Lemma keeps_forEach P body :
  (forall i d, keeps P (body i d)) -> keeps P (forEach body).
Proof. intros Hbody w Hw. unfold forEach. apply keeps_forEach_from; assumption. Qed.

Lemma keeps_if P (c : bool) a b : keeps P a -> keeps P b -> keeps P (if c then a else b).
Proof. destruct c; auto. Qed.

Lemma keeps_setProperty P id prop v : envBlind P -> keeps P (setProperty id prop v).
Proof. intros HP w Hw. apply HP, Hw. Qed.

Lemma keeps_call P c : envBlind P -> keeps P (call c).
Proof. intros HP w Hw. apply HP, Hw. Qed.

Lemma keeps_sceneAdd P x : envBlind P -> keeps P (sceneAdd x).
Proof. intros HP w Hw. destruct x; [apply HP, Hw | exact Hw]. Qed.

Lemma keeps_sceneRemove P x : envBlind P -> keeps P (sceneRemove x).
Proof. intros HP w Hw. destruct x; [apply HP, Hw | exact Hw]. Qed.

Lemma keeps_updateMatrixWorld P i p : keeps P (updateMatrixWorld i p).
Proof.
  intros w Hw. unfold updateMatrixWorld.
  destruct (AllDocuments (this w) !! i) as [d|]; [|exact Hw].
  destruct (mesh_of p d); exact Hw.
Qed.

(** ** The Document constructor *)

Lemma new_Document_useBillboard self t i id hd bd pos vp vq date md :
  useBillboard (new_Document self t i id hd bd pos vp vq date md)
  = negb (isNaN (v_x pos)) && negb (isNaN (v_y pos)) && negb (isNaN (v_z pos)).
Proof.
  unfold new_Document. simpl.
  destruct (negb (isNaN (v_x pos)) && negb (isNaN (v_y pos))
            && negb (isNaN (v_z pos))); reflexivity.
Qed.

Lemma new_Document_built self t i id hd bd pos vp vq date md :
  built self (new_Document self t i id hd bd pos vp vq date md) = true.
Proof.
  unfold new_Document, built. simpl.
  destruct (negb (isNaN (v_x pos)) && negb (isNaN (v_y pos))
            && negb (isNaN (v_z pos))) eqn:E; simpl; rewrite ?E; simpl.
  - rewrite !bool_decide_eq_true_2; reflexivity.
  - reflexivity.
Qed.

(** C7. The billboard position of a Document is optional and its absence is
    written with NaN: [useBillboard] is true exactly when none of the three
    coordinates of the position given to the constructor is NaN; the plane
    and the frame are created exactly when [useBillboard] is true (both
    stay null otherwise), and both are placed at that position. *)
Theorem billboard_iff_position_given self t i id hd bd pos vp vq date md :
  let d := new_Document self t i id hd bd pos vp vq date md in
  (useBillboard d = true
   <-> isNaN (v_x pos) = false /\ isNaN (v_y pos) = false
       /\ isNaN (v_z pos) = false)
  /\ (useBillboard d = true ->
      exists p f, billboardGeometry d = Some p
                  /\ billboardGeometryFrame d = Some f
                  /\ mesh_position p = pos /\ mesh_position f = pos
                  /\ mesh_ref p = PlaneOf self /\ mesh_ref f = FrameOf self)
  /\ (useBillboard d = false ->
      billboardGeometry d = None /\ billboardGeometryFrame d = None)
  /\ billboardPosition d = pos.
Proof.
  intros d. subst d. unfold new_Document. simpl.
  destruct (isNaN (v_x pos)), (isNaN (v_y pos)), (isNaN (v_z pos)); simpl;
    (split; [intuition congruence|]);
    (split; [intros; try discriminate; eexists _, _; repeat split|]);
    (split; [intros; try discriminate; split; reflexivity | reflexivity]).
Qed.

(** ** The browser window *)

(** C9. [toggleDocBrowserWindow()] never changes [docBrowserWindowIsActive]:
    it returns, the flag is what it was, the window is displayed as the flag
    says, and any number of further calls leaves the flag and the display of
    the window as the first call did. *)
Theorem toggleDocBrowserWindow_keeps_flag (w : World) :
  let shown (b : bool) := DStr (if b then "block" else "none") in
  (exists w', toggleDocBrowserWindow w = (Returned, w')
     /\ docBrowserWindowIsActive (this w') = docBrowserWindowIsActive (this w)
     /\ getProperty "docBrowserWindow" "style.display" w'
        = Some (shown (docBrowserWindowIsActive (this w))))
  /\ forall n,
       let w' := run (replicate (S n) ToggleDocBrowserWindow) w in
       docBrowserWindowIsActive (this w') = docBrowserWindowIsActive (this w)
       /\ getProperty "docBrowserWindow" "style.display" w'
          = Some (shown (docBrowserWindowIsActive (this w))).
Proof.
  intros shown.
  assert (Hone : forall v,
    docBrowserWindowIsActive (this (toggleDocBrowserWindow v).2)
      = docBrowserWindowIsActive (this v)
    /\ getProperty "docBrowserWindow" "style.display" (toggleDocBrowserWindow v).2
       = Some (shown (docBrowserWindowIsActive (this v)))).
  { intros v. unfold toggleDocBrowserWindow, getProperty. cbn.
    rewrite lookup_insert_eq. split; [|reflexivity].
    destruct (docBrowserWindowIsActive (this v)); reflexivity. }
  split.
  - eexists. split; [reflexivity|]. apply Hone.
  - intros n. induction n as [|n IH].
    + apply Hone.
    + cbn zeta in *. rewrite replicate_S_end. unfold run in *.
      rewrite foldl_app. cbn [foldl handle].
      destruct IH as [IHf IHd].
      destruct (Hone (foldl (fun w ev => (handle ev w).2) w
                        (replicate (S n) ToggleDocBrowserWindow))) as [Hf Hd].
      rewrite Hf, Hd, IHf. split; reflexivity.
Qed.

(** ** What the methods leave alone *)

Create HintDb keeps discriminated.

Hint Resolve keeps_skip keeps_throw keeps_andThen keeps_ifElse keeps_if
  keeps_withCurrentDoc keeps_forEach keeps_setProperty keeps_call
  keeps_sceneAdd keeps_sceneRemove keeps_updateMatrixWorld : keeps.

Lemma keeps_assign P f :
  (forall w, P w -> P (with_this f w)) -> keeps P (assign f).
Proof. intros Hf w Hw. apply Hf, Hw. Qed.

Lemma keeps_showBillboards P b : envBlind P -> keeps P (showBillboards b).
Proof.
  intros HP. unfold showBillboards. auto 12 with keeps.
Qed.

Lemma keeps_hideBillboards P b : envBlind P -> keeps P (hideBillboards b).
Proof.
  intros HP. unfold hideBillboards. auto 12 with keeps.
Qed.

Lemma keeps_updateBrowser P : envBlind P -> keeps P updateBrowser.
Proof. intros HP. unfold updateBrowser. auto 10 with keeps. Qed.

Lemma keeps_setCurrentDocAt P x : catalogBlind P -> keeps P (setCurrentDocAt x).
Proof. intros (_ & Hc & _) w Hw. apply Hc, Hw. Qed.

Lemma keeps_meshLookAt P i p target :
  catalogBlind P -> keeps P (meshLookAt i p target).
Proof.
  intros (Hl & _) w Hw. unfold meshLookAt.
  destruct (AllDocuments (this w) !! i) as [d|]; [|exact Hw].
  destruct (mesh_of p d); [apply Hl, Hw | exact Hw].
Qed.

Lemma keeps_billboardsLookAtCamera P :
  catalogBlind P -> keeps P billboardsLookAtCamera.
Proof.
  intros HP. unfold billboardsLookAtCamera. apply keeps_forEach. intros i d.
  apply keeps_if; [apply keeps_skip|].
  apply (keeps_reading P (fun w0 =>
    meshLookAt i Plane (camera_position (env w0)) ;;
    meshLookAt i Frame (camera_position (env w0)) ;;
    updateMatrixWorld i Plane ;; updateMatrixWorld i Frame)).
  intros w0.
  repeat apply keeps_andThen;
    auto using keeps_meshLookAt, keeps_updateMatrixWorld.
Qed.

Section Blind.

Variable P : World -> Prop.
Hypothesis P_env : envBlind P.
Hypothesis P_catalog : catalogBlind P.

Lemma keeps_toggleBillboards : keeps P toggleBillboards.
Proof.
  destruct P_catalog as (_ & _ & Hb & _). unfold toggleBillboards.
  apply keeps_ifElse; apply keeps_andThen;
    auto using keeps_assign, keeps_showBillboards, keeps_hideBillboards.
Qed.

Lemma keeps_nextDoc : keeps P nextDoc.
Proof.
  unfold nextDoc. apply keeps_withCurrentDoc. intros d.
  apply keeps_ifElse; [apply keeps_skip|].
  apply keeps_andThen; auto using keeps_setCurrentDocAt, keeps_updateBrowser.
Qed.

Lemma keeps_previousDoc : keeps P previousDoc.
Proof.
  unfold previousDoc. apply keeps_withCurrentDoc. intros d.
  apply keeps_if; [apply keeps_skip|].
  apply keeps_andThen; auto using keeps_setCurrentDocAt, keeps_updateBrowser.
Qed.

Lemma keeps_closeDocFull : keeps P closeDocFull.
Proof.
  unfold closeDocFull.
  repeat apply keeps_andThen;
    auto using keeps_setProperty, keeps_showBillboards.
Qed.

Lemma keeps_toggleDocBrowserWindow : keeps P toggleDocBrowserWindow.
Proof.
  destruct P_catalog as (_ & _ & _ & Hb). unfold toggleDocBrowserWindow.
  apply keeps_andThen; intros w Hw; [apply P_env, Hw | apply Hb, Hw].
Qed.

Lemma keeps_fillAllDocuments rows : keeps P (fillAllDocuments rows).
Proof.
  destruct P_catalog as (Hl & _).
  induction rows as [|docData rest IH]; simpl; [apply keeps_skip|].
  apply keeps_andThen; [|exact IH].
  intros w Hw. destruct (readRow _ docData); [apply Hl, Hw | exact Hw].
Qed.

Lemma keeps_initialize rows : keeps P (initialize rows).
Proof.
  unfold initialize.
  repeat apply keeps_andThen;
    auto using keeps_fillAllDocuments, keeps_setCurrentDocAt,
      keeps_updateBrowser, keeps_call.
  apply keeps_ifElse; auto using keeps_showBillboards, keeps_hideBillboards.
Qed.

End Blind.

(** ** The oriented view: orienting, then fading *)

Lemma fadeState_envBlind c : envBlind (fun w => fadeState w = c).
Proof. intros f w Hw. exact Hw. Qed.

Lemma fadeState_catalogBlind c : catalogBlind (fun w => fadeState w = c).
Proof. repeat split; intros ? w Hw; exact Hw. Qed.

Lemma andThen_returned (a b : method) w w1 :
  a w = (Returned, w1) -> (a ;; b) w = b w1.
Proof. intros E. unfold andThen. rewrite E. reflexivity. Qed.

Lemma andThen_thrown (a b : method) w w1 e :
  a w = (Thrown e, w1) -> (a ;; b) w = (Thrown e, w1).
Proof. intros E. unfold andThen. rewrite E. reflexivity. Qed.

Ltac unfold_methods :=
  unfold andThen, ifElse, assign, setProperty, call, skip, throw in *.

Ltac dom_lookup :=
  unfold opacity, getProperty; cbn;
  repeat first [ rewrite lookup_insert_eq
               | rewrite lookup_insert_ne by discriminate ].

#[local] Set Warnings "-clear-no-such-hyp".

Lemma beginFade_spec w :
  exists w', beginFade w = (Returned, w')
    /\ fadeState w' = (false, true, Num 0, fadeDuration (this w))
    /\ opacity w' = Some (DNum (Num 0))
    /\ AllDocuments (this w') = AllDocuments (this w)
    /\ currentDoc (this w') = currentDoc (this w).
Proof.
  eexists. split; [reflexivity|]. repeat split; try reflexivity.
  dom_lookup. reflexivity.
Qed.

Lemma fade_spec dt w :
  let a := nadd (fadeAlpha (this w)) (ndiv dt (fadeDuration (this w))) in
  exists w', fade dt w = (Returned, w')
    /\ fadeState w'
       = (isOrientingDoc (this w),
          isFadingDoc (this w) && negb (nge a (Num 1)), a,
          fadeDuration (this w))
    /\ opacity w' = Some (DNum (if nge a (Num 1) then Num 1 else a))
    /\ AllDocuments (this w') = AllDocuments (this w)
    /\ currentDoc (this w') = currentDoc (this w).
Proof.
  intros a. unfold fade. unfold_methods. cbn. fold a.
  destruct (nge a (Num 1)); cbn; eexists; (split; [reflexivity|]);
    unfold fadeState; dom_lookup;
    rewrite ?andb_true_r, ?andb_false_r;
    repeat split; reflexivity.
Qed.

Lemma update_fadeState dt r w :
  fadeState (update dt r w).2
  = fadeStep (controls_state (env w) =? -1)%Z (if r then Num 16 else dt)
      (fadeState w).
Proof.
  unfold update. cbv zeta.
  set (dt' := if r then Num 16 else dt).
  set (idle := (controls_state (env w) =? -1)%Z).
  assert (E1 : exists w1,
    ifElse (fun w => isOrientingDoc (this w)
                     && (controls_state (env w) =? -1)%Z) beginFade skip w
      = (Returned, w1)
    /\ fadeState w1
       = (if isOrientingDoc (this w) && idle
          then (false, true, Num 0, fadeDuration (this w)) else fadeState w)).
  { unfold ifElse. fold idle. destruct (isOrientingDoc (this w) && idle).
    - destruct (beginFade_spec w) as (w1 & E & F & _). eauto.
    - eexists. split; reflexivity. }
  destruct E1 as (w1 & E1 & F1).
  rewrite (andThen_returned _ _ _ _ E1).
  assert (E2 : exists w2,
    ifElse (fun w => isFadingDoc (this w)) (fade dt') skip w1 = (Returned, w2)
    /\ fadeState w2
       = (if isFadingDoc (this w1)
          then (isOrientingDoc (this w1),
                negb (nge (nadd (fadeAlpha (this w1))
                                (ndiv dt' (fadeDuration (this w1)))) (Num 1)),
                nadd (fadeAlpha (this w1)) (ndiv dt' (fadeDuration (this w1))),
                fadeDuration (this w1))
          else fadeState w1)).
  { unfold ifElse. destruct (isFadingDoc (this w1)) eqn:Ef.
    - destruct (fade_spec dt' w1) as (w2 & E & F & _).
      rewrite Ef in F. eauto.
    - eexists. split; reflexivity. }
  destruct E2 as (w2 & E2 & F2).
  rewrite (andThen_returned _ _ _ _ E2).
  rewrite (keeps_billboardsLookAtCamera _
             (fadeState_catalogBlind (fadeState w2)) w2 eq_refl).
  rewrite F2. unfold fadeStep. unfold fadeState in F1 |- *.
  destruct (isOrientingDoc (this w) && idle);
    inversion F1 as [[Ho Hf Ha Hd]]; rewrite ?Ho, ?Hf, ?Ha, ?Hd; cbn;
    [reflexivity|].
  destruct (isFadingDoc (this w)); reflexivity.
Qed.

Lemma exclusive_envBlind : envBlind exclusive.
Proof. intros f w Hw. exact Hw. Qed.

Lemma exclusive_catalogBlind : catalogBlind exclusive.
Proof. repeat split; intros ? w Hw; exact Hw. Qed.

Lemma keeps_displayHidden P d : envBlind P -> keeps P (displayHidden d).
Proof. intros HP. unfold displayHidden. auto 10 with keeps. Qed.

Lemma keeps_travelToView P d : envBlind P -> keeps P (travelToView d).
Proof. intros HP. unfold travelToView. auto with keeps. Qed.

Lemma keeps_adjustDate P d : envBlind P -> keeps P (adjustDate d).
Proof.
  intros HP. unfold adjustDate. apply keeps_ifElse; [|apply keeps_skip].
  intros w Hw. destruct (global_temporal (env w)); [apply HP, Hw | exact Hw].
Qed.

(** Up to its last three statements [focusOnDoc] keeps whatever does not
    look at the collaborators. *)
Lemma keeps_focusOnDoc P :
  envBlind P ->
  (forall w, P w ->
     P (with_this (set_isFadingDoc false)
          (with_this (set_isOrientingDoc true) w))) ->
  keeps P focusOnDoc.
Proof.
  intros HP Hset. unfold focusOnDoc. apply keeps_withCurrentDoc. intros d.
  do 4 (apply keeps_andThen;
        [auto using keeps_displayHidden, keeps_travelToView, keeps_adjustDate,
           keeps_hideBillboards|]).
  intros w Hw. cbn. apply HP, Hset, Hw.
Qed.

Lemma keeps_focusOnFirstBillboard P hits :
  envBlind P ->
  (forall c w, P w -> P (with_this (set_currentDoc c) w)) ->
  (forall w, P w ->
     P (with_this (set_isFadingDoc false)
          (with_this (set_isOrientingDoc true) w))) ->
  keeps P (focusOnFirstBillboard hits).
Proof.
  intros HP Hcur Hset. induction hits as [|o rest IH]; simpl.
  - apply keeps_skip.
  - destruct (decide (ud_type (userData o) = Some "billboard")); [|exact IH].
    apply keeps_andThen; [apply keeps_assign, Hcur|].
    apply keeps_focusOnDoc; assumption.
Qed.

Lemma exclusive_fadeStep idle dt w s :
  exclusive w -> fadeState s = fadeStep idle dt (fadeState w) -> exclusive s.
Proof.
  unfold exclusive, fadeState, fadeStep. intros Hw Hs.
  destruct (isOrientingDoc (this w)), (isFadingDoc (this w)), idle;
    try discriminate; cbn in Hs;
    destruct (isOrientingDoc (this s)), (isFadingDoc (this s));
    try reflexivity; discriminate.
Qed.

Lemma keeps_exclusive ev : keeps exclusive (handle ev).
Proof.
  pose proof exclusive_envBlind as He.
  pose proof exclusive_catalogBlind as Hc.
  destruct ev; simpl.
  - apply keeps_initialize; assumption.
  - intros w Hw. eapply exclusive_fadeStep; [exact Hw | apply update_fadeState].
  - apply keeps_nextDoc; assumption.
  - apply keeps_previousDoc; assumption.
  - apply keeps_showBillboards; assumption.
  - apply keeps_hideBillboards; assumption.
  - apply keeps_toggleBillboards; assumption.
  - apply keeps_focusOnDoc; [assumption|]. intros w _. reflexivity.
  - apply keeps_closeDocFull; assumption.
  - apply keeps_toggleDocBrowserWindow; assumption.
  - intros w Hw. unfold onMouseClick.
    apply keeps_focusOnFirstBillboard; try assumption.
    + intros c v Hv. exact Hv.
    + intros v _. reflexivity.
  - intros w Hw. exact Hw.
Qed.

Lemma run_app evs evs' w : run (evs ++ evs') w = run evs' (run evs w).
Proof. unfold run. apply foldl_app. Qed.

Lemma run_cons ev evs w : run (ev :: evs) w = run evs (handle ev w).2.
Proof. reflexivity. Qed.

Lemma keeps_run P evs :
  (forall ev, keeps P (handle ev)) -> forall w, P w -> P (run evs w).
Proof.
  intros HP. induction evs as [|ev evs IH]; intros w Hw.
  - exact Hw.
  - rewrite run_cons. apply IH, HP, Hw.
Qed.

(** C10. The orienting and the fading flags are mutually exclusive: whatever
    the options, the page and the events that follow the construction of the
    handler (calls of any of its methods, [focusOnDoc] and [update] among
    them, and moves of the controls), the two flags are not both set.  A
    [focusOnDoc] that returns leaves orienting set and fading unset, and an
    [update] sets fading only if it found orienting set and unsets it. *)
Theorem orienting_and_fading_exclusive (options : Options) (page : Env) :
  (forall evs, exclusive (run evs (DocumentsHandler options page)))
  /\ (forall w w', focusOnDoc w = (Returned, w') ->
        isOrientingDoc (this w') = true /\ isFadingDoc (this w') = false)
  /\ (forall dt r w,
        isFadingDoc (this w) = false ->
        isFadingDoc (this (update dt r w).2) = true ->
        isOrientingDoc (this w) = true
        /\ isOrientingDoc (this (update dt r w).2) = false).
Proof.
  split; [|split].
  - intros evs. apply keeps_run; [apply keeps_exclusive | reflexivity].
  - intros w w' E.
    unfold focusOnDoc, withCurrentDoc in E.
    destruct (currentDocument w) as [d|]; [|discriminate].
    revert E. unfold andThen.
    destruct (displayHidden d w) as [[|?] w1]; [|discriminate].
    destruct (travelToView d w1) as [[|?] w2]; [|discriminate].
    destruct (adjustDate d w2) as [[|?] w3]; [|discriminate].
    destruct (hideBillboards true w3) as [[|?] w4]; [|discriminate].
    cbn. intros E. inversion E. split; reflexivity.
  - intros dt r w Hf Hf'.
    pose proof (update_fadeState dt r w) as E.
    unfold fadeState, fadeStep in E. rewrite Hf, Hf' in E.
    destruct (isOrientingDoc (this w)), (controls_state (env w) =? -1)%Z;
      cbn in E; inversion E; split; reflexivity.
Qed.

(** ** The catalog as the constructor built it *)

Lemma consistent_lookup w :
  consistent w <->
  forall i d, AllDocuments (this w) !! i = Some d -> built i d = true.
Proof.
  unfold consistent. rewrite forallb_forall. split.
  - intros Hall i d Hi. apply (Hall (i, d)). apply list_elem_of_In.
    apply elem_of_lookup_imap. eauto.
  - intros Hall [i d] Hin. apply list_elem_of_In in Hin.
    apply elem_of_lookup_imap in Hin as (j & y & E & Hj).
    inversion E; subst. simpl. eauto.
Qed.

Lemma consistent_built w i d :
  consistent w -> AllDocuments (this w) !! i = Some d -> built i d = true.
Proof. intros Hc. apply (proj1 (consistent_lookup w) Hc). Qed.

Lemma indexed_lookup w :
  indexed w <->
  forall i d, AllDocuments (this w) !! i = Some d ->
              nstrict_eq (index d) (of_nat i) = true.
Proof.
  unfold indexed. rewrite forallb_forall. split.
  - intros Hall i d Hi. apply (Hall (i, d)). apply list_elem_of_In.
    apply elem_of_lookup_imap. eauto.
  - intros Hall [i d] Hin. apply list_elem_of_In in Hin.
    apply elem_of_lookup_imap in Hin as (j & y & E & Hj).
    inversion E; subst. simpl. eauto.
Qed.

Lemma built_meshes i d :
  built i d = true -> useBillboard d = true ->
  exists p f, billboardGeometry d = Some p /\ billboardGeometryFrame d = Some f
    /\ mesh_ref p = PlaneOf i /\ mesh_ref f = FrameOf i
    /\ ud_type (mesh_userData p) = Some "billboard"
    /\ ud_doc (mesh_userData p) = Some i.
Proof.
  unfold built. intros Hb Hu. rewrite Hu in Hb.
  destruct (billboardGeometry d) as [p|], (billboardGeometryFrame d) as [f|];
    try discriminate.
  rewrite !andb_true_iff, !bool_decide_eq_true in Hb.
  destruct Hb as ((((_ & ?) & ?) & ?) & ?). eauto 10.
Qed.

Lemma built_no_meshes i d :
  built i d = true -> useBillboard d = false ->
  billboardGeometry d = None /\ billboardGeometryFrame d = None.
Proof.
  unfold built. intros Hb Hu. rewrite Hu in Hb.
  destruct (billboardGeometry d), (billboardGeometryFrame d);
    try discriminate; auto.
Qed.

Lemma built_lookAt i d p m target :
  built i d = true -> mesh_of p d = Some m ->
  built i (set_mesh p (lookAt target m) d) = true.
Proof.
  unfold built. intros Hb Hm.
  destruct p; simpl in *; rewrite Hm in Hb; simpl;
    [destruct (billboardGeometryFrame d) | destruct (billboardGeometry d)];
    try discriminate; exact Hb.
Qed.

Lemma consistent_envBlind : envBlind consistent.
Proof. intros f w Hw. exact Hw. Qed.

Lemma keeps_consistent_meshLookAt i p target :
  keeps consistent (meshLookAt i p target).
Proof.
  intros w Hw. unfold meshLookAt.
  destruct (AllDocuments (this w) !! i) as [d|] eqn:Ed; [|exact Hw].
  destruct (mesh_of p d) as [m|] eqn:Em; [|exact Hw].
  apply consistent_lookup. intros j dj Hj. simpl in Hj.
  rewrite consistent_lookup in Hw.
  destruct (decide (i = j)) as [->|Hne].
  - rewrite list_lookup_insert_eq in Hj by (eapply lookup_lt_Some; eauto).
    inversion Hj; subst. apply built_lookAt; eauto.
  - rewrite list_lookup_insert_ne in Hj by assumption. eauto.
Qed.

Lemma keeps_consistent_fillAllDocuments rows :
  keeps consistent (fillAllDocuments rows).
Proof.
  induction rows as [|docData rest IH]; simpl; [apply keeps_skip|].
  apply keeps_andThen; [|exact IH].
  intros w Hw. destruct (readRow _ docData) as [doc|] eqn:Er; [|exact Hw].
  apply consistent_lookup. intros j dj Hj. simpl in Hj.
  rewrite consistent_lookup in Hw.
  apply lookup_app_Some in Hj as [Hj|[Hlen Hj]]; [eauto|].
  apply list_lookup_singleton_Some in Hj as [Hz ->].
  assert (j = length (AllDocuments (this w))) as -> by lia.
  unfold readRow in Er.
  destruct (docData !! 4); [|discriminate].
  destruct (docData !! 5); [|discriminate].
  destruct (docData !! 6); [|discriminate].
  simpl in Er. inversion Er. apply new_Document_built.
Qed.

Lemma keeps_consistent ev : keeps consistent (handle ev).
Proof.
  pose proof consistent_envBlind as He.
  assert (Hcur : forall c w, consistent w ->
                   consistent (with_this (set_currentDoc c) w))
    by (intros c w Hw; exact Hw).
  destruct ev; simpl.
  - unfold initialize.
    repeat apply keeps_andThen;
      auto using keeps_consistent_fillAllDocuments, keeps_updateBrowser,
        keeps_call.
    + intros w Hw. exact Hw.
    + apply keeps_ifElse;
        auto using keeps_showBillboards, keeps_hideBillboards.
  - unfold update. cbv zeta. repeat apply keeps_andThen.
    + apply keeps_ifElse; [|apply keeps_skip]. intros w Hw. exact Hw.
    + apply keeps_ifElse; [|apply keeps_skip]. intros w Hw.
      destruct (fade_spec (if updateLoopRestarted then Num 16 else dt) w)
        as (w' & E & _ & _ & Hd & _).
      rewrite E. apply consistent_lookup. simpl. rewrite Hd.
      apply consistent_lookup, Hw.
    + unfold billboardsLookAtCamera. apply keeps_forEach. intros i d.
      apply keeps_if; [apply keeps_skip|].
      apply (keeps_reading consistent (fun w0 =>
        meshLookAt i Plane (camera_position (env w0)) ;;
        meshLookAt i Frame (camera_position (env w0)) ;;
        updateMatrixWorld i Plane ;; updateMatrixWorld i Frame)).
      intros w0.
      repeat apply keeps_andThen;
        auto using keeps_consistent_meshLookAt, keeps_updateMatrixWorld.
  - unfold nextDoc. apply keeps_withCurrentDoc. intros d.
    apply keeps_ifElse; [apply keeps_skip|].
    apply keeps_andThen; [|auto using keeps_updateBrowser].
    intros w Hw. exact Hw.
  - unfold previousDoc. apply keeps_withCurrentDoc. intros d.
    apply keeps_if; [apply keeps_skip|].
    apply keeps_andThen; [|auto using keeps_updateBrowser].
    intros w Hw. exact Hw.
  - apply keeps_showBillboards; assumption.
  - apply keeps_hideBillboards; assumption.
  - unfold toggleBillboards.
    apply keeps_ifElse; apply keeps_andThen;
      auto using keeps_showBillboards, keeps_hideBillboards;
      intros w Hw; exact Hw.
  - apply keeps_focusOnDoc; [assumption|]. intros w Hw. exact Hw.
  - unfold closeDocFull.
    repeat apply keeps_andThen;
      auto using keeps_setProperty, keeps_showBillboards.
  - unfold toggleDocBrowserWindow.
    apply keeps_andThen; intros w Hw; exact Hw.
  - intros w Hw. unfold onMouseClick.
    apply keeps_focusOnFirstBillboard; try assumption.
    intros v Hv. exact Hv.
  - intros w Hw. exact Hw.
Qed.

Lemma consistent_DocumentsHandler options page :
  consistent (DocumentsHandler options page).
Proof. reflexivity. Qed.

(** The catalog is consistent in every world a handler can be in. *)
Lemma consistent_run options page evs :
  consistent (run evs (DocumentsHandler options page)).
Proof.
  apply keeps_run; [apply keeps_consistent | apply consistent_DocumentsHandler].
Qed.

(** ** Loops over the catalog *)

(** A loop whose every turn returns and moves an invariant to the next
    position returns, with the invariant at the end of the catalog. *)
Lemma forEach_from_returns (I : nat -> World -> Prop) body L :
  (forall k w, k < L -> I k w ->
     exists d w', AllDocuments (this w) !! k = Some d
                  /\ body k d w = (Returned, w') /\ I (S k) w') ->
  forall n i w, i + n = L -> I i w ->
    exists w', forEach_from n i body w = (Returned, w') /\ I L w'.
Proof.
  intros Hbody. induction n as [|n IH]; intros i w Hn Hi; cbn [forEach_from].
  - replace L with i by lia. eauto.
  - destruct (Hbody i w ltac:(lia) Hi) as (d & w1 & Ed & Eb & H1).
    rewrite Ed. rewrite (andThen_returned _ _ _ _ Eb).
    apply IH; [lia | exact H1].
Qed.

Lemma billboardObjects_snoc docs d :
  billboardObjects (docs ++ [d])
  = billboardObjects docs ∪ billboardObjects [d].
Proof.
  unfold billboardObjects. rewrite bind_app, list_to_set_app_L. reflexivity.
Qed.

Lemma billboardObjects_built i d :
  built i d = true ->
  billboardObjects [d]
  = if useBillboard d then {[PlaneOf i; FrameOf i]} else ∅.
Proof.
  intros Hb. unfold billboardObjects. simpl.
  destruct (useBillboard d) eqn:Eu; [|reflexivity].
  destruct (built_meshes i d Hb Eu) as (p & f & Ep & Ef & Rp & Rf & _).
  simpl. rewrite Ep, Ef. simpl. rewrite Rp, Rf.
  rewrite union_empty_r_L. reflexivity.
Qed.

Lemma elem_of_billboardObjects x docs :
  x ∈ billboardObjects docs <->
  exists d p m, d ∈ docs /\ useBillboard d = true
                /\ mesh_of p d = Some m /\ mesh_ref m = x.
Proof.
  unfold billboardObjects. rewrite elem_of_list_to_set, list_elem_of_bind.
  split.
  - intros (d & Hx & Hd). destruct (useBillboard d) eqn:Eu.
    + apply list_elem_of_omap in Hx as (p & _ & Hp).
      destruct (mesh_of p d) as [m|] eqn:Em; [|discriminate].
      simpl in Hp. inversion Hp. eauto 10.
    + inversion Hx.
  - intros (d & p & m & Hd & Eu & Em & <-). exists d. split; [|exact Hd].
    rewrite Eu. apply list_elem_of_omap. exists p. rewrite Em. split.
    + destruct p; set_solver.
    + reflexivity.
Qed.

Lemma updateMatrixWorld_built i p d w :
  AllDocuments (this w) !! i = Some d -> built i d = true ->
  useBillboard d = true -> updateMatrixWorld i p w = (Returned, w).
Proof.
  intros Ed Hb Eu. unfold updateMatrixWorld. rewrite Ed.
  destruct (built_meshes i d Hb Eu) as (m & f & Ep & Ef & _).
  destruct p; simpl; rewrite ?Ep, ?Ef; reflexivity.
Qed.

(** [showBillboards], past its guard: under [consistent] it returns, and
    the scene gains the meshes of the billboards and nothing else. *)
Lemma showBillboards_spec b w :
  consistent w -> b || billboardsAreActive (this w) = true ->
  exists w', showBillboards b w = (Returned, w')
    /\ this w' = this w
    /\ scene (env w')
       = scene (env w) ∪ billboardObjects (AllDocuments (this w))
    /\ dom (env w')
       = <[("docBrowserToggleBillboard", "innerHTML") :=
             DStr "Masquer Billboards"]> (dom (env w)).
Proof.
  intros Hc Hb. unfold showBillboards, ifElse.
  replace (negb b && negb (billboardsAreActive (this w))) with false
    by (destruct b, (billboardsAreActive (this w)); simpl in *; congruence).
  rewrite (andThen_returned (setProperty _ _ _) _ w _ eq_refl).
  set (w0 := with_env _ w).
  set (docs := AllDocuments (this w)).
  pose (I := fun (k : nat) (v : World) =>
    v = with_env (set_scene (scene (env w) ∪ billboardObjects (take k docs))) w0).
  match goal with |- context [forEach ?body] =>
    assert (exists w1, forEach body w0 = (Returned, w1) /\ I (length docs) w1)
      as (w1 & E1 & H1)
  end.
  { unfold forEach.
    apply forEach_from_returns with (I := I) (L := length docs);
      [|reflexivity|].
  - intros k v Hk Hv. destruct (lookup_lt_is_Some_2 docs k Hk) as [d Ed].
    exists d. unfold I in Hv. subst v. rewrite consistent_lookup in Hc.
    pose proof (Hc k d Ed) as Hbuilt.
    unfold I. rewrite (take_S_r _ _ _ Ed), billboardObjects_snoc,
      (billboardObjects_built k d Hbuilt).
    simpl. change (AllDocuments (this w)) with docs. rewrite Ed.
    destruct (useBillboard d) eqn:Eu; simpl.
    + destruct (built_meshes k d Hbuilt Eu) as (p & f & Ep & Ef & Rp & Rf & _).
      rewrite Ep, Ef.
      rewrite (andThen_returned (sceneAdd (Some p)) _ _ _ eq_refl).
      rewrite (andThen_returned (sceneAdd (Some f)) _ _ _ eq_refl).
      erewrite (andThen_returned (updateMatrixWorld _ _));
        [|apply (updateMatrixWorld_built k Plane d); assumption].
      erewrite (updateMatrixWorld_built k Frame d) by assumption.
      eexists. split; [reflexivity|]. split; [reflexivity|].
      unfold with_env, set_scene. simpl. rewrite Rp, Rf.
      do 2 f_equal. generalize (billboardObjects (take k docs)).
      clear. intros B. set_solver.
    + eexists. split; [reflexivity|]. split; [reflexivity|].
      unfold with_env, set_scene. simpl. do 2 f_equal.
      generalize (billboardObjects (take k docs)). clear. intros B. set_solver.
  - unfold I. simpl. unfold with_env, set_scene, w0. simpl.
    destruct w as [h e]. destruct e. simpl. do 2 f_equal.
    unfold billboardObjects. simpl. rewrite union_empty_r_L. reflexivity. }
  rewrite (andThen_returned _ _ _ _ E1).
  eexists. split; [reflexivity|]. rewrite H1.
  rewrite firstn_all. repeat split; reflexivity.
Qed.

(** [hideBillboards], past its guard: under [consistent] it returns, and the
    scene loses the meshes of the billboards and nothing else. *)
Lemma hideBillboards_spec b w :
  consistent w -> b || negb (billboardsAreActive (this w)) = true ->
  exists w', hideBillboards b w = (Returned, w')
    /\ this w' = this w
    /\ scene (env w')
       = scene (env w) ∖ billboardObjects (AllDocuments (this w))
    /\ dom (env w')
       = <[("docBrowserToggleBillboard", "innerHTML") :=
             DStr "Afficher Billboards"]> (dom (env w)).
Proof.
  intros Hc Hb. unfold hideBillboards, ifElse.
  replace (negb b && billboardsAreActive (this w)) with false
    by (destruct b, (billboardsAreActive (this w)); simpl in *; congruence).
  rewrite (andThen_returned (setProperty _ _ _) _ w _ eq_refl).
  set (w0 := with_env _ w).
  set (docs := AllDocuments (this w)).
  pose (I := fun (k : nat) (v : World) =>
    v = with_env (set_scene (scene (env w) ∖ billboardObjects (take k docs))) w0).
  match goal with |- context [forEach ?body] =>
    assert (exists w1, forEach body w0 = (Returned, w1) /\ I (length docs) w1)
      as (w1 & E1 & H1)
  end.
  { unfold forEach.
    apply forEach_from_returns with (I := I) (L := length docs);
      [|reflexivity|].
  - intros k v Hk Hv. destruct (lookup_lt_is_Some_2 docs k Hk) as [d Ed].
    exists d. unfold I in Hv. subst v. rewrite consistent_lookup in Hc.
    pose proof (Hc k d Ed) as Hbuilt.
    unfold I. rewrite (take_S_r _ _ _ Ed), billboardObjects_snoc,
      (billboardObjects_built k d Hbuilt).
    simpl. change (AllDocuments (this w)) with docs. rewrite Ed.
    destruct (useBillboard d) eqn:Eu; simpl.
    + destruct (built_meshes k d Hbuilt Eu) as (p & f & Ep & Ef & Rp & Rf & _).
      rewrite Ep, Ef.
      rewrite (andThen_returned (sceneRemove (Some p)) _ _ _ eq_refl).
      rewrite (andThen_returned (sceneRemove (Some f)) _ _ _ eq_refl).
      erewrite (andThen_returned (updateMatrixWorld _ _));
        [|apply (updateMatrixWorld_built k Plane d); assumption].
      erewrite (updateMatrixWorld_built k Frame d) by assumption.
      eexists. split; [reflexivity|]. split; [reflexivity|].
      unfold with_env, set_scene. simpl. rewrite Rp, Rf.
      do 2 f_equal. generalize (billboardObjects (take k docs)).
      clear. intros B. set_solver.
    + eexists. split; [reflexivity|]. split; [reflexivity|].
      unfold with_env, set_scene. simpl. do 2 f_equal.
      generalize (billboardObjects (take k docs)). clear. intros B. set_solver.
  - unfold I. simpl. unfold with_env, set_scene, w0. simpl.
    destruct w as [h e]. destruct e. simpl. do 2 f_equal.
    unfold billboardObjects. simpl. rewrite difference_empty_L. reflexivity. }
  rewrite (andThen_returned _ _ _ _ E1).
  eexists. split; [reflexivity|]. rewrite H1.
  rewrite firstn_all. repeat split; reflexivity.
Qed.

Lemma shown_of_scene w w' :
  consistent w -> AllDocuments (this w') = AllDocuments (this w) ->
  scene (env w') = scene (env w) ∪ billboardObjects (AllDocuments (this w)) ->
  billboardsShown w' /\ onlyBillboardsAdded w w'.
Proof.
  intros Hc Ht Hs. split.
  - intros d Hd Hu. rewrite Ht in Hd.
    apply list_elem_of_lookup in Hd as [i Hi].
    rewrite consistent_lookup in Hc.
    destruct (built_meshes i d (Hc i d Hi) Hu) as (p & f & Ep & Ef & _).
    exists p, f. rewrite Hs.
    assert (Hin : d ∈ AllDocuments (this w))
      by (apply list_elem_of_lookup; eauto).
    repeat split; try assumption; apply elem_of_union_r;
      apply elem_of_billboardObjects;
      [exists d, Plane, p | exists d, Frame, f]; auto.
  - intros x Hx. rewrite Hs in Hx. apply elem_of_union in Hx as [Hx|Hx].
    + left. exact Hx.
    + right. apply elem_of_billboardObjects. exact Hx.
Qed.

Lemma hidden_of_scene w w' :
  consistent w -> AllDocuments (this w') = AllDocuments (this w) ->
  scene (env w') = scene (env w) ∖ billboardObjects (AllDocuments (this w)) ->
  billboardsHidden w' /\ onlyBillboardsAdded w w'.
Proof.
  intros Hc Ht Hs. split.
  - intros d p m Hd Hm. rewrite Ht in Hd. rewrite Hs.
    intros Hin. apply elem_of_difference in Hin as [_ Hout]. apply Hout.
    apply elem_of_billboardObjects. exists d, p, m.
    repeat split; try assumption.
    apply list_elem_of_lookup in Hd as [i Hi].
    rewrite consistent_lookup in Hc. pose proof (Hc i d Hi) as Hb.
    destruct (useBillboard d) eqn:Eu; [reflexivity|].
    destruct (built_no_meshes i d Hb Eu) as [Ep Ef].
    destruct p; simpl in Hm; congruence.
  - intros x Hx. rewrite Hs in Hx. apply elem_of_difference in Hx as [Hx _].
    left. exact Hx.
Qed.

(** ** The billboards *)

(** C5. The billboards are shown and hidden as a group.  In a world whose
    documents are as their constructor built them: [showBillboards(true)]
    returns and every document that uses a billboard then has its plane and
    its frame in the scene; [hideBillboards(true)] returns and no plane and
    no frame of a document is then in the scene; [toggleBillboards()] returns,
    flips [billboardsAreActive], and leaves the billboards all hidden if the
    flag was set and all shown if it was not.  None of the three puts in the
    scene anything but a mesh of a document that uses a billboard. *)
Theorem billboards_shown_and_hidden_together (w : World) :
  consistent w ->
  (exists w', showBillboards true w = (Returned, w')
     /\ billboardsShown w' /\ onlyBillboardsAdded w w')
  /\ (exists w', hideBillboards true w = (Returned, w')
        /\ billboardsHidden w' /\ onlyBillboardsAdded w w')
  /\ (exists w', toggleBillboards w = (Returned, w')
        /\ billboardsAreActive (this w')
           = negb (billboardsAreActive (this w))
        /\ (if billboardsAreActive (this w)
            then billboardsHidden w' else billboardsShown w')
        /\ onlyBillboardsAdded w w').
Proof.
  intros Hc. split; [|split].
  - destruct (showBillboards_spec true w Hc eq_refl) as (w' & E & Ht & Hs & _).
    exists w'. split; [exact E|]. apply shown_of_scene; congruence.
  - destruct (hideBillboards_spec true w Hc eq_refl) as (w' & E & Ht & Hs & _).
    exists w'. split; [exact E|]. apply hidden_of_scene; congruence.
  - unfold toggleBillboards, ifElse.
    destruct (billboardsAreActive (this w)) eqn:Eb.
    + rewrite (andThen_returned (assign _) _ w _ eq_refl).
      set (v := with_this (set_billboardsAreActive false) w).
      destruct (hideBillboards_spec true v Hc eq_refl) as (w' & E & Ht & Hs & _).
      exists w'. split; [exact E|]. split; [rewrite Ht; reflexivity|].
      apply (hidden_of_scene w w' Hc); [rewrite Ht; reflexivity | exact Hs].
    + rewrite (andThen_returned (assign _) _ w _ eq_refl).
      set (v := with_this (set_billboardsAreActive true) w).
      destruct (showBillboards_spec true v Hc eq_refl) as (w' & E & Ht & Hs & _).
      exists w'. split; [exact E|]. split; [rewrite Ht; reflexivity|].
      apply (shown_of_scene w w' Hc); [rewrite Ht; reflexivity | exact Hs].
Qed.

(** ** [update] returns *)

Lemma meshLookAt_returns i p target d w :
  consistent w -> AllDocuments (this w) !! i = Some d ->
  useBillboard d = true ->
  exists w' d', meshLookAt i p target w = (Returned, w')
    /\ consistent w'
    /\ AllDocuments (this w') !! i = Some d' /\ useBillboard d' = true
    /\ length (AllDocuments (this w')) = length (AllDocuments (this w)).
Proof.
  intros Hc Ed Eu.
  pose proof (keeps_consistent_meshLookAt i p target w Hc) as Hc'.
  revert Hc'. unfold meshLookAt. rewrite Ed.
  assert (Hb : built i d = true) by (eapply consistent_built; eauto).
  destruct (built_meshes i d Hb Eu) as (m & f & Ep & Ef & _).
  assert (Hm : exists x, mesh_of p d = Some x)
    by (destruct p; simpl; eauto).
  destruct Hm as [x Hx]. rewrite Hx. intros Hc'.
  eexists _, _. split; [reflexivity|]. split; [exact Hc'|].
  simpl. rewrite length_insert. split; [|split; [|reflexivity]].
  - apply list_lookup_insert_eq. eapply lookup_lt_Some; eauto.
  - exact Eu.
Qed.

Lemma billboardsLookAtCamera_returns w :
  consistent w ->
  exists w', billboardsLookAtCamera w = (Returned, w') /\ consistent w'.
Proof.
  intros Hc. unfold billboardsLookAtCamera, forEach.
  set (L := length (AllDocuments (this w))).
  pose (I := fun (k : nat) (v : World) =>
    consistent v /\ length (AllDocuments (this v)) = L).
  match goal with |- context [forEach_from L 0 ?body w] =>
    destruct (forEach_from_returns I body L) with (n := L) (i := 0) (w := w)
      as (w' & E & Hc' & _)
  end.
  - intros k v Hk [Hv Hlen].
    destruct (lookup_lt_is_Some_2 (AllDocuments (this v)) k) as [d Ed];
      [lia|].
    exists d. destruct (useBillboard d) eqn:Eu; simpl.
    + destruct (meshLookAt_returns k Plane (camera_position (env v)) d v
                  Hv Ed Eu) as (v1 & d1 & E1 & Hc1 & Ed1 & Eu1 & Hl1).
      destruct (meshLookAt_returns k Frame (camera_position (env v)) d1 v1
                  Hc1 Ed1 Eu1) as (v2 & d2 & E2 & Hc2 & Ed2 & Eu2 & Hl2).
      exists v2. split; [exact Ed|]. split.
      * rewrite (andThen_returned _ _ _ _ E1).
        rewrite (andThen_returned _ _ _ _ E2).
        assert (Hb2 : built k d2 = true)
          by (eapply consistent_built; eauto).
        rewrite (andThen_returned _ _ _ _
                   (updateMatrixWorld_built k Plane d2 v2 Ed2 Hb2 Eu2)).
        apply (updateMatrixWorld_built k Frame d2 v2 Ed2 Hb2 Eu2).
      * split; [exact Hc2 | lia].
    + exists v. repeat split; assumption.
  - reflexivity.
  - split; [exact Hc | reflexivity].
  - eauto.
Qed.

Lemma update_returns dt r w :
  consistent w ->
  exists w', update dt r w = (Returned, w') /\ consistent w'.
Proof.
  intros Hc. unfold update. cbv zeta.
  assert (E1 : exists w1,
    ifElse (fun w => isOrientingDoc (this w)
                     && (controls_state (env w) =? -1)%Z) beginFade skip w
      = (Returned, w1) /\ consistent w1).
  { unfold ifElse.
    destruct (isOrientingDoc (this w) && (controls_state (env w) =? -1)%Z).
    - eexists. split; [reflexivity | exact Hc].
    - eexists. split; [reflexivity | exact Hc]. }
  destruct E1 as (w1 & E1 & Hc1). rewrite (andThen_returned _ _ _ _ E1).
  assert (E2 : exists w2,
    ifElse (fun w => isFadingDoc (this w))
      (fade (if r then Num 16 else dt)) skip w1 = (Returned, w2)
    /\ consistent w2).
  { unfold ifElse. destruct (isFadingDoc (this w1)).
    - destruct (fade_spec (if r then Num 16 else dt) w1)
        as (w2 & E & _ & _ & Hd & _).
      exists w2. split; [exact E|]. unfold consistent. rewrite Hd. exact Hc1.
    - eexists. split; [reflexivity | exact Hc1]. }
  destruct E2 as (w2 & E2 & Hc2). rewrite (andThen_returned _ _ _ _ E2).
  apply billboardsLookAtCamera_returns, Hc2.
Qed.


(** ** [focusOnDoc] *)

Lemma displayHidden_spec d w :
  exists w1, displayHidden d w = (Returned, w1)
    /\ this w1 = this w
    /\ scene (env w1) = scene (env w)
    /\ called (env w1) = called (env w)
    /\ global_temporal (env w1) = global_temporal (env w)
    /\ displayedHidden d w1.
Proof.
  eexists. split; [reflexivity|]. repeat split; try reflexivity;
    dom_lookup; reflexivity.
Qed.

Lemma travelToView_spec d w :
  exists w2, travelToView d w = (Returned, w2)
    /\ this w2 = this w
    /\ scene (env w2) = scene (env w)
    /\ dom (env w2) = dom (env w)
    /\ global_temporal (env w2) = global_temporal (env w)
    /\ called (env w2)
       = ((if validPose d
           then [initiateTravel (viewPosition d) (viewQuaternion d)] else [])
          ++ called (env w)).
Proof.
  unfold travelToView, validPose.
  destruct (negb (isNaN (v_x (viewPosition d)))
            && negb (isNaN (q_x (viewQuaternion d))));
    eexists; (split; [reflexivity|]); repeat split; reflexivity.
Qed.

Lemma adjustDate_returns d w :
  temporal (this w) = None \/ is_Some (global_temporal (env w)) ->
  exists w3, adjustDate d w = (Returned, w3)
    /\ this w3 = this w
    /\ scene (env w3) = scene (env w)
    /\ dom (env w3) = dom (env w)
    /\ called (env w3)
       = (match temporal (this w) with
          | Some _ => [changeTime (startDate d)]
          | None => []
          end ++ called (env w)).
Proof.
  intros Ht. unfold adjustDate, ifElse.
  destruct (temporal (this w)) as [t|].
  - destruct Ht as [Ht|[g Hg]]; [discriminate|]. rewrite Hg.
    eexists. split; [reflexivity|]. repeat split; reflexivity.
  - eexists. split; [reflexivity|]. repeat split; reflexivity.
Qed.


Lemma focusOnDoc_returns d w :
  consistent w -> currentDocument w = Some d ->
  temporal (this w) = None \/ is_Some (global_temporal (env w)) ->
  exists w', focusOnDoc w = (Returned, w')
    /\ fadeState w'
       = (true, false, fadeAlpha (this w), fadeDuration (this w))
    /\ displayedHidden d w'
    /\ billboardsHidden w'
    /\ called (env w') = (focusCalls d w ++ called (env w))
    /\ AllDocuments (this w') = AllDocuments (this w)
    /\ currentDoc (this w') = currentDoc (this w).
Proof.
  intros Hc Ed Ht. unfold focusOnDoc, withCurrentDoc. rewrite Ed.
  destruct (displayHidden_spec d w) as (w1 & E1 & T1 & S1 & K1 & G1 & D1).
  rewrite (andThen_returned _ _ _ _ E1).
  destruct (travelToView_spec d w1) as (w2 & E2 & T2 & S2 & D2 & G2 & K2).
  rewrite (andThen_returned _ _ _ _ E2).
  destruct (adjustDate_returns d w2) as (w3 & E3 & T3 & S3 & D3 & K3).
  { rewrite T2, T1, G2, G1. exact Ht. }
  rewrite (andThen_returned _ _ _ _ E3).
  assert (Hc3 : consistent w3)
    by (unfold consistent; rewrite T3, T2, T1; exact Hc).
  destruct (hideBillboards_spec true w3 Hc3 eq_refl)
    as (w4 & E4 & T4 & S4 & D4).
  rewrite (andThen_returned _ _ _ _ E4).
  eexists. split; [reflexivity|].
  assert (Hcalled : called (env w4) = notifyChange true :: called (env w3)).
  { revert E4. unfold hideBillboards, ifElse. simpl.
    intros E4.
    pose proof (keeps_forEach (fun v => called (env v) = called (env w3))) as K.
    unfold andThen in E4. simpl in E4.
    match type of E4 with
    | context [forEach ?body ?v] =>
        specialize (K body); destruct (forEach body v) as [[|e] v'] eqn:Ev;
          [|discriminate]
    end.
    assert (Hv : called (env v') = called (env w3)).
    { match type of Ev with forEach ?body ?v = _ =>
        change v' with ((Returned, v').2); rewrite <- Ev; apply K;
          [|reflexivity]
      end.
      intros i x. apply keeps_if; [apply keeps_skip|].
      repeat apply keeps_andThen;
        try apply keeps_updateMatrixWorld;
        intros u Hu; destruct (billboardGeometry x), (billboardGeometryFrame x);
        simpl; try exact Hu;
        unfold sceneRemove; simpl; exact Hu. }
    inversion E4. simpl. rewrite Hv. reflexivity. }
  unfold fadeState, displayedHidden, billboardsHidden, opacity, getProperty.
  simpl. rewrite T4, T3, T2, T1, D4, D3, D2, S4.
  destruct D1 as (D1a & D1b & D1c).
  unfold opacity, getProperty in D1a, D1b, D1c.
  rewrite !lookup_insert_ne by discriminate.
  repeat split; try assumption; try reflexivity.
  - intros x p m Hx Hm Hin. apply elem_of_difference in Hin as [_ Hout].
    apply Hout. rewrite T3, T2, T1.
    apply elem_of_billboardObjects. exists x, p, m.
    repeat split; try assumption.
    apply list_elem_of_lookup in Hx as [i Hi].
    pose proof (consistent_built w i x Hc Hi) as Hb.
    destruct (useBillboard x) eqn:Eu; [reflexivity|].
    destruct (built_no_meshes i x Hb Eu) as [Ep Ef].
    destruct p; simpl in Hm; congruence.
  - rewrite Hcalled, K3, K2, K1, T2, T1. unfold focusCalls.
    simpl. rewrite <- !app_assoc. reflexivity.
Qed.



(** ** Frames *)

Lemma play_cons f fs w :
  play (f :: fs) w
  = play fs (update (frame_dt f) (frame_restarted f)
               (with_env (set_controls (frame_state f) (frame_camera f)) w)).2.
Proof. reflexivity. Qed.

Lemma play_one f w :
  play [f] w
  = (update (frame_dt f) (frame_restarted f)
       (with_env (set_controls (frame_state f) (frame_camera f)) w)).2.
Proof. reflexivity. Qed.


Lemma play_fadeState f w :
  fadeState (play [f] w)
  = fadeStep (frame_state f =? -1)%Z
      (if frame_restarted f then Num 16 else frame_dt f) (fadeState w).
Proof.
  rewrite play_cons.
  exact (update_fadeState (frame_dt f) (frame_restarted f)
           (with_env (set_controls (frame_state f) (frame_camera f)) w)).
Qed.






(** ** The browser *)

Lemma nstrict_eq_nat x n :
  nstrict_eq x (of_nat n) = true <->
  exists q, x = Num q /\ (q == inject_Z (Z.of_nat n))%Q.
Proof.
  destruct x as [q|]; simpl.
  - rewrite Qeq_bool_iff. split; [eauto|]. intros (q' & E & Hq).
    inversion E; subst. exact Hq.
  - split; [discriminate|]. intros (q & E & _). discriminate.
Qed.

Lemma array_index_nat x n :
  nstrict_eq x (of_nat n) = true -> array_index x = Some n.
Proof.
  intros Hx. apply nstrict_eq_nat in Hx as (q & -> & Hq). simpl.
  assert (Hfl : Qfloor q = Z.of_nat n) by (rewrite Hq; apply Qfloor_Z).
  rewrite Hfl.
  replace (Qeq_bool q (inject_Z (Z.of_nat n))) with true
    by (symmetry; apply Qeq_bool_iff, Hq).
  replace (0 <=? Z.of_nat n)%Z with true by (symmetry; apply Z.leb_le; lia).
  simpl. rewrite Nat2Z.id. reflexivity.
Qed.

Lemma nadd_one_nat x n :
  nstrict_eq x (of_nat n) = true ->
  nstrict_eq (nadd x (Num 1)) (of_nat (n + 1)) = true.
Proof.
  intros Hx. apply nstrict_eq_nat in Hx as (q & -> & Hq). simpl.
  apply Qeq_bool_iff. rewrite Hq, Nat2Z.inj_add, inject_Z_plus. reflexivity.
Qed.

Lemma nsub_one_nat x n :
  n <> 0 -> nstrict_eq x (of_nat n) = true ->
  nstrict_eq (nsub x (Num 1)) (of_nat (n - 1)) = true.
Proof.
  intros Hn Hx. apply nstrict_eq_nat in Hx as (q & -> & Hq). simpl.
  apply Qeq_bool_iff. rewrite Hq.
  replace (Z.of_nat (n - 1)) with (Z.of_nat n - 1)%Z by lia.
  unfold Z.sub. rewrite inject_Z_plus. reflexivity.
Qed.

Lemma nge_nat x n m :
  nstrict_eq x (of_nat n) = true -> nge x (of_nat m) = (m <=? n)%nat.
Proof.
  intros Hx. apply nstrict_eq_nat in Hx as (q & -> & Hq). simpl.
  destruct (m <=? n)%nat eqn:E.
  - apply Nat.leb_le in E. apply Qle_bool_iff. rewrite Hq.
    rewrite <- Zle_Qle. apply Nat2Z.inj_le, E.
  - apply Nat.leb_gt in E. destruct (Qle_bool _ q) eqn:Eb; [|reflexivity].
    apply Qle_bool_iff in Eb. rewrite Hq, <- Zle_Qle in Eb.
    apply Nat2Z.inj_le in Eb. exfalso. lia.
Qed.

Lemma nstrict_eq_zero x n :
  nstrict_eq x (of_nat n) = true -> nstrict_eq x (Num 0) = (n =? 0)%nat.
Proof.
  intros Hx. apply nstrict_eq_nat in Hx as (q & -> & Hq). simpl.
  destruct (n =? 0)%nat eqn:E.
  - apply Nat.eqb_eq in E. subst n. apply Qeq_bool_iff. exact Hq.
  - apply Nat.eqb_neq in E. destruct (Qeq_bool q 0) eqn:Eb; [|reflexivity].
    apply Qeq_bool_iff in Eb. rewrite Hq in Eb.
    unfold Qeq in Eb. simpl in Eb. exfalso. lia.
Qed.

Lemma setCurrentDocAt_nat x n d w :
  nstrict_eq x (of_nat n) = true -> AllDocuments (this w) !! n = Some d ->
  setCurrentDocAt x w = (Returned, with_this (set_currentDoc (Some n)) w).
Proof.
  intros Hx Hd. unfold setCurrentDocAt. rewrite (array_index_nat x n Hx).
  destruct (decide (n < length (AllDocuments (this w)))) as [_|Hn];
    [reflexivity|].
  exfalso. apply Hn. eapply lookup_lt_Some, Hd.
Qed.

Lemma updateBrowser_shows r d w :
  currentDoc (this w) = Some r -> AllDocuments (this w) !! r = Some d ->
  exists w', updateBrowser w = (Returned, w')
    /\ this w' = this w /\ browserShows d w'.
Proof.
  intros Hr Hd. unfold updateBrowser, withCurrentDoc, currentDocument.
  rewrite Hr, Hd. eexists. split; [reflexivity|]. split; [reflexivity|].
  unfold browserShows. repeat split; dom_lookup; reflexivity.
Qed.

(** C3. Next and previous step through the catalog by one and stop at both
    ends.  Let every loaded document's [index] be its position in
    [AllDocuments] and the current document be the one at position [c].
    [nextDoc()] makes the document at position [c + 1] current, and shows it
    in the browser, when there is one; when [c + 1] is not below the length
    of the catalog it returns and changes nothing.  [previousDoc()] makes
    the document at position [c - 1] current, and shows it, when [c] is not
    0; when [c] is 0 it returns and changes nothing. *)
Theorem browsing_steps_by_one_and_stops (w : World) (c : nat) :
  indexed w ->
  currentDoc (this w) = Some c ->
  c < length (AllDocuments (this w)) ->
  (forall d, AllDocuments (this w) !! (c + 1) = Some d ->
     exists w', nextDoc w = (Returned, w')
       /\ currentDoc (this w') = Some (c + 1)
       /\ AllDocuments (this w') = AllDocuments (this w)
       /\ browserShows d w')
  /\ (length (AllDocuments (this w)) <= c + 1 -> nextDoc w = (Returned, w))
  /\ (forall d, c <> 0 -> AllDocuments (this w) !! (c - 1) = Some d ->
        exists w', previousDoc w = (Returned, w')
          /\ currentDoc (this w') = Some (c - 1)
          /\ AllDocuments (this w') = AllDocuments (this w)
          /\ browserShows d w')
  /\ (c = 0 -> previousDoc w = (Returned, w)).
Proof.
  intros Hi Hc Hlen.
  destruct (lookup_lt_is_Some_2 _ _ Hlen) as [d0 Hd0].
  pose proof (proj1 (indexed_lookup w) Hi c d0 Hd0) as Hidx.
  assert (Hcur : currentDocument w = Some d0)
    by (unfold currentDocument; rewrite Hc; exact Hd0).
  split; [|split; [|split]].
  - intros d Hd. unfold nextDoc, withCurrentDoc. rewrite Hcur.
    unfold ifElse.
    rewrite (nge_nat _ (c + 1) _ (nadd_one_nat _ _ Hidx)).
    replace (length (AllDocuments (this w)) <=? c + 1)%nat with false
      by (symmetry; apply Nat.leb_gt; eapply lookup_lt_Some, Hd).
    rewrite (andThen_returned _ _ _ _
               (setCurrentDocAt_nat _ (c + 1) d w (nadd_one_nat _ _ Hidx) Hd)).
    destruct (updateBrowser_shows (c + 1) d
                (with_this (set_currentDoc (Some (c + 1))) w) eq_refl Hd)
      as (w' & E & Ht & Hs).
    exists w'. rewrite Ht. auto.
  - intros Hend. unfold nextDoc, withCurrentDoc. rewrite Hcur.
    unfold ifElse.
    rewrite (nge_nat _ (c + 1) _ (nadd_one_nat _ _ Hidx)).
    replace (length (AllDocuments (this w)) <=? c + 1)%nat with true
      by (symmetry; apply Nat.leb_le; exact Hend).
    reflexivity.
  - intros d Hne Hd. unfold previousDoc, withCurrentDoc. rewrite Hcur.
    rewrite (nstrict_eq_zero _ c Hidx).
    replace (c =? 0)%nat with false by (symmetry; apply Nat.eqb_neq, Hne).
    rewrite (andThen_returned _ _ _ _
               (setCurrentDocAt_nat _ (c - 1) d w
                  (nsub_one_nat _ _ Hne Hidx) Hd)).
    destruct (updateBrowser_shows (c - 1) d
                (with_this (set_currentDoc (Some (c - 1))) w) eq_refl Hd)
      as (w' & E & Ht & Hs).
    exists w'. rewrite Ht. auto.
  - intros ->. unfold previousDoc, withCurrentDoc. rewrite Hcur.
    rewrite (nstrict_eq_zero _ 0 Hidx). reflexivity.
Qed.

(** ** The loader *)

Lemma new_Document_fields self t i id hd bd pos vp vq date md :
  let d := new_Document self t i id hd bd pos vp vq date md in
  index d = i /\ doc_ID d = id /\ imageSourceHD d = hd /\ imageSourceBD d = bd
  /\ title d = t /\ startDate d = date /\ metaData d = md
  /\ viewPosition d = vp /\ viewQuaternion d = vq /\ billboardPosition d = pos.
Proof.
  unfold new_Document. simpl.
  destruct (negb (isNaN (v_x pos)) && negb (isNaN (v_y pos))
            && negb (isNaN (v_z pos))); simpl; repeat split; reflexivity.
Qed.

Lemma saysNumber_parseFloatAt docData k :
  saysNumber docData k (parseFloatAt docData k).
Proof.
  unfold saysNumber, parseFloatAt. destruct (docData !! k); reflexivity.
Qed.

Lemma saysPath_docPathAt docData k :
  saysPath docData k (docPathAt docData k).
Proof.
  unfold saysPath, docPathAt. destruct (docData !! k); reflexivity.
Qed.

Lemma readRow_builtFromRow self docData :
  7 <= length docData ->
  exists d, readRow self docData = Some d
    /\ builtFromRow docData d /\ built self d = true.
Proof.
  intros Hlen. unfold readRow.
  destruct (lookup_lt_is_Some_2 docData 4 ltac:(lia)) as [t Et].
  destruct (lookup_lt_is_Some_2 docData 5 ltac:(lia)) as [dt Edt].
  destruct (lookup_lt_is_Some_2 docData 6 ltac:(lia)) as [md Emd].
  rewrite Et, Edt, Emd. simpl. eexists. split; [reflexivity|]. split.
  - unfold builtFromRow. rewrite Et, Edt, Emd.
    match goal with |- context [new_Document ?s ?a ?b ?c ?d ?e ?f ?g ?h ?i ?j] =>
      destruct (new_Document_fields s a b c d e f g h i j)
        as (F1 & F2 & F3 & F4 & F5 & F6 & F7 & F8 & F9 & F10)
    end.
    rewrite F1, F2, F3, F4, F5, F6, F7, F8, F9, F10. cbn.
    repeat (split; [first [ apply saysNumber_parseFloatAt
                          | apply saysPath_docPathAt
                          | reflexivity
                          | eexists; split; reflexivity ]|]).
    apply saysNumber_parseFloatAt.
  - apply new_Document_built.
Qed.

Lemma fillAllDocuments_spec docDataFromFile w :
  Forall (fun docData => 7 <= length docData) docDataFromFile ->
  exists docs,
    fillAllDocuments docDataFromFile w
    = (Returned,
       with_this (set_AllDocuments (AllDocuments (this w) ++ docs)) w)
    /\ length docs = length docDataFromFile
    /\ forall i docData, docDataFromFile !! i = Some docData ->
         exists d, docs !! i = Some d /\ builtFromRow docData d.
Proof.
  intros Hrows. revert w.
  induction Hrows as [|docData rest Hrow Hrows IH]; intros w.
  - exists []. simpl. split; [|split; [reflexivity|]].
    + rewrite app_nil_r. destruct w as [[] ?]. reflexivity.
    + intros i docData Hi. rewrite lookup_nil in Hi. discriminate.
  - destruct (readRow_builtFromRow (length (AllDocuments (this w))) docData Hrow)
      as (d & Er & Hd & _).
    cbn [fillAllDocuments].
    set (w1 := with_this (fun h => set_AllDocuments (AllDocuments h ++ [d]) h) w).
    destruct (IH w1) as (docs & E & Hlen & Hall).
    exists (d :: docs). split; [|split].
    + erewrite andThen_returned; [|rewrite Er; reflexivity].
      fold w1. rewrite E. subst w1. simpl. rewrite <- app_assoc. reflexivity.
    + simpl. rewrite Hlen. reflexivity.
    + intros [|i] row Hi; simpl in Hi.
      * inversion Hi; subst. exists d. split; [reflexivity | exact Hd].
      * apply Hall, Hi.
Qed.

(** C4, as amended.  The loader turns every row of the data file into one
    Document, in the order of the rows, when the handler holds no document
    yet and every row has at least its first seven fields (the title, the
    date and the metadata are read with [toString()]): [initialize] then
    leaves in [AllDocuments] as many Documents as there are rows, and the
    Document at position [i] holds what row [i] says, field by field: index
    and doc_ID as [parseFloat] reads them, the two image paths in the
    directory of the documents, title, date, metadata, the three coordinates
    of the camera position, the four of its quaternion and the three of the
    billboard position (a field the row lacks reads as NaN).  It does not
    hold for every array: a row without title stops the load, and a second
    load adds to the first. *)
Theorem every_row_becomes_a_document (w : World)
    (docDataFromFile : list (list string)) :
  AllDocuments (this w) = [] ->
  Forall (fun docData => 7 <= length docData) docDataFromFile ->
  length (AllDocuments (this (initialize docDataFromFile w).2))
  = length docDataFromFile
  /\ forall i docData, docDataFromFile !! i = Some docData ->
       exists d,
         AllDocuments (this (initialize docDataFromFile w).2) !! i = Some d
         /\ builtFromRow docData d.
Proof.
  intros Hempty Hrows.
  destruct (fillAllDocuments_spec docDataFromFile w Hrows)
    as (docs & E & Hlen & Hall).
  rewrite Hempty in E. simpl in E.
  assert (Hdocs : AllDocuments (this (initialize docDataFromFile w).2) = docs).
  { unfold initialize. rewrite (andThen_returned _ _ _ _ E).
    set (w1 := with_this (set_AllDocuments docs) w).
    pose (P := fun v : World => AllDocuments (this v) = docs).
    assert (HPe : envBlind P) by (intros f v Hv; exact Hv).
    apply (keeps_andThen P); [| |reflexivity].
    - intros v Hv. exact Hv.
    - apply keeps_andThen; [apply keeps_updateBrowser, HPe|].
      apply keeps_andThen; [|apply keeps_call, HPe].
      apply keeps_ifElse;
        auto using keeps_showBillboards, keeps_hideBillboards. }
  rewrite Hdocs. split; [exact Hlen | exact Hall].
Qed.

(** ** The mouse *)

Lemma focusOnFirstBillboard_skips (pre rest : list Object3D) w :
  Forall (fun x => ud_type (userData x) <> Some "billboard") pre ->
  focusOnFirstBillboard (pre ++ rest) w = focusOnFirstBillboard rest w.
Proof.
  intros Hpre. induction Hpre as [|x pre Hx Hpre IH]; [reflexivity|].
  simpl. destruct (decide (ud_type (userData x) = Some "billboard"));
    [contradiction | exact IH].
Qed.

(** C6. A click triggers the oriented view of the document of the first
    billboard under the ray.  The ray is cast from the position of the
    click: the raycaster is asked for the objects at
    [(clientX / innerWidth) * 2 - 1] and [-(clientY / innerHeight) * 2 + 1]
    (the raycaster is any function of these two numbers, of the camera and
    of the scene: three.js's, after JavaScript has rounded them, is one).
    With [hits] what it reports, nearest first: if [o] is the first object
    whose [userData.type] is 'billboard', [onMouseClick] sets [currentDoc]
    to [o.userData.doc] and calls [focusOnDoc()]; when [o] is the plane of
    the document [d] at position [r] of a catalog that is as built, and
    nothing stops [focusOnDoc], the call returns, [d] is the current
    document, its full image is displayed with opacity 0, the handler is
    orienting and not fading, the billboards are hidden and the calls made
    are those of [focusOnDoc] for [d].  If no object is a billboard the call
    returns and changes nothing: [currentDoc] is what it was and no oriented
    view is triggered.  The plane of a document carries that type and the
    document itself; its frame carries neither. *)
Theorem click_focuses_on_first_billboard (event : MouseEvent) (w : World) :
  let x :=
    nsub (nmul (ndiv (clientX event) (innerWidth (env w))) (Num 2)) (Num 1) in
  let y :=
    nadd (nmul (nneg (ndiv (clientY event) (innerHeight (env w)))) (Num 2))
      (Num 1) in
  let hits := intersectObjects x y w in
  let isBillboard (o : Object3D) := ud_type (userData o) = Some "billboard" in
  (forall pre o post,
     hits = pre ++ o :: post ->
     Forall (fun h => ~ isBillboard h) pre -> isBillboard o ->
     onMouseClick event w
     = focusOnDoc (with_this (set_currentDoc (ud_doc (userData o))) w)
     /\ forall r d p,
          consistent w ->
          temporal (this w) = None \/ is_Some (global_temporal (env w)) ->
          AllDocuments (this w) !! r = Some d ->
          billboardGeometry d = Some p ->
          userData o = mesh_userData p ->
          exists w', onMouseClick event w = (Returned, w')
            /\ currentDoc (this w') = Some r
            /\ isOrientingDoc (this w') = true
            /\ isFadingDoc (this w') = false
            /\ displayedHidden d w'
            /\ billboardsHidden w'
            /\ called (env w') = focusCalls d w ++ called (env w))
  /\ (Forall (fun h => ~ isBillboard h) hits ->
      onMouseClick event w = (Returned, w))
  /\ (forall self t i id hd bd pos vp vq date md p f,
        let d := new_Document self t i id hd bd pos vp vq date md in
        billboardGeometry d = Some p -> billboardGeometryFrame d = Some f ->
        mesh_userData p
        = {| ud_type := Some "billboard"; ud_doc := Some self |}
        /\ mesh_userData f = no_userData).
Proof.
  intros x y hits isBillboard.
  assert (Eclick : onMouseClick event w = focusOnFirstBillboard hits w)
    by reflexivity.
  split; [|split].
  - intros pre o post Eh Hpre Ho.
    assert (Efocus : onMouseClick event w
                     = focusOnDoc (with_this
                         (set_currentDoc (ud_doc (userData o))) w)).
    { rewrite Eclick, Eh, (focusOnFirstBillboard_skips pre (o :: post) w Hpre).
      simpl. destruct (decide (ud_type (userData o) = Some "billboard"));
        [reflexivity | contradiction]. }
    split; [exact Efocus|].
    intros r d p Hc Ht Hd Ep Eo.
    pose proof (consistent_built w r d Hc Hd) as Hb.
    assert (Hu : useBillboard d = true).
    { destruct (useBillboard d) eqn:Eu; [reflexivity|].
      destruct (built_no_meshes r d Hb Eu) as [Ep' _]. congruence. }
    destruct (built_meshes r d Hb Hu) as (p' & f & Ep' & _ & _ & _ & _ & Hdoc).
    rewrite Ep in Ep'. injection Ep' as <-.
    rewrite Efocus, Eo, Hdoc.
    set (w0 := with_this (set_currentDoc (Some r)) w).
    assert (Hcur : currentDocument w0 = Some d) by exact Hd.
    destruct (focusOnDoc_returns d w0 Hc Hcur Ht)
      as (w' & E & Fs & Hdis & Hhid & Hcalls & _ & Hcd).
    exists w'. unfold fadeState in Fs. injection Fs as Fo Ff _ _.
    repeat (split; [assumption|]). exact Hcalls.
  - intros Hnone. rewrite Eclick, <- (app_nil_r hits).
    apply (focusOnFirstBillboard_skips hits [] w Hnone).
  - intros self t i id hd bd pos vp vq date md p f d. subst d.
    unfold new_Document. simpl.
    destruct (negb (isNaN (v_x pos)) && negb (isNaN (v_y pos))
              && negb (isNaN (v_z pos))); simpl; intros Ep Ef;
      inversion Ep; inversion Ef; split; reflexivity.
Qed.

(** The oriented view, when nothing stops [focusOnDoc]: in a world whose
    documents are as their constructor built them, with a current document
    [d], and with either no TemporalController given to the handler or a
    global named [temporal] in the page, [focusOnDoc()] returns; the full
    image of [d] is displayed with opacity 0, the handler is orienting and
    not fading, the billboards are hidden, and the controls are asked to
    travel to the pose of [d] exactly when [validPose d]. *)
Theorem focusOnDoc_orients (w : World) (d : Document) :
  consistent w ->
  currentDocument w = Some d ->
  temporal (this w) = None \/ is_Some (global_temporal (env w)) ->
  exists w', focusOnDoc w = (Returned, w')
    /\ isOrientingDoc (this w') = true
    /\ isFadingDoc (this w') = false
    /\ displayedHidden d w'
    /\ billboardsHidden w'
    /\ called (env w') = focusCalls d w ++ called (env w)
    /\ (initiateTravel (viewPosition d) (viewQuaternion d) ∈ focusCalls d w
        <-> validPose d = true).
Proof.
  intros Hc Ed Ht.
  destruct (focusOnDoc_returns d w Hc Ed Ht)
    as (w' & E & Fs & Hdis & Hhid & Hcalls & _).
  exists w'. unfold fadeState in Fs. injection Fs as Fo Ff _ _.
  repeat (split; [assumption|]).
  unfold focusCalls. destruct (validPose d), (temporal (this w)); simpl;
    split; intros Hin; try reflexivity; try discriminate;
    repeat (apply elem_of_cons in Hin as [Hin|Hin]; [discriminate|]);
    try (inversion Hin; fail);
    repeat first [apply list_elem_of_here | apply list_elem_of_further].
Qed.

End Properties.

(** * More of the handler *)

Section Coverage.

Context `{Platform}.

#[local] Set Warnings "-clear-no-such-hyp".

Ltac unfold_all :=
  unfold andThen, assign, setProperty, call, ifElse, skip.

Ltac read_dom :=
  unfold opacity, getProperty; cbn;
  repeat first [ rewrite lookup_insert_eq
               | rewrite lookup_insert_ne by discriminate ].

(** ** The billboards, again: the worlds [showBillboards] and
    [hideBillboards] leave *)

Lemma showBillboards_world b w :
  consistent w -> b || billboardsAreActive (this w) = true ->
  showBillboards b w = (Returned, shownWorld w).
Proof.
  intros Hc Hb. unfold showBillboards, ifElse.
  replace (negb b && negb (billboardsAreActive (this w))) with false
    by (destruct b, (billboardsAreActive (this w)); simpl in *; congruence).
  rewrite (andThen_returned (setProperty _ _ _) _ w _ eq_refl).
  set (w0 := with_env _ w).
  set (docs := AllDocuments (this w)).
  pose (I := fun (k : nat) (v : World) =>
    v = with_env (set_scene (scene (env w) ∪ billboardObjects (take k docs))) w0).
  match goal with |- context [forEach ?body] =>
    assert (exists w1, forEach body w0 = (Returned, w1) /\ I (length docs) w1)
      as (w1 & E1 & H1)
  end.
  { unfold forEach.
    apply forEach_from_returns with (I := I) (L := length docs);
      [|reflexivity|].
    - intros k v Hk Hv. destruct (lookup_lt_is_Some_2 docs k Hk) as [d Ed].
      exists d. unfold I in Hv. subst v.
      pose proof (consistent_built w k d Hc Ed) as Hbuilt.
      unfold I. rewrite (take_S_r _ _ _ Ed), billboardObjects_snoc,
        (billboardObjects_built k d Hbuilt).
      simpl. change (AllDocuments (this w)) with docs. rewrite Ed.
      destruct (useBillboard d) eqn:Eu; simpl.
      + destruct (built_meshes k d Hbuilt Eu) as (p & f & Ep & Ef & Rp & Rf & _).
        rewrite Ep, Ef.
        rewrite (andThen_returned (sceneAdd (Some p)) _ _ _ eq_refl).
        rewrite (andThen_returned (sceneAdd (Some f)) _ _ _ eq_refl).
        erewrite (andThen_returned (updateMatrixWorld _ _));
          [|apply (updateMatrixWorld_built k Plane d); assumption].
        erewrite (updateMatrixWorld_built k Frame d) by assumption.
        eexists. split; [reflexivity|]. split; [reflexivity|].
        unfold with_env, set_scene. simpl. rewrite Rp, Rf.
        do 2 f_equal. generalize (billboardObjects (take k docs)).
        clear. intros B. set_solver.
      + eexists. split; [reflexivity|]. split; [reflexivity|].
        unfold with_env, set_scene. simpl. do 2 f_equal.
        generalize (billboardObjects (take k docs)). clear. intros B.
        set_solver.
    - unfold I. simpl. unfold with_env, set_scene, w0. simpl.
      destruct w as [h e]. destruct e. simpl. do 2 f_equal.
      unfold billboardObjects. simpl. rewrite union_empty_r_L. reflexivity. }
  rewrite (andThen_returned _ _ _ _ E1). unfold I in H1. rewrite H1.
  rewrite firstn_all. reflexivity.
Qed.

Lemma hideBillboards_world b w :
  consistent w -> b || negb (billboardsAreActive (this w)) = true ->
  hideBillboards b w = (Returned, hiddenWorld w).
Proof.
  intros Hc Hb. unfold hideBillboards, ifElse.
  replace (negb b && billboardsAreActive (this w)) with false
    by (destruct b, (billboardsAreActive (this w)); simpl in *; congruence).
  rewrite (andThen_returned (setProperty _ _ _) _ w _ eq_refl).
  set (w0 := with_env _ w).
  set (docs := AllDocuments (this w)).
  pose (I := fun (k : nat) (v : World) =>
    v = with_env (set_scene (scene (env w) ∖ billboardObjects (take k docs))) w0).
  match goal with |- context [forEach ?body] =>
    assert (exists w1, forEach body w0 = (Returned, w1) /\ I (length docs) w1)
      as (w1 & E1 & H1)
  end.
  { unfold forEach.
    apply forEach_from_returns with (I := I) (L := length docs);
      [|reflexivity|].
    - intros k v Hk Hv. destruct (lookup_lt_is_Some_2 docs k Hk) as [d Ed].
      exists d. unfold I in Hv. subst v.
      pose proof (consistent_built w k d Hc Ed) as Hbuilt.
      unfold I. rewrite (take_S_r _ _ _ Ed), billboardObjects_snoc,
        (billboardObjects_built k d Hbuilt).
      simpl. change (AllDocuments (this w)) with docs. rewrite Ed.
      destruct (useBillboard d) eqn:Eu; simpl.
      + destruct (built_meshes k d Hbuilt Eu) as (p & f & Ep & Ef & Rp & Rf & _).
        rewrite Ep, Ef.
        rewrite (andThen_returned (sceneRemove (Some p)) _ _ _ eq_refl).
        rewrite (andThen_returned (sceneRemove (Some f)) _ _ _ eq_refl).
        erewrite (andThen_returned (updateMatrixWorld _ _));
          [|apply (updateMatrixWorld_built k Plane d); assumption].
        erewrite (updateMatrixWorld_built k Frame d) by assumption.
        eexists. split; [reflexivity|]. split; [reflexivity|].
        unfold with_env, set_scene. simpl. rewrite Rp, Rf.
        do 2 f_equal. generalize (billboardObjects (take k docs)).
        clear. intros B. set_solver.
      + eexists. split; [reflexivity|]. split; [reflexivity|].
        unfold with_env, set_scene. simpl. do 2 f_equal.
        generalize (billboardObjects (take k docs)). clear. intros B.
        set_solver.
    - unfold I. simpl. unfold with_env, set_scene, w0. simpl.
      destruct w as [h e]. destruct e. simpl. do 2 f_equal.
      unfold billboardObjects. simpl. rewrite difference_empty_L.
      reflexivity. }
  rewrite (andThen_returned _ _ _ _ E1). unfold I in H1. rewrite H1.
  rewrite firstn_all. reflexivity.
Qed.

Lemma consistent_shownWorld w : consistent w -> consistent (shownWorld w).
Proof. intros Hc. exact Hc. Qed.

Lemma consistent_hiddenWorld w : consistent w -> consistent (hiddenWorld w).
Proof. intros Hc. exact Hc. Qed.


(** Of two forced calls of [showBillboards] and [hideBillboards] the last
    one decides.  In a world whose documents are as their constructor built
    them, let each of [first] and [second] stand for [showBillboards(true)]
    (true) or [hideBillboards(true)] (false): both calls return, the handler
    itself is unchanged, and the scene is the one the second call alone
    would have left, the scene of [w] with the meshes of the billboards
    added or taken out.  So each of the two is idempotent and undoes the
    other. *)
Theorem last_forced_call_decides (w : World) (first second : bool) :
  consistent w ->
  let force (b : bool) :=
    if b then showBillboards true else hideBillboards true in
  exists w1 w2,
    force first w = (Returned, w1)
    /\ force second w1 = (Returned, w2)
    /\ this w2 = this w
    /\ scene (env w2) = scene (env (force second w).2)
    /\ scene (env w2)
       = if second
         then scene (env w) ∪ billboardObjects (AllDocuments (this w))
         else scene (env w) ∖ billboardObjects (AllDocuments (this w)).
Proof.
  intros Hc force.
  assert (Hforce : forall b v, consistent v ->
    force b v = (Returned, if b then shownWorld v else hiddenWorld v)).
  { intros [] v Hv; unfold force.
    - apply showBillboards_world; [exact Hv | reflexivity].
    - apply hideBillboards_world; [exact Hv | reflexivity]. }
  exists (if first then shownWorld w else hiddenWorld w).
  exists (if second
          then shownWorld (if first then shownWorld w else hiddenWorld w)
          else hiddenWorld (if first then shownWorld w else hiddenWorld w)).
  split; [apply Hforce, Hc|].
  split; [apply Hforce; destruct first; exact Hc|].
  rewrite (Hforce second w Hc).
  destruct first, second; unfold shownWorld, hiddenWorld; cbn;
    (split; [reflexivity|]);
    generalize (billboardObjects (AllDocuments (this w)));
    generalize (scene (env w)); clear; intros S B; split;
    apply set_eq; intros x;
    rewrite ?elem_of_union, ?elem_of_difference, ?elem_of_union;
    destruct (decide (x ∈ B)); tauto.
Qed.

(** [toggleBillboards()] twice.  In a world whose documents are as their
    constructor built them both calls return, [billboardsAreActive] is what
    it was, and the billboards are in the state that flag names, whatever
    they were before: all in the scene if it is set, none if it is not. *)
Theorem toggling_twice_settles_the_billboards (w : World) :
  consistent w ->
  exists w1 w2,
    toggleBillboards w = (Returned, w1)
    /\ toggleBillboards w1 = (Returned, w2)
    /\ billboardsAreActive (this w1) = negb (billboardsAreActive (this w))
    /\ billboardsAreActive (this w2) = billboardsAreActive (this w)
    /\ scene (env w2)
       = (if billboardsAreActive (this w)
          then scene (env w) ∪ billboardObjects (AllDocuments (this w))
          else scene (env w) ∖ billboardObjects (AllDocuments (this w)))
    /\ (if billboardsAreActive (this w)
        then billboardsShown w2 else billboardsHidden w2).
Proof.
  intros Hc.
  assert (Htoggle : forall v, consistent v ->
    toggleBillboards v
    = (Returned,
       if billboardsAreActive (this v)
       then hiddenWorld (with_this (set_billboardsAreActive false) v)
       else shownWorld (with_this (set_billboardsAreActive true) v))).
  { intros v Hv. unfold toggleBillboards, ifElse.
    destruct (billboardsAreActive (this v));
      rewrite (andThen_returned (assign _) _ v _ eq_refl).
    - apply hideBillboards_world; [exact Hv | reflexivity].
    - apply showBillboards_world; [exact Hv | reflexivity]. }
  eexists _, _. split; [apply Htoggle, Hc|].
  split; [apply Htoggle; destruct (billboardsAreActive (this w)); exact Hc|].
  destruct (billboardsAreActive (this w)) eqn:Eb; simpl.
  - split; [reflexivity|]. split; [reflexivity|].
    assert (Hs : scene (env w) ∖ billboardObjects (AllDocuments (this w))
                 ∪ billboardObjects (AllDocuments (this w))
                 = scene (env w) ∪ billboardObjects (AllDocuments (this w))).
    { generalize (billboardObjects (AllDocuments (this w))).
      generalize (scene (env w)). clear. intros S B.
      apply set_eq. intros x. rewrite !elem_of_union, elem_of_difference.
      destruct (decide (x ∈ B)); tauto. }
    split; [exact Hs|].
    match goal with |- billboardsShown ?v =>
      exact (proj1 (shown_of_scene w v Hc eq_refl Hs))
    end.
  - split; [reflexivity|]. split; [reflexivity|].
    assert (Hs : (scene (env w) ∪ billboardObjects (AllDocuments (this w)))
                 ∖ billboardObjects (AllDocuments (this w))
                 = scene (env w) ∖ billboardObjects (AllDocuments (this w))).
    { generalize (billboardObjects (AllDocuments (this w))).
      generalize (scene (env w)). clear. intros S B. set_solver. }
    split; [exact Hs|].
    match goal with |- billboardsHidden ?v =>
      exact (proj1 (hidden_of_scene w v Hc eq_refl Hs))
    end.
Qed.

(** [closeDocFull()].  In a world whose documents are as their constructor
    built them it returns; the central window is no longer displayed and the
    full image has no source; the billboards are put back in the scene if
    [billboardsAreActive] is set and the scene is left alone if it is not.
    The handler itself is untouched, the flags of the oriented view with it:
    closing the window does not stop an orientation or a fade, and the next
    frame does to the state of the oriented view what it would have done. *)
Theorem closeDocFull_restores_the_billboards (w : World) :
  consistent w ->
  exists w',
    closeDocFull w = (Returned, w')
    /\ this w' = this w
    /\ getProperty "docFull" "style.display" w' = Some (DStr "none")
    /\ getProperty "docFullImg" "src" w' = Some DNull
    /\ scene (env w')
       = (if billboardsAreActive (this w)
          then scene (env w) ∪ billboardObjects (AllDocuments (this w))
          else scene (env w))
    /\ called (env w')
       = (if billboardsAreActive (this w)
          then notifyChange true :: called (env w) else called (env w))
    /\ forall f, fadeState (play [f] w') = fadeState (play [f] w).
Proof.
  intros Hc. unfold closeDocFull.
  rewrite (andThen_returned (setProperty _ _ _) _ w _ eq_refl).
  match goal with |- context [(setProperty ?a ?b ?c ;; _) ?v] =>
    rewrite (andThen_returned (setProperty a b c) _ v _ eq_refl)
  end.
  destruct (billboardsAreActive (this w)) eqn:Eb.
  - rewrite showBillboards_world; [|exact Hc | simpl; exact Eb].
    eexists. split; [reflexivity|]. split; [reflexivity|].
    split; [read_dom; reflexivity|]. split; [read_dom; reflexivity|].
    split; [reflexivity|]. split; [reflexivity|].
    intros f. rewrite !play_fadeState. reflexivity.
  - unfold showBillboards, ifElse. simpl. rewrite Eb. simpl.
    eexists. split; [reflexivity|]. split; [reflexivity|].
    split; [read_dom; reflexivity|]. split; [read_dom; reflexivity|].
    split; [reflexivity|]. split; [reflexivity|].
    intros f. rewrite !play_fadeState. reflexivity.
Qed.


(** ** [initialize], whole *)

Lemma andThen_assoc (a b c : method) w :
  ((a ;; b) ;; c) w = (a ;; (b ;; c)) w.
Proof. unfold andThen. destruct (a w) as [[|e] v]; reflexivity. Qed.

Lemma andThen_ext (a b b' : method) w :
  (forall v, b v = b' v) -> (a ;; b) w = (a ;; b') w.
Proof.
  intros Hb. unfold andThen. destruct (a w) as [[|e] v]; [apply Hb|reflexivity].
Qed.

Lemma fillAllDocuments_app rows rows' w :
  fillAllDocuments (rows ++ rows') w
  = (fillAllDocuments rows ;; fillAllDocuments rows') w.
Proof.
  revert w. induction rows as [|docData rest IH]; intros w; [reflexivity|].
  rewrite <- app_comm_cons. cbn [fillAllDocuments].
  rewrite andThen_assoc. apply andThen_ext, IH.
Qed.

Lemma readRow_short self docData :
  length docData < 7 -> readRow self docData = None.
Proof.
  intros Hlen. unfold readRow.
  destruct (docData !! 4) as [t|] eqn:E4; [|reflexivity].
  destruct (docData !! 5) as [dt|] eqn:E5; [|reflexivity].
  destruct (docData !! 6) as [md|] eqn:E6; [|reflexivity].
  apply lookup_lt_Some in E6. lia.
Qed.

Lemma updateBrowser_returns r d w :
  currentDoc (this w) = Some r -> AllDocuments (this w) !! r = Some d ->
  exists w', updateBrowser w = (Returned, w')
    /\ this w' = this w /\ browserShows d w'
    /\ scene (env w') = scene (env w) /\ called (env w') = called (env w).
Proof.
  intros Hr Hd. unfold updateBrowser, withCurrentDoc, currentDocument.
  rewrite Hr, Hd. eexists. split; [reflexivity|]. split; [reflexivity|].
  split; [|split; reflexivity].
  unfold browserShows. repeat split; read_dom; reflexivity.
Qed.

(** [initialize] on an empty array, for a handler that holds no document:
    the loop does nothing, [currentDoc] becomes [undefined], and
    [updateBrowser] throws a TypeError on it.  Nothing else has changed: the
    billboards were not touched and the docInit event was not dispatched.
    Afterwards [nextDoc], [previousDoc], [focusOnDoc] and [updateBrowser]
    each throw a TypeError and change nothing. *)
Theorem initialize_with_no_row (w : World) :
  AllDocuments (this w) = [] ->
  let w' := with_this (set_currentDoc None) w in
  initialize [] w = (Thrown TypeError, w')
  /\ env w' = env w
  /\ nextDoc w' = (Thrown TypeError, w')
  /\ previousDoc w' = (Thrown TypeError, w')
  /\ focusOnDoc w' = (Thrown TypeError, w')
  /\ updateBrowser w' = (Thrown TypeError, w').
Proof.
  intros Hempty w'. split; [|repeat split].
  unfold initialize. cbn [fillAllDocuments].
  rewrite (andThen_returned skip _ w w eq_refl).
  assert (E : setCurrentDocAt (Num 0) w = (Returned, w')).
  { unfold setCurrentDocAt. rewrite Hempty. reflexivity. }
  rewrite (andThen_returned _ _ _ _ E). reflexivity.
Qed.

(** [initialize] stops at the first row that lacks one of its first seven
    fields.  The rows before it are loaded, each into one Document after the
    documents the handler held; then [docData[k].toString()] throws a
    TypeError for the title, the date or the metadata.  [currentDoc], the
    DOM, the scene and the calls made are as they were: the browser is not
    updated and docInit is not dispatched. *)
Theorem initialize_stops_at_a_short_row (w : World)
    (before after : list (list string)) (short : list string) :
  Forall (fun docData => 7 <= length docData) before ->
  length short < 7 ->
  exists docs,
    initialize (before ++ short :: after) w
    = (Thrown TypeError,
       with_this (set_AllDocuments (AllDocuments (this w) ++ docs)) w)
    /\ length docs = length before
    /\ forall i docData, before !! i = Some docData ->
         exists d, docs !! i = Some d /\ builtFromRow docData d.
Proof.
  intros Hbefore Hshort.
  destruct (fillAllDocuments_spec before w Hbefore) as (docs & E & Hlen & Hall).
  exists docs. split; [|split; assumption].
  unfold initialize.
  assert (Efill : fillAllDocuments (before ++ short :: after) w
            = (Thrown TypeError,
               with_this (set_AllDocuments (AllDocuments (this w) ++ docs)) w)).
  { rewrite fillAllDocuments_app, (andThen_returned _ _ _ _ E).
    cbn [fillAllDocuments]. unfold andThen.
    rewrite (readRow_short _ short Hshort). reflexivity. }
  rewrite (andThen_thrown _ _ _ _ _ Efill). reflexivity.
Qed.

(** The first load.  On a handler that holds no document, for rows that all
    have their first seven fields and are at least one, [initialize]
    returns: the document of the first row is the current one and the
    browser shows it; the billboards are shown if [billboardsAreActive] is
    set and hidden if it is not; the docInit event is dispatched, last and
    once; the state of the oriented view is untouched. *)
Theorem initialize_shows_the_first_document (w : World)
    (first : list string) (others : list (list string)) :
  AllDocuments (this w) = [] ->
  Forall (fun docData => 7 <= length docData) (first :: others) ->
  exists w' d,
    initialize (first :: others) w = (Returned, w')
    /\ currentDoc (this w') = Some 0
    /\ AllDocuments (this w') !! 0 = Some d
    /\ builtFromRow first d
    /\ browserShows d w'
    /\ (if billboardsAreActive (this w)
        then billboardsShown w' else billboardsHidden w')
    /\ called (env w')
       = dispatchEvent "docInit" :: notifyChange true :: called (env w)
    /\ fadeState w' = fadeState w.
Proof.
  intros Hempty Hrows.
  destruct (fillAllDocuments_spec (first :: others) w Hrows)
    as (docs & E & Hlen & Hall).
  rewrite Hempty in E. simpl app in E.
  set (w1 := with_this (set_AllDocuments docs) w) in E.
  assert (Hc1 : consistent w1).
  { change w1 with ((Returned, w1).2). rewrite <- E.
    apply keeps_consistent_fillAllDocuments.
    unfold consistent. rewrite Hempty. reflexivity. }
  destruct (Hall 0 first eq_refl) as (d & Hd & Hbuilt).
  assert (E2 : setCurrentDocAt (Num 0) w1
               = (Returned, with_this (set_currentDoc (Some 0)) w1))
    by (apply (setCurrentDocAt_nat (Num 0) 0 d w1 eq_refl Hd)).
  set (w2 := with_this (set_currentDoc (Some 0)) w1) in E2.
  destruct (updateBrowser_returns 0 d w2 eq_refl Hd)
    as (w3 & E3 & T3 & B3 & S3 & K3).
  assert (Hc3 : consistent w3) by (unfold consistent; rewrite T3; exact Hc1).
  assert (Eb3 : billboardsAreActive (this w3) = billboardsAreActive (this w))
    by (rewrite T3; reflexivity).
  unfold initialize.
  rewrite (andThen_returned _ _ _ _ E), (andThen_returned _ _ _ _ E2),
    (andThen_returned _ _ _ _ E3).
  assert (E4 : ifElse (fun w => billboardsAreActive (this w))
                 (showBillboards true) (hideBillboards true) w3
               = (Returned,
                  if billboardsAreActive (this w)
                  then shownWorld w3 else hiddenWorld w3)).
  { unfold ifElse. rewrite Eb3. destruct (billboardsAreActive (this w)).
    - apply showBillboards_world; [exact Hc3 | reflexivity].
    - apply hideBillboards_world; [exact Hc3 | reflexivity]. }
  rewrite (andThen_returned _ _ _ _ E4).
  destruct B3 as (B3a & B3b & B3c & B3d).
  unfold getProperty in B3a, B3b, B3c, B3d.
  eexists _, d. split; [reflexivity|].
  destruct (billboardsAreActive (this w)) eqn:Eb;
    (split; [exact (f_equal currentDoc T3)|]);
    (split; [exact (eq_trans
               (f_equal (fun h => AllDocuments h !! 0) T3) Hd)|]);
    (split; [exact Hbuilt|]);
    (split; [unfold browserShows; repeat split; read_dom; assumption|]);
    (split; [|split;
       [exact (f_equal (fun l => dispatchEvent "docInit"
                                 :: notifyChange true :: l) K3)
       |exact (f_equal (fun h => (isOrientingDoc h, isFadingDoc h,
                                  fadeAlpha h, fadeDuration h)) T3)]]).
  - apply (shown_of_scene w3); [exact Hc3 | reflexivity | reflexivity].
  - apply (hidden_of_scene w3); [exact Hc3 | reflexivity | reflexivity].
Qed.


(** ** [update], whole *)

Lemma insert_middle {A} (l1 l2 : list A) (x y : A) k :
  length l1 = k -> <[k := y]> (l1 ++ x :: l2) = l1 ++ y :: l2.
Proof.
  intros <-. rewrite insert_app_r_alt by lia.
  rewrite Nat.sub_diag. reflexivity.
Qed.

Lemma lookup_middle {A} (l1 l2 : list A) (x : A) k :
  length l1 = k -> (l1 ++ x :: l2) !! k = Some x.
Proof. intros <-. apply list_lookup_middle. reflexivity. Qed.

Lemma with_this_id w :
  with_this (set_AllDocuments (AllDocuments (this w))) w = w.
Proof. destruct w as [[] ?]. reflexivity. Qed.

Lemma meshLookAt_at k p target d m l1 l2 w :
  length l1 = k -> AllDocuments (this w) = l1 ++ d :: l2 ->
  mesh_of p d = Some m ->
  meshLookAt k p target w
  = (Returned,
     with_this (set_AllDocuments
       (l1 ++ set_mesh p (lookAt target m) d :: l2)) w).
Proof.
  intros Hlen Hdocs Hm. unfold meshLookAt.
  rewrite Hdocs, (lookup_middle _ _ _ _ Hlen), Hm.
  unfold with_this. rewrite Hdocs, (insert_middle _ _ _ _ _ Hlen).
  reflexivity.
Qed.

Lemma updateMatrixWorld_at k p d m l1 l2 w :
  length l1 = k -> AllDocuments (this w) = l1 ++ d :: l2 ->
  mesh_of p d = Some m ->
  updateMatrixWorld k p w = (Returned, w).
Proof.
  intros Hlen Hdocs Hm. unfold updateMatrixWorld.
  rewrite Hdocs, (lookup_middle _ _ _ _ Hlen), Hm. reflexivity.
Qed.

Lemma facing_billboard target d p f :
  useBillboard d = true ->
  billboardGeometry d = Some p -> billboardGeometryFrame d = Some f ->
  facing target d
  = set_mesh Frame (lookAt target f) (set_mesh Plane (lookAt target p) d).
Proof. intros Eu Ep Ef. unfold facing. rewrite Eu, Ep, Ef. reflexivity. Qed.

(** The billboards turn to the camera: the loop at the end of [update]
    returns and leaves every document [facing] the camera. *)
Lemma billboardsLookAtCamera_world w :
  consistent w ->
  billboardsLookAtCamera w
  = (Returned,
     with_this (set_AllDocuments
       (facing (camera_position (env w)) <$> AllDocuments (this w))) w).
Proof.
  intros Hc. unfold billboardsLookAtCamera, forEach.
  set (docs := AllDocuments (this w)).
  set (cam := camera_position (env w)).
  pose (I := fun (k : nat) (v : World) =>
    v = with_this (set_AllDocuments
          ((facing cam <$> take k docs) ++ drop k docs)) w).
  match goal with |- forEach_from _ 0 ?body w = _ =>
    destruct (forEach_from_returns I body (length docs)) with
      (n := length docs) (i := 0) (w := w) as (w' & E & Hw')
  end.
  - intros k v Hk Hv. unfold I in Hv. subst v.
    destruct (lookup_lt_is_Some_2 docs k Hk) as [d Ed].
    pose proof (consistent_built w k d Hc Ed) as Hb.
    assert (Hlen : length (facing cam <$> take k docs) = k)
      by (rewrite length_fmap, length_take; lia).
    rewrite (drop_S _ _ _ Ed).
    exists d, (with_this (set_AllDocuments
                 ((facing cam <$> take k docs)
                  ++ facing cam d :: drop (S k) docs)) w).
    split; [cbn; apply lookup_middle, Hlen|]. split.
    + set (l1 := facing cam <$> take k docs) in *.
      set (l2 := drop (S k) docs).
      set (v := with_this (set_AllDocuments (l1 ++ d :: l2)) w).
      destruct (useBillboard d) eqn:Eu; cbn [negb].
      * destruct (built_meshes k d Hb Eu) as (p & f & Ep & Ef & _).
        rewrite (facing_billboard cam d p f Eu Ep Ef).
        set (d1 := set_mesh Plane (lookAt cam p) d).
        set (d2 := set_mesh Frame (lookAt cam f) d1).
        set (v1 := with_this (set_AllDocuments (l1 ++ d1 :: l2)) w).
        set (v2 := with_this (set_AllDocuments (l1 ++ d2 :: l2)) w).
        assert (E1 : meshLookAt k Plane cam v = (Returned, v1))
          by exact (meshLookAt_at k Plane cam d p l1 l2 v Hlen eq_refl Ep).
        assert (E2 : meshLookAt k Frame cam v1 = (Returned, v2))
          by exact (meshLookAt_at k Frame cam d1 f l1 l2 v1 Hlen eq_refl Ef).
        assert (E3 : updateMatrixWorld k Plane v2 = (Returned, v2))
          by exact (updateMatrixWorld_at k Plane d2 (lookAt cam p) l1 l2 v2
                      Hlen eq_refl eq_refl).
        assert (E4 : updateMatrixWorld k Frame v2 = (Returned, v2))
          by exact (updateMatrixWorld_at k Frame d2 (lookAt cam f) l1 l2 v2
                      Hlen eq_refl eq_refl).
        change ((meshLookAt k Plane cam ;; meshLookAt k Frame cam ;;
                 updateMatrixWorld k Plane ;; updateMatrixWorld k Frame)%method v
                = (Returned, v2)).
        rewrite (andThen_returned (meshLookAt k Plane cam) _ _ _ E1).
        rewrite (andThen_returned (meshLookAt k Frame cam) _ _ _ E2).
        rewrite (andThen_returned (updateMatrixWorld k Plane) _ _ _ E3).
        exact E4.
      * unfold facing. rewrite Eu. reflexivity.
    + unfold I. rewrite (take_S_r _ _ _ Ed), fmap_app, <- app_assoc.
      reflexivity.
  - lia.
  - unfold I. cbn. symmetry. apply with_this_id.
  - rewrite E. unfold I in Hw'. rewrite Hw'.
    rewrite firstn_all, drop_all, app_nil_r. reflexivity.
Qed.

(** The first two blocks of [update], which never throw. *)
Lemma fadeBlocks_spec dt w :
  let begins :=
    isOrientingDoc (this w) && (controls_state (env w) =? -1)%Z in
  exists w2,
    (ifElse (fun w => isOrientingDoc (this w)
                      && (controls_state (env w) =? -1)%Z) beginFade skip ;;
     ifElse (fun w => isFadingDoc (this w)) (fade dt) skip) w = (Returned, w2)
    /\ AllDocuments (this w2) = AllDocuments (this w)
    /\ currentDoc (this w2) = currentDoc (this w)
    /\ billboardsAreActive (this w2) = billboardsAreActive (this w)
    /\ scene (env w2) = scene (env w)
    /\ camera_position (env w2) = camera_position (env w)
    /\ called (env w2)
       = (if begins || isFadingDoc (this w) then [notifyChange false] else [])
         ++ called (env w)
    /\ (begins || isFadingDoc (this w) = false -> w2 = w).
Proof.
  intros begins. unfold andThen at 1. unfold ifElse at 1. fold begins.
  destruct begins.
  - unfold ifElse, fade, beginFade. unfold_all. cbn.
    match goal with |- context [nge ?a (Num 1)] => destruct (nge a (Num 1)) end;
      cbn; eexists; (split; [reflexivity|]);
      repeat (split; [reflexivity|]); discriminate.
  - unfold skip at 1. unfold ifElse.
    destruct (isFadingDoc (this w)) eqn:Ef.
    + unfold fade. unfold_all. cbn.
      match goal with |- context [nge ?a (Num 1)] => destruct (nge a (Num 1)) end;
        cbn; eexists; (split; [reflexivity|]);
        repeat (split; [reflexivity|]); discriminate.
    + exists w. split; [reflexivity|]. repeat (split; [reflexivity|]).
      reflexivity.
Qed.

Lemma update_blocks dt r w :
  update dt r w
  = ((ifElse (fun w => isOrientingDoc (this w)
                       && (controls_state (env w) =? -1)%Z) beginFade skip ;;
      ifElse (fun w => isFadingDoc (this w))
        (fade (if r then Num 16 else dt)) skip) ;;
     billboardsLookAtCamera) w.
Proof. unfold update. cbv zeta. symmetry. apply andThen_assoc. Qed.

(** [update], whole, in a world whose documents are as built. *)
Lemma update_world (dt : number) (r : bool) (w : World) :
  consistent w ->
  exists w2,
    (ifElse (fun w => isOrientingDoc (this w)
                      && (controls_state (env w) =? -1)%Z) beginFade skip ;;
     ifElse (fun w => isFadingDoc (this w))
       (fade (if r then Num 16 else dt)) skip) w = (Returned, w2)
    /\ update dt r w
       = (Returned,
          with_this (set_AllDocuments
            (facing (camera_position (env w)) <$> AllDocuments (this w))) w2).
Proof.
  intros Hc.
  destruct (fadeBlocks_spec (if r then Num 16 else dt) w)
    as (w2 & E & Hdocs & _ & _ & _ & Hcam & _).
  exists w2. split; [exact E|].
  rewrite update_blocks, (andThen_returned _ _ _ _ E).
  rewrite billboardsLookAtCamera_world, Hdocs, Hcam; [reflexivity|].
  unfold consistent. rewrite Hdocs. exact Hc.
Qed.

Lemma facing_lookAt target d pl fr :
  useBillboard d = true ->
  billboardGeometry d = Some pl -> billboardGeometryFrame d = Some fr ->
  forall p m, mesh_of p (facing target d) = Some m ->
    mesh_lookAt m = Some target.
Proof.
  intros Eu Ep Ef p m. rewrite (facing_billboard target d pl fr Eu Ep Ef).
  destruct p; cbn; intros E; inversion E; reflexivity.
Qed.

Lemma facing_useBillboard target d :
  useBillboard (facing target d) = useBillboard d.
Proof.
  unfold facing. destruct (useBillboard d) eqn:Eu; [|exact Eu].
  destruct (billboardGeometry d), (billboardGeometryFrame d); cbn;
    assumption.
Qed.

(** Every frame turns the billboards to the camera (the loop that ends
    [update]).  In a world whose documents are as their constructor built
    them, [update] returns; each document that uses a billboard has had its
    plane and its frame turned to the position of the camera, nothing else
    of a document has changed, and neither the scene, the current document
    nor the flag of the billboards has. *)
Theorem update_turns_the_billboards_to_the_camera
    (dt : number) (r : bool) (w : World) :
  consistent w ->
  exists w', update dt r w = (Returned, w')
    /\ AllDocuments (this w')
       = facing (camera_position (env w)) <$> AllDocuments (this w)
    /\ (forall d p m, d ∈ AllDocuments (this w') -> useBillboard d = true ->
          mesh_of p d = Some m ->
          mesh_lookAt m = Some (camera_position (env w)))
    /\ scene (env w') = scene (env w)
    /\ currentDoc (this w') = currentDoc (this w)
    /\ billboardsAreActive (this w') = billboardsAreActive (this w).
Proof.
  intros Hc.
  destruct (update_world dt r w Hc) as (w2 & E2 & E).
  destruct (fadeBlocks_spec (if r then Num 16 else dt) w)
    as (w2' & E2' & _ & Hcur & Hact & Hscene & _).
  rewrite E2 in E2'. injection E2' as <-.
  eexists. split; [exact E|]. split; [reflexivity|].
  split; [|split; [exact Hscene | split; [exact Hcur | exact Hact]]].
  intros d p m Hd Eu Em. cbn in Hd.
  apply list_elem_of_fmap in Hd as (d0 & -> & Hd0).
  rewrite facing_useBillboard in Eu.
  apply list_elem_of_lookup in Hd0 as [i Hi].
  destruct (built_meshes i d0 (consistent_built w i d0 Hc Hi) Eu)
    as (pl & fr & Ep & Ef & _).
  exact (facing_lookAt _ d0 pl fr Eu Ep Ef p m Em).
Qed.

(** [update] asks for another frame exactly when it fades: it calls
    [notifyChange(false)] once when it finds the handler fading, or
    orienting with the controls idle, and asks nothing of its collaborators
    otherwise; it never touches the scene. *)
Theorem update_asks_for_a_frame_while_fading
    (dt : number) (r : bool) (w : World) :
  let fades :=
    isOrientingDoc (this w) && (controls_state (env w) =? -1)%Z
    || isFadingDoc (this w) in
  called (env (update dt r w).2)
  = (if fades then [notifyChange false] else []) ++ called (env w)
  /\ scene (env (update dt r w).2) = scene (env w).
Proof.
  intros fades.
  destruct (fadeBlocks_spec (if r then Num 16 else dt) w)
    as (w2 & E & _ & _ & _ & Hscene & _ & Hcalled & _).
  fold fades in Hcalled.
  rewrite update_blocks, (andThen_returned _ _ _ _ E).
  rewrite <- Hcalled, <- Hscene.
  apply (keeps_billboardsLookAtCamera
           (fun v => called (env v) = called (env w2)
                     /\ scene (env v) = scene (env w2)));
    [|split; reflexivity].
  split; [|split; [|split]]; intros ? v Hv; exact Hv.
Qed.

(** ** What the methods touch *)

Section Footprint.

Variable P : World -> Prop.

Hypothesis P_dom : forall id prop v,
  (id, prop) <> ("docBrowserToggleBillboard", "style.display") ->
  keeps P (setProperty id prop v).
Hypothesis P_call : forall c, keeps P (call c).
Hypothesis P_remove : forall x, keeps P (sceneRemove x).
Hypothesis P_flags : forall f, flagSetter f -> keeps P (assign f).
Hypothesis P_turn : forall i p target, keeps P (meshLookAt i p target).
Hypothesis P_controls :
  forall st cam w, P w -> P (with_env (set_controls st cam) w).

Ltac flag := intros ?; repeat split; reflexivity.

Ltac footprint :=
  try assumption;
  lazymatch goal with
  | |- keeps _ _ =>
      let w := fresh "w" in let Hw := fresh "Hw" in
      intros w Hw; cbv beta zeta; footprint
  | |- _ (andThen _ _ _).2 => apply keeps_andThen; footprint
  | |- _ (ifElse _ _ _ _).2 => apply keeps_ifElse; footprint
  | |- _ ((if _ then _ else _) _).2 => apply keeps_if; footprint
  | |- _ (skip _).2 => assumption
  | |- _ (throw _ _).2 => assumption
  | |- _ (setProperty _ _ _ _).2 => apply P_dom; [discriminate | assumption]
  | |- _ (call _ _).2 => apply P_call; assumption
  | |- _ (sceneRemove _ _).2 => apply P_remove; assumption
  | |- _ (assign _ _).2 => apply P_flags; [flag | assumption]
  | |- _ (meshLookAt _ _ _ _).2 => apply P_turn; assumption
  | |- _ (updateMatrixWorld _ _ _).2 =>
      apply keeps_updateMatrixWorld; assumption
  | |- _ (withCurrentDoc _ _).2 =>
      apply keeps_withCurrentDoc; [intros ?; footprint | assumption]
  | |- _ (forEach _ _).2 =>
      apply keeps_forEach; [intros ? ?; footprint | assumption]
  | |- _ (setCurrentDocAt _ _).2 =>
      unfold setCurrentDocAt; cbv zeta; apply P_flags; [flag | assumption]
  | |- _ (match global_temporal ?e with _ => _ end).2 =>
      destruct (global_temporal e); footprint
  | |- _ => idtac
  end.

Lemma footprint_hideBillboards b : keeps P (hideBillboards b).
Proof. unfold hideBillboards. footprint. Qed.

Lemma footprint_updateBrowser : keeps P updateBrowser.
Proof. unfold updateBrowser. footprint. Qed.

Lemma footprint_nextDoc : keeps P nextDoc.
Proof.
  unfold nextDoc. footprint. apply footprint_updateBrowser. assumption.
Qed.

Lemma footprint_previousDoc : keeps P previousDoc.
Proof.
  unfold previousDoc. footprint. apply footprint_updateBrowser. assumption.
Qed.

Lemma footprint_update dt r : keeps P (update dt r).
Proof.
  unfold update, beginFade, fade, billboardsLookAtCamera. footprint.
Qed.

Lemma footprint_focusOnDoc : keeps P focusOnDoc.
Proof.
  unfold focusOnDoc, displayHidden, travelToView, adjustDate. footprint.
  apply footprint_hideBillboards. assumption.
Qed.

Lemma footprint_focusOnFirstBillboard hits :
  keeps P (focusOnFirstBillboard hits).
Proof.
  induction hits as [|o rest IH]; simpl; [apply keeps_skip|].
  destruct (decide (ud_type (userData o) = Some "billboard")); [|exact IH].
  footprint. apply footprint_focusOnDoc. assumption.
Qed.

Lemma footprint_toggleDocBrowserWindow : keeps P toggleDocBrowserWindow.
Proof. unfold toggleDocBrowserWindow. footprint. Qed.

Lemma footprint_fillAllDocuments rows :
  (forall doc, keeps P
     (assign (fun h => set_AllDocuments (AllDocuments h ++ [doc]) h))) ->
  keeps P (fillAllDocuments rows).
Proof.
  intros P_push. induction rows as [|docData rest IH]; simpl;
    [apply keeps_skip|].
  apply keeps_andThen; [|exact IH].
  intros w Hw. destruct (readRow _ docData); [apply P_push, Hw | exact Hw].
Qed.

Lemma footprint_showBillboards b :
  (forall x, keeps P (sceneAdd x)) -> keeps P (showBillboards b).
Proof.
  intros P_add. unfold showBillboards. footprint; apply P_add; assumption.
Qed.

(** Every method of the handler, with what it needs of [P]: the loader
    pushes documents, and the events that ask for the billboards add to the
    scene and set their flag. *)
Lemma footprint_handle ev :
  (isInitialize ev = true ->
   forall doc, keeps P
     (assign (fun h => set_AllDocuments (AllDocuments h ++ [doc]) h))) ->
  ((forall w, P w -> billboardsAreActive (this w) = false)
   /\ quietEvent ev = true)
  \/ ((forall x, keeps P (sceneAdd x))
      /\ forall b, keeps P (assign (set_billboardsAreActive b))) ->
  keeps P (handle ev).
Proof.
  intros P_push Hcase.
  assert (Hshow : forall b, keeps P (showBillboards false)
                            /\ (quietEvent ev = false -> keeps P (showBillboards b))).
  { intros b. destruct Hcase as [[Hq Hev]|[P_add _]].
    - split; [|rewrite Hev; discriminate].
      intros w Hw. unfold showBillboards, ifElse. rewrite (Hq w Hw). exact Hw.
    - split; intros; apply footprint_showBillboards, P_add. }
  assert (Hinit : keeps P (ifElse (fun w => billboardsAreActive (this w))
                             (showBillboards true) (hideBillboards true))).
  { destruct Hcase as [[Hq _]|[P_add _]].
    - intros w Hw. unfold ifElse. rewrite (Hq w Hw).
      apply footprint_hideBillboards, Hw.
    - apply keeps_ifElse;
        [apply footprint_showBillboards, P_add | apply footprint_hideBillboards]. }
  destruct ev; simpl in *.
  - unfold initialize.
    apply keeps_andThen; [apply footprint_fillAllDocuments, P_push, eq_refl|].
    apply keeps_andThen; [footprint|].
    apply keeps_andThen; [apply footprint_updateBrowser|].
    apply keeps_andThen; [exact Hinit | footprint].
  - apply footprint_update.
  - apply footprint_nextDoc.
  - apply footprint_previousDoc.
  - destruct Hcase as [[Hq Hev]|[P_add _]].
    + destruct forceShow; [discriminate | apply (proj1 (Hshow false))].
    + apply footprint_showBillboards, P_add.
  - apply footprint_hideBillboards.
  - destruct Hcase as [[_ Hev]|[P_add P_active]]; [discriminate|].
    unfold toggleBillboards.
    apply keeps_ifElse; apply keeps_andThen;
      auto using footprint_hideBillboards, footprint_showBillboards.
  - apply footprint_focusOnDoc.
  - unfold closeDocFull.
    apply keeps_andThen; [footprint|].
    apply keeps_andThen; [footprint | apply (proj1 (Hshow false))].
  - apply footprint_toggleDocBrowserWindow.
  - intros w Hw. unfold onMouseClick. cbv zeta.
    apply footprint_focusOnFirstBillboard, Hw.
  - intros w Hw. apply P_controls, Hw.
Qed.

End Footprint.


(** ** Invariants of the runs *)

Lemma keeps_quiet S0 ev :
  quietEvent ev = true -> keeps (quiet S0) (handle ev).
Proof.
  intros Hev. apply footprint_handle.
  - intros id prop v Hne w (Ha & Hs & Hd).
    split; [exact Ha | split; [exact Hs|]].
    unfold getProperty. cbn. rewrite lookup_insert_ne by congruence. exact Hd.
  - intros c w Hw. exact Hw.
  - intros [m|] w (Ha & Hs & Hd); [|repeat split; assumption].
    split; [exact Ha | split; [|exact Hd]]. cbn.
    intros x Hx. apply elem_of_difference in Hx as [Hx _]. apply Hs, Hx.
  - intros f Hf w (Ha & Hs & Hd). split; [|split; assumption].
    cbn. destruct (Hf (this w)) as (_ & -> & _). exact Ha.
  - intros i p target w Hw. unfold meshLookAt.
    destruct (AllDocuments (this w) !! i) as [d|]; [|exact Hw].
    destruct (mesh_of p d); exact Hw.
  - intros st cam w Hw. exact Hw.
  - intros _ doc w Hw. exact Hw.
  - left. split; [intros w Hw; exact (proj1 Hw) | exact Hev].
Qed.

(** The billboards stay hidden as long as nothing asks for them.  The
    handler is constructed with its flag of the billboards unset and the
    button that toggles them not displayed.  Whatever the options and the
    page, after any events that are neither a call of [toggleBillboards]
    (what the button does) nor a call of [showBillboards(true)], the flag is
    still unset, the button is still not displayed, and the scene holds
    nothing that it did not hold in the page: no billboard was added. *)
Theorem billboards_stay_hidden_without_the_button
    (options : Options) (page : Env) (evs : list event) :
  forallb quietEvent evs = true ->
  let w := run evs (DocumentsHandler options page) in
  billboardsAreActive (this w) = false
  /\ scene (env w) ⊆ scene page
  /\ getProperty "docBrowserToggleBillboard" "style.display" w
     = Some (DStr "none").
Proof.
  intros Hevs. cbv zeta.
  change (quiet (scene page) (run evs (DocumentsHandler options page))).
  assert (H0 : quiet (scene page) (DocumentsHandler options page)).
  { split; [reflexivity | split; [reflexivity|]]. read_dom. reflexivity. }
  revert H0. generalize (DocumentsHandler options page).
  induction evs as [|ev evs IH]; intros w Hw; [exact Hw|].
  simpl in Hevs. apply andb_true_iff in Hevs as [Hev Hevs].
  rewrite run_cons. apply IH; [exact Hevs|].
  apply keeps_quiet; assumption.
Qed.

Lemma keeps_options c t b ev :
  keeps (fun w => fadeDuration (this w) = c /\ temporal (this w) = t
                  /\ showBillboardButton (this w) = b) (handle ev).
Proof.
  apply footprint_handle.
  - intros id prop v _ w Hw. exact Hw.
  - intros cmd w Hw. exact Hw.
  - intros [m|] w Hw; exact Hw.
  - intros f Hf w (Hd & Ht & Hb). cbn.
    destruct (Hf (this w)) as (_ & _ & -> & -> & ->). auto.
  - intros i p target w Hw. unfold meshLookAt.
    destruct (AllDocuments (this w) !! i) as [d|]; [|exact Hw].
    destruct (mesh_of p d); exact Hw.
  - intros st cam w Hw. exact Hw.
  - intros _ doc w Hw. exact Hw.
  - right. split.
    + intros [m|] w Hw; exact Hw.
    + intros b' w Hw. exact Hw.
Qed.

(** The options are read once, by the constructor.  In every run the
    duration of the fade is [options.docFadeDuration || 2750], so a number
    that is not 0 (the fade never divides by zero); the TemporalController
    is the one of the options; and the button of the billboards is not to
    be shown. *)
Theorem the_options_are_read_once
    (options : Options) (page : Env) (evs : list event) :
  let w := run evs (DocumentsHandler options page) in
  fadeDuration (this w) = number_or (docFadeDuration options) (Num 2750)
  /\ (exists D, fadeDuration (this w) = Num D /\ ~ (D == 0)%Q)
  /\ temporal (this w) = options_temporal options
  /\ showBillboardButton (this w) = false.
Proof.
  cbv zeta.
  assert (Hrun : fadeDuration (this (run evs (DocumentsHandler options page)))
                 = number_or (docFadeDuration options) (Num 2750)
                 /\ temporal (this (run evs (DocumentsHandler options page)))
                    = options_temporal options
                 /\ showBillboardButton
                      (this (run evs (DocumentsHandler options page))) = false).
  { apply (keeps_run (fun w =>
      fadeDuration (this w) = number_or (docFadeDuration options) (Num 2750)
      /\ temporal (this w) = options_temporal options
      /\ showBillboardButton (this w) = false)).
    - intros ev. apply keeps_options.
    - repeat split; reflexivity. }
  destruct Hrun as (Hd & Ht & Hb).
  split; [exact Hd|]. split; [|split; assumption].
  rewrite Hd. unfold number_or.
  destruct (docFadeDuration options) as [[a|]|].
  - destruct (Qeq_bool a 0) eqn:Ea.
    + exists 2750%Q. split; [reflexivity | discriminate].
    + exists a. split; [reflexivity|]. intros E.
      apply Qeq_bool_iff in E. congruence.
  - exists 2750%Q. split; [reflexivity | discriminate].
  - exists 2750%Q. split; [reflexivity | discriminate].
Qed.

Lemma unturned_set_mesh p target m d :
  mesh_of p d = Some m -> unturned (set_mesh p (lookAt target m) d) = unturned d.
Proof.
  intros Em. unfold unturned. destruct p; cbn in *; rewrite Em; reflexivity.
Qed.

Lemma unturned_meshLookAt i p target w :
  unturned <$> AllDocuments (this (meshLookAt i p target w).2)
  = unturned <$> AllDocuments (this w).
Proof.
  unfold meshLookAt.
  destruct (AllDocuments (this w) !! i) as [d|] eqn:Ed; [|reflexivity].
  destruct (mesh_of p d) as [m|] eqn:Em; [|reflexivity]. cbn.
  rewrite list_fmap_insert, (unturned_set_mesh p target m d Em).
  apply list_insert_id. rewrite list_lookup_fmap, Ed. reflexivity.
Qed.

Lemma keeps_catalog base ev :
  keeps (fun w => exists more,
           unturned <$> AllDocuments (this w) = base ++ more) (handle ev).
Proof.
  apply footprint_handle.
  - intros id prop v _ w Hw. exact Hw.
  - intros cmd w Hw. exact Hw.
  - intros [m|] w Hw; exact Hw.
  - intros f Hf w Hw. cbn. destruct (Hf (this w)) as (-> & _). exact Hw.
  - intros i p target w Hw. rewrite unturned_meshLookAt. exact Hw.
  - intros st cam w Hw. exact Hw.
  - intros _ doc w [more Hw]. cbn. exists (more ++ [unturned doc]).
    rewrite fmap_app, Hw, app_assoc. reflexivity.
  - right. split.
    + intros [m|] w Hw; exact Hw.
    + intros b' w Hw. exact Hw.
Qed.

Lemma keeps_loaded base ev :
  isInitialize ev = false ->
  keeps (fun w => unturned <$> AllDocuments (this w) = base) (handle ev).
Proof.
  intros Hev. apply footprint_handle.
  - intros id prop v _ w Hw. exact Hw.
  - intros cmd w Hw. exact Hw.
  - intros [m|] w Hw; exact Hw.
  - intros f Hf w Hw. cbn. destruct (Hf (this w)) as (-> & _). exact Hw.
  - intros i p target w Hw. rewrite unturned_meshLookAt. exact Hw.
  - intros st cam w Hw. exact Hw.
  - rewrite Hev. discriminate.
  - right. split.
    + intros [m|] w Hw; exact Hw.
    + intros b' w Hw. exact Hw.
Qed.

Lemma run_loaded evs w :
  forallb (fun ev => negb (isInitialize ev)) evs = true ->
  unturned <$> AllDocuments (this (run evs w))
  = unturned <$> AllDocuments (this w).
Proof.
  revert w. induction evs as [|ev evs IH]; intros w Hevs; [reflexivity|].
  simpl in Hevs. apply andb_true_iff in Hevs as [Hev Hevs].
  rewrite run_cons, (IH _ Hevs).
  apply (keeps_loaded (unturned <$> AllDocuments (this w)) ev);
    [apply negb_true_iff, Hev | reflexivity].
Qed.

(** A loaded document is never removed, moved or altered, but for the
    orientation of its billboard.  Whatever the events, the documents of the
    catalog are, orientation of the meshes apart, those it had, in the same
    places, followed by those loaded in between; and only [initialize]
    loads: with no call of it the catalog is, orientation apart, what it
    was. *)
Theorem loaded_documents_only_turn (w : World) (evs : list event) :
  (exists more,
     unturned <$> AllDocuments (this (run evs w))
     = (unturned <$> AllDocuments (this w)) ++ more)
  /\ (forallb (fun ev => negb (isInitialize ev)) evs = true ->
      unturned <$> AllDocuments (this (run evs w))
      = unturned <$> AllDocuments (this w)).
Proof.
  split; [|apply run_loaded].
  apply (keeps_run (fun v => exists more,
           unturned <$> AllDocuments (this v)
           = (unturned <$> AllDocuments (this w)) ++ more)).
  - intros ev. apply keeps_catalog.
  - exists []. rewrite app_nil_r. reflexivity.
Qed.

Lemma handle_returns ev w :
  consistent w -> neverThrows ev = true ->
  exists w', handle ev w = (Returned, w').
Proof.
  intros Hc Hev. destruct ev; try discriminate; simpl.
  - destruct (update_returns dt updateLoopRestarted w Hc) as (w' & E & _).
    eauto.
  - destruct (forceShow || billboardsAreActive (this w)) eqn:Eb.
    + rewrite (showBillboards_world _ _ Hc Eb). eauto.
    + apply orb_false_iff in Eb as [-> Eb].
      unfold showBillboards, ifElse. rewrite Eb. simpl. eauto.
  - destruct (forceHide || negb (billboardsAreActive (this w))) eqn:Eb.
    + rewrite (hideBillboards_world _ _ Hc Eb). eauto.
    + apply orb_false_iff in Eb as [-> Eb]. apply negb_false_iff in Eb.
      unfold hideBillboards, ifElse. rewrite Eb. simpl. eauto.
  - unfold toggleBillboards, ifElse.
    destruct (billboardsAreActive (this w)).
    + rewrite (andThen_returned (assign _) _ w _ eq_refl).
      rewrite hideBillboards_world; [eauto | exact Hc | reflexivity].
    + rewrite (andThen_returned (assign _) _ w _ eq_refl).
      rewrite showBillboards_world; [eauto | exact Hc | reflexivity].
  - unfold closeDocFull.
    rewrite (andThen_returned (setProperty _ _ _) _ w _ eq_refl).
    match goal with |- context [(setProperty ?a ?b ?c ;; _) ?v] =>
      rewrite (andThen_returned (setProperty a b c) _ v _ eq_refl)
    end.
    destruct (billboardsAreActive (this w)) eqn:Eb.
    + rewrite showBillboards_world; [eauto | exact Hc | exact Eb].
    + unfold showBillboards, ifElse. simpl. rewrite Eb. simpl. eauto.
  - eauto.
  - eauto.
Qed.

(** The frame requester, the button of the billboards, the close button and
    the window never end in an exception.  Once the handler is constructed,
    whatever happened since, a call of [update], [showBillboards],
    [hideBillboards], [toggleBillboards], [closeDocFull] or
    [toggleDocBrowserWindow] returns. *)
Theorem the_frame_and_the_billboards_never_throw
    (options : Options) (page : Env) (evs : list event) (ev : event) :
  neverThrows ev = true ->
  exists w', handle ev (run evs (DocumentsHandler options page))
             = (Returned, w').
Proof.
  intros Hev. apply handle_returns; [apply consistent_run | exact Hev].
Qed.

(** Before the file is loaded the buttons of the browser end in an
    exception.  The catalog is empty until [initialize] is called: in a run
    from the construction without it, [nextDoc], [previousDoc] and
    [focusOnDoc] throw a TypeError (there is no current document to read
    the index of) and change nothing. *)
Theorem browsing_before_the_catalog_is_loaded
    (options : Options) (page : Env) (evs : list event) :
  forallb (fun ev => negb (isInitialize ev)) evs = true ->
  let w := run evs (DocumentsHandler options page) in
  AllDocuments (this w) = []
  /\ nextDoc w = (Thrown TypeError, w)
  /\ previousDoc w = (Thrown TypeError, w)
  /\ focusOnDoc w = (Thrown TypeError, w).
Proof.
  intros Hevs. cbv zeta.
  pose proof (run_loaded evs (DocumentsHandler options page) Hevs) as Hdocs.
  cbn in Hdocs. apply fmap_nil_inv in Hdocs.
  assert (Hcur : currentDocument (run evs (DocumentsHandler options page))
                 = None).
  { unfold currentDocument. rewrite Hdocs.
    destruct (currentDoc _); reflexivity. }
  split; [exact Hdocs|].
  unfold nextDoc, previousDoc, focusOnDoc, withCurrentDoc.
  rewrite Hcur. repeat split; reflexivity.
Qed.


(** ** Browsing, step after step *)

Lemma indexed_same_catalog w w' :
  AllDocuments (this w') = AllDocuments (this w) -> indexed w -> indexed w'.
Proof. unfold indexed. intros ->. trivial. Qed.

Lemma run_replicate_S ev k w :
  run (replicate (S k) ev) w = (handle ev (run (replicate k ev) w)).2.
Proof.
  revert w. induction k as [|k IH]; intros w; [reflexivity|].
  change (replicate (S (S k)) ev) with (ev :: replicate (S k) ev).
  rewrite run_cons, IH. reflexivity.
Qed.

Lemma nextDoc_step w c :
  indexed w -> currentDoc (this w) = Some c ->
  c < length (AllDocuments (this w)) ->
  exists w', nextDoc w = (Returned, w')
    /\ AllDocuments (this w') = AllDocuments (this w)
    /\ (c + 1 < length (AllDocuments (this w)) ->
        currentDoc (this w') = Some (c + 1)
        /\ forall d, AllDocuments (this w) !! (c + 1) = Some d ->
             browserShows d w')
    /\ (length (AllDocuments (this w)) <= c + 1 -> w' = w).
Proof.
  intros Hi Hc Hlen.
  destruct (lookup_lt_is_Some_2 _ _ Hlen) as [d0 Hd0].
  pose proof (proj1 (indexed_lookup w) Hi c d0 Hd0) as Hidx.
  assert (Hcur : currentDocument w = Some d0)
    by (unfold currentDocument; rewrite Hc; exact Hd0).
  unfold nextDoc, withCurrentDoc. rewrite Hcur. unfold ifElse.
  rewrite (nge_nat _ (c + 1) _ (nadd_one_nat _ _ Hidx)).
  destruct (length (AllDocuments (this w)) <=? c + 1)%nat eqn:E.
  - apply Nat.leb_le in E. exists w. split; [reflexivity|].
    split; [reflexivity|]. split; [lia | reflexivity].
  - apply Nat.leb_gt in E.
    destruct (lookup_lt_is_Some_2 _ _ E) as [d Hd].
    rewrite (andThen_returned _ _ _ _
               (setCurrentDocAt_nat _ (c + 1) d w (nadd_one_nat _ _ Hidx) Hd)).
    destruct (updateBrowser_shows (c + 1) d
                (with_this (set_currentDoc (Some (c + 1))) w) eq_refl Hd)
      as (w' & E' & Ht & Hs).
    exists w'. split; [exact E'|]. rewrite Ht.
    split; [reflexivity|]. split; [|lia].
    intros _. split; [reflexivity|]. intros d' Hd'.
    rewrite Hd in Hd'. inversion Hd'; subst. exact Hs.
Qed.

Lemma previousDoc_step w c :
  indexed w -> currentDoc (this w) = Some c ->
  c < length (AllDocuments (this w)) ->
  exists w', previousDoc w = (Returned, w')
    /\ AllDocuments (this w') = AllDocuments (this w)
    /\ (c <> 0 ->
        currentDoc (this w') = Some (c - 1)
        /\ forall d, AllDocuments (this w) !! (c - 1) = Some d ->
             browserShows d w')
    /\ (c = 0 -> w' = w).
Proof.
  intros Hi Hc Hlen.
  destruct (lookup_lt_is_Some_2 _ _ Hlen) as [d0 Hd0].
  pose proof (proj1 (indexed_lookup w) Hi c d0 Hd0) as Hidx.
  assert (Hcur : currentDocument w = Some d0)
    by (unfold currentDocument; rewrite Hc; exact Hd0).
  unfold previousDoc, withCurrentDoc. rewrite Hcur.
  rewrite (nstrict_eq_zero _ c Hidx).
  destruct (c =? 0)%nat eqn:E.
  - apply Nat.eqb_eq in E. exists w. split; [reflexivity|].
    split; [reflexivity|]. split; [lia | reflexivity].
  - apply Nat.eqb_neq in E.
    assert (Hlt : c - 1 < length (AllDocuments (this w))) by lia.
    destruct (lookup_lt_is_Some_2 _ _ Hlt) as [d Hd].
    rewrite (andThen_returned _ _ _ _
               (setCurrentDocAt_nat _ (c - 1) d w
                  (nsub_one_nat _ _ E Hidx) Hd)).
    destruct (updateBrowser_shows (c - 1) d
                (with_this (set_currentDoc (Some (c - 1))) w) eq_refl Hd)
      as (w' & E' & Ht & Hs).
    exists w'. split; [exact E'|]. rewrite Ht.
    split; [reflexivity|]. split; [|lia].
    intros _. split; [reflexivity|]. intros d' Hd'.
    rewrite Hd in Hd'. inversion Hd'; subst. exact Hs.
Qed.

(** Pressing next again and again goes to the last document and stays
    there.  Let every loaded document's [index] be its position and the
    current document be the one at position [c].  After [k] calls of
    [nextDoc] the catalog is what it was, the current document is the one
    at position [min (c + k) (length - 1)], and, if there was a call and a
    document after the one at [c], the browser shows it. *)
Theorem next_goes_to_the_last_document_and_stays (w : World) (c k : nat) :
  indexed w ->
  currentDoc (this w) = Some c ->
  c < length (AllDocuments (this w)) ->
  let w' := run (replicate k NextDoc) w in
  let last := Nat.min (c + k) (length (AllDocuments (this w)) - 1) in
  AllDocuments (this w') = AllDocuments (this w)
  /\ currentDoc (this w') = Some last
  /\ (1 <= k -> c + 1 < length (AllDocuments (this w)) ->
      forall d, AllDocuments (this w) !! last = Some d -> browserShows d w').
Proof.
  intros Hi Hc Hlen. cbv zeta. induction k as [|k IH].
  - cbn. split; [reflexivity|]. split; [rewrite Hc; f_equal; lia | lia].
  - destruct IH as (Hdocs & Hcur & Hshow).
    rewrite run_replicate_S.
    set (wk := run (replicate k NextDoc) w) in *.
    set (m := Nat.min (c + k) (length (AllDocuments (this w)) - 1)) in *.
    assert (Hm : m < length (AllDocuments (this wk)))
      by (rewrite Hdocs; unfold m; lia).
    destruct (nextDoc_step wk m (indexed_same_catalog w wk Hdocs Hi) Hcur Hm)
      as (w' & E & Hdocs' & Hmove & Hstay).
    change (handle NextDoc wk) with (nextDoc wk). rewrite E. cbn [snd].
    rewrite Hdocs in Hdocs', Hmove, Hstay.
    split; [exact Hdocs'|].
    destruct (decide (m + 1 < length (AllDocuments (this w)))) as [Hlt|Hge].
    + destruct (Hmove Hlt) as [Hcur' Hs].
      assert (Elast : Nat.min (c + S k) (length (AllDocuments (this w)) - 1)
                      = m + 1) by (unfold m in *; lia).
      rewrite Elast. split; [exact Hcur'|]. intros _ _. exact Hs.
    + rewrite (Hstay ltac:(lia)).
      assert (Elast : Nat.min (c + S k) (length (AllDocuments (this w)) - 1)
                      = m) by (unfold m in *; lia).
      rewrite Elast. split; [exact Hcur|]. intros _ Hc1.
      apply Hshow; [|exact Hc1].
      destruct k; [|lia]. exfalso. unfold m in Hge. lia.
Qed.

(** Pressing previous again and again goes to the first document and stays
    there: after [k] calls of [previousDoc] from the document at position
    [c] the catalog is what it was, the current document is the one at
    position [c - k] (0 once [c <= k]), and, if there was a call and [c] was
    not 0, the browser shows it. *)
Theorem previous_goes_to_the_first_document_and_stays
    (w : World) (c k : nat) :
  indexed w ->
  currentDoc (this w) = Some c ->
  c < length (AllDocuments (this w)) ->
  let w' := run (replicate k PreviousDoc) w in
  AllDocuments (this w') = AllDocuments (this w)
  /\ currentDoc (this w') = Some (c - k)
  /\ (1 <= k -> c <> 0 ->
      forall d, AllDocuments (this w) !! (c - k) = Some d -> browserShows d w').
Proof.
  intros Hi Hc Hlen. cbv zeta. induction k as [|k IH].
  - cbn. split; [reflexivity|]. split; [rewrite Hc; f_equal; lia | lia].
  - destruct IH as (Hdocs & Hcur & Hshow).
    rewrite run_replicate_S.
    set (wk := run (replicate k PreviousDoc) w) in *.
    assert (Hm : c - k < length (AllDocuments (this wk)))
      by (rewrite Hdocs; lia).
    destruct (previousDoc_step wk (c - k)
                (indexed_same_catalog w wk Hdocs Hi) Hcur Hm)
      as (w' & E & Hdocs' & Hmove & Hstay).
    change (handle PreviousDoc wk) with (previousDoc wk). rewrite E. cbn [snd].
    rewrite Hdocs in Hdocs', Hmove.
    split; [exact Hdocs'|].
    destruct (decide (c - k = 0)) as [Hz|Hnz].
    + rewrite (Hstay Hz).
      replace (c - S k) with (c - k) by lia.
      split; [exact Hcur|]. intros _ Hc0. apply Hshow; [|exact Hc0].
      destruct k; [|lia]. exfalso. lia.
    + destruct (Hmove Hnz) as [Hcur' Hs].
      replace (c - S k) with (c - k - 1) by lia.
      split; [exact Hcur'|]. intros _ _. exact Hs.
Qed.


(** ** Rows that are not what the loader expects *)

(** The browser follows the index column, not the place in the catalog.
    With [d] the current document: if [d.index] is the number [n],
    [nextDoc] makes the document at position [n + 1] current (and shows
    it), wherever [d] itself is; if [d.index] is NaN (the first field of its
    row was not a number), [nextDoc] and [previousDoc] leave the handler
    without a current document and throw a TypeError. *)
Theorem browsing_follows_the_index_column (w : World) (d : Document) :
  currentDocument w = Some d ->
  (forall n d', nstrict_eq (index d) (of_nat n) = true ->
     AllDocuments (this w) !! (n + 1) = Some d' ->
     exists w', nextDoc w = (Returned, w')
       /\ currentDoc (this w') = Some (n + 1) /\ browserShows d' w')
  /\ (index d = NaN ->
      nextDoc w = (Thrown TypeError, with_this (set_currentDoc None) w)
      /\ previousDoc w
         = (Thrown TypeError, with_this (set_currentDoc None) w)).
Proof.
  intros Hcur. split.
  - intros n d' Hidx Hd'. unfold nextDoc, withCurrentDoc. rewrite Hcur.
    unfold ifElse.
    rewrite (nge_nat _ (n + 1) _ (nadd_one_nat _ _ Hidx)).
    replace (length (AllDocuments (this w)) <=? n + 1)%nat with false
      by (symmetry; apply Nat.leb_gt; eapply lookup_lt_Some, Hd').
    rewrite (andThen_returned _ _ _ _
               (setCurrentDocAt_nat _ (n + 1) d' w (nadd_one_nat _ _ Hidx) Hd')).
    destruct (updateBrowser_shows (n + 1) d'
                (with_this (set_currentDoc (Some (n + 1))) w) eq_refl Hd')
      as (w' & E & Ht & Hs).
    exists w'. rewrite Ht. auto.
  - intros Hnan. unfold nextDoc, previousDoc, withCurrentDoc.
    rewrite Hcur, Hnan. split; reflexivity.
Qed.

Lemma parseFloatAt_missing docData k :
  length docData <= k -> parseFloatAt docData k = NaN.
Proof.
  intros Hk. unfold parseFloatAt.
  rewrite (lookup_ge_None_2 docData k Hk). reflexivity.
Qed.

(** A row cut short.  A row that has its first seven fields is loaded; if
    it stops before its seventeenth field the document has no billboard
    (neither plane nor frame), and if it stops before its eleventh field the
    document has no valid pose, so that [focusOnDoc] will not ask for a
    travel. *)
Theorem a_row_cut_short_has_no_billboard (self : docref)
    (docData : list string) :
  7 <= length docData -> length docData <= 16 ->
  exists d, readRow self docData = Some d
    /\ useBillboard d = false
    /\ billboardGeometry d = None /\ billboardGeometryFrame d = None
    /\ (length docData <= 10 -> validPose d = false).
Proof.
  intros Hlen Hshort. unfold readRow.
  destruct (lookup_lt_is_Some_2 docData 4 ltac:(lia)) as [t Et].
  destruct (lookup_lt_is_Some_2 docData 5 ltac:(lia)) as [dt Edt].
  destruct (lookup_lt_is_Some_2 docData 6 ltac:(lia)) as [md Emd].
  rewrite Et, Edt, Emd. cbn. eexists. split; [reflexivity|].
  rewrite (parseFloatAt_missing docData 16 Hshort).
  unfold new_Document. cbn. rewrite !andb_false_r. cbn.
  repeat split. intros H10. unfold validPose. cbn.
  rewrite (parseFloatAt_missing docData 10 H10). cbn.
  apply andb_false_r.
Qed.

(** ** The click, whole *)

Lemma focusOnDoc_writes d w :
  consistent w -> currentDocument w = Some d ->
  temporal (this w) = None \/ is_Some (global_temporal (env w)) ->
  exists w', focusOnDoc w = (Returned, w')
    /\ forall id prop, (id, prop) ∉ focusWrites ->
         getProperty id prop w' = getProperty id prop w.
Proof.
  intros Hc Ed Ht. unfold focusOnDoc, withCurrentDoc. rewrite Ed.
  rewrite (andThen_returned (displayHidden d) _ w _ eq_refl).
  set (w1 := (displayHidden d w).2).
  destruct (travelToView_spec d w1) as (w2 & E2 & T2 & S2 & D2 & G2 & K2).
  rewrite (andThen_returned _ _ _ _ E2).
  destruct (adjustDate_returns d w2) as (w3 & E3 & T3 & S3 & D3 & K3).
  { rewrite T2, G2. exact Ht. }
  rewrite (andThen_returned _ _ _ _ E3).
  assert (Hc3 : consistent w3)
    by (unfold consistent; rewrite T3, T2; exact Hc).
  destruct (hideBillboards_spec true w3 Hc3 eq_refl)
    as (w4 & E4 & T4 & S4 & D4).
  rewrite (andThen_returned _ _ _ _ E4).
  eexists. split; [reflexivity|].
  intros id prop Hk. unfold focusWrites in Hk.
  rewrite !not_elem_of_cons in Hk.
  destruct Hk as (K1' & K2' & K3' & K4' & K5' & K6' & K7' & K8' & _).
  unfold getProperty. cbn. rewrite D4, D3, D2. unfold w1. cbn.
  rewrite !lookup_insert_ne by congruence. reflexivity.
Qed.

(** A click on a billboard orients the view on its document, and leaves
    the texts of the browser.  In a world whose documents are as built, let
    the first billboard the ray goes through be the plane of the document
    [d] at position [r].  When nothing stops [focusOnDoc], [onMouseClick]
    returns, [d] is the current document, its full image is displayed with
    opacity 0, the handler is orienting and the billboards are hidden; the
    title, the metadata and the index that the browser shows are those it
    showed before the click. *)
Theorem a_click_orients_on_the_document_of_the_billboard
    (event : MouseEvent) (w : World) (pre post : list Object3D)
    (o : Object3D) (r : docref) (d : Document) (p : Mesh) :
  consistent w ->
  temporal (this w) = None \/ is_Some (global_temporal (env w)) ->
  intersectObjects (mouseOf event w).1 (mouseOf event w).2 w
  = pre ++ o :: post ->
  Forall (fun x => ud_type (userData x) <> Some "billboard") pre ->
  AllDocuments (this w) !! r = Some d ->
  billboardGeometry d = Some p ->
  userData o = mesh_userData p ->
  exists w', onMouseClick event w = (Returned, w')
    /\ currentDocument w' = Some d
    /\ isOrientingDoc (this w') = true
    /\ displayedHidden d w'
    /\ billboardsHidden w'
    /\ getProperty "docBrowserTitle" "innerHTML" w'
       = getProperty "docBrowserTitle" "innerHTML" w
    /\ getProperty "docBrowserMetaData" "innerHTML" w'
       = getProperty "docBrowserMetaData" "innerHTML" w
    /\ getProperty "docBrowserIndex" "innerHTML" w'
       = getProperty "docBrowserIndex" "innerHTML" w.
Proof.
  intros Hc Ht Ehits Hpre Hd Ep Eo.
  pose proof (consistent_built w r d Hc Hd) as Hb.
  assert (Hu : useBillboard d = true).
  { destruct (useBillboard d) eqn:Eu; [reflexivity|].
    destruct (built_no_meshes r d Hb Eu) as [Ep' _]. congruence. }
  destruct (built_meshes r d Hb Hu) as (p' & f & Ep' & _ & _ & _ & Hty & Hdoc).
  rewrite Ep in Ep'. injection Ep' as <-.
  unfold onMouseClick. cbv zeta. rewrite Ehits.
  assert (Hloop : forall l rest,
    Forall (fun x => ud_type (userData x) <> Some "billboard") l ->
    focusOnFirstBillboard (l ++ rest) w = focusOnFirstBillboard rest w).
  { intros l rest Hl. induction Hl as [|x l Hx Hl IH]; [reflexivity|].
    simpl. destruct (decide (ud_type (userData x) = Some "billboard"));
      [contradiction | exact IH]. }
  rewrite (Hloop pre (o :: post) Hpre). simpl.
  destruct (decide (ud_type (userData o) = Some "billboard")) as [_|Hn];
    [|rewrite Eo in Hn; contradiction].
  rewrite (andThen_returned (assign _) _ w _ eq_refl).
  rewrite Eo, Hdoc.
  set (w0 := with_this (set_currentDoc (Some r)) w).
  assert (Hcur : currentDocument w0 = Some d) by exact Hd.
  destruct (focusOnDoc_returns d w0 Hc Hcur Ht)
    as (w' & E & Fs & Hdis & Hhid & _ & Hdocs & Hcd).
  destruct (focusOnDoc_writes d w0 Hc Hcur Ht) as (w'' & E' & Hdom).
  rewrite E in E'. injection E' as <-.
  exists w'. split; [exact E|].
  split; [unfold currentDocument; rewrite Hcd, Hdocs; exact Hd|].
  unfold fadeState in Fs. injection Fs as Fo _ _ _.
  split; [exact Fo|]. split; [exact Hdis|]. split; [exact Hhid|].
  unfold focusWrites in Hdom.
  repeat split; apply Hdom; rewrite !not_elem_of_cons;
    repeat split; try discriminate; apply not_elem_of_nil.
Qed.


(** ** The position of the click *)

Lemma unit_interval_of_ratio (x W : Q) :
  (0 < W)%Q -> (0 <= x)%Q -> (x <= W)%Q ->
  (0 <= x / W)%Q /\ (x / W <= 1)%Q.
Proof.
  intros HW H0 H1. split.
  - apply Qle_shift_div_l; [exact HW|]. lra.
  - apply Qle_shift_div_r; [exact HW|]. lra.
Qed.

(** A click inside the window is cast from inside the picture.  For a
    window of width [W] and height [T], both positive, and a click at
    [(x, y)] with [0 <= x <= W] and [0 <= y <= T], the two coordinates given
    to the raycaster are numbers between -1 and 1; the left edge of the
    window is at -1 and the right edge at 1, and the vertical axis is
    turned over: the top of the window is at 1 and the bottom at -1. *)
Theorem a_click_in_the_window_is_cast_from_the_picture
    (event : MouseEvent) (w : World) (x y W T : Q) :
  clientX event = Num x -> clientY event = Num y ->
  innerWidth (env w) = Num W -> innerHeight (env w) = Num T ->
  (0 < W)%Q -> (0 < T)%Q ->
  (0 <= x)%Q -> (x <= W)%Q -> (0 <= y)%Q -> (y <= T)%Q ->
  exists mx my,
    mouseOf event w = (Num mx, Num my)
    /\ (-1 <= mx)%Q /\ (mx <= 1)%Q /\ (-1 <= my)%Q /\ (my <= 1)%Q
    /\ ((x == 0)%Q -> (mx == -1)%Q) /\ ((x == W)%Q -> (mx == 1)%Q)
    /\ ((y == 0)%Q -> (my == 1)%Q) /\ ((y == T)%Q -> (my == -1)%Q).
Proof.
  intros Ex Ey EW EH HW HH Hx0 Hx1 Hy0 Hy1.
  assert (NW : Qeq_bool W 0 = false).
  { destruct (Qeq_bool W 0) eqn:E; [|reflexivity].
    apply Qeq_bool_iff in E. lra. }
  assert (NH : Qeq_bool T 0 = false).
  { destruct (Qeq_bool T 0) eqn:E; [|reflexivity].
    apply Qeq_bool_iff in E. lra. }
  destruct (unit_interval_of_ratio x W HW Hx0 Hx1) as [Hrx0 Hrx1].
  destruct (unit_interval_of_ratio y T HH Hy0 Hy1) as [Hry0 Hry1].
  exists (x / W * 2 - 1)%Q, (- (y / T) * 2 + 1)%Q.
  split.
  { unfold mouseOf. rewrite Ex, Ey, EW, EH. cbn. rewrite NW, NH. reflexivity. }
  assert (HW0 : ~ (W == 0)%Q) by lra.
  assert (HH0 : ~ (T == 0)%Q) by lra.
  split; [lra|]. split; [lra|]. split; [lra|]. split; [lra|].
  split; [|split; [|split]]; intros E; rewrite E; field; assumption.
Qed.


End Coverage.

(** * The values of the fade *)

(** What follows is about [Binary64.update], the fade on the numbers that
    JavaScript has. *)

Lemma Binary64_step_at_rest (s : Binary64.Oriented) (f : Binary64.frame) :
  Binary64.isOrientingDoc s = false -> Binary64.isFadingDoc s = false ->
  Binary64.step s f = Binary64.set_controls_state (Binary64.frame_state f) s.
Proof.
  intros Ho Hf. destruct s. cbn in Ho, Hf. subst.  reflexivity.
Qed.

Lemma Binary64_play_at_rest (fs : list Binary64.frame) (s : Binary64.Oriented) :
  Binary64.isOrientingDoc s = false -> Binary64.isFadingDoc s = false ->
  Binary64.isOrientingDoc (Binary64.play fs s) = false
  /\ Binary64.isFadingDoc (Binary64.play fs s) = false
  /\ Binary64.fadeAlpha (Binary64.play fs s) = Binary64.fadeAlpha s
  /\ Binary64.img_opacity (Binary64.play fs s) = Binary64.img_opacity s.
Proof.
  revert s. induction fs as [|f fs IH]; intros s Ho Hf; [auto|].
  cbn [Binary64.play foldl]. rewrite (Binary64_step_at_rest s f Ho Hf).
  apply (IH (Binary64.set_controls_state (Binary64.frame_state f) s) Ho Hf).
Qed.

Lemma Binary64_step_fading (s : Binary64.Oriented) (f : Binary64.frame) :
  Binary64.isOrientingDoc s = false -> Binary64.isFadingDoc s = true ->
  let a := Binary64.add (Binary64.fadeAlpha s)
             (Binary64.div (Binary64.elapsed f) (Binary64.fadeDuration s)) in
  Binary64.isOrientingDoc (Binary64.step s f) = false
  /\ Binary64.fadeAlpha (Binary64.step s f) = a
  /\ Binary64.fadeDuration (Binary64.step s f) = Binary64.fadeDuration s
  /\ Binary64.isFadingDoc (Binary64.step s f)
     = negb (Binary64.ge a (Binary64.of_Z 1))
  /\ Binary64.img_opacity (Binary64.step s f)
     = Some (if Binary64.ge a (Binary64.of_Z 1) then Binary64.of_Z 1 else a).
Proof.
  intros Ho Hf a. destruct s. cbn in Ho, Hf. subst.
  unfold Binary64.step, Binary64.update, Binary64.fade.
  cbn -[Binary64.of_Z Binary64.ge Binary64.add Binary64.div].
  fold (Binary64.elapsed f). cbn [Binary64.fadeAlpha Binary64.fadeDuration] in a.
  fold a. destruct (Binary64.ge a (Binary64.of_Z 1)); repeat split.
Qed.

(** A fade under way, frame after frame. *)
Lemma Binary64_play_fading (fs : list Binary64.frame) (s : Binary64.Oriented) :
  Binary64.isOrientingDoc s = false -> Binary64.isFadingDoc s = true ->
  Binary64.img_opacity s = Some (Binary64.fadeAlpha s) ->
  let sum k :=
    Binary64.roundedSum (Binary64.fadeDuration s) (Binary64.fadeAlpha s)
      (take k (Binary64.elapsed <$> fs)) in
  let s' := Binary64.play fs s in
  Binary64.isOrientingDoc s' = false
  /\ (forall k, 1 <= k <= length fs ->
        Binary64.ge (sum k) (Binary64.of_Z 1) = true ->
        (forall j, 1 <= j < k ->
           Binary64.ge (sum j) (Binary64.of_Z 1) = false) ->
        Binary64.isFadingDoc s' = false
        /\ Binary64.fadeAlpha s' = sum k
        /\ Binary64.img_opacity s' = Some (Binary64.of_Z 1))
  /\ ((forall j, 1 <= j <= length fs ->
         Binary64.ge (sum j) (Binary64.of_Z 1) = false) ->
      Binary64.isFadingDoc s' = true
      /\ Binary64.fadeAlpha s' = sum (length fs)
      /\ Binary64.img_opacity s' = Some (sum (length fs))).
Proof.
  revert s. induction fs as [|f fs IH]; intros s Ho Hf Hop; cbv zeta.
  - split; [exact Ho|]. split; [intros k Hk; cbn [length] in Hk; lia|].
    intros _. cbn. auto.
  - destruct (Binary64_step_fading s f Ho Hf) as (Ho1 & Ha1 & Hd1 & Hf1 & Hop1).
    cbv zeta in Ha1, Hf1, Hop1.
    set (a1 := Binary64.add (Binary64.fadeAlpha s)
                 (Binary64.div (Binary64.elapsed f) (Binary64.fadeDuration s)))
      in *.
    assert (Hshift : forall k,
      Binary64.roundedSum (Binary64.fadeDuration s) (Binary64.fadeAlpha s)
        (take (S k) (Binary64.elapsed <$> f :: fs))
      = Binary64.roundedSum (Binary64.fadeDuration (Binary64.step s f))
          (Binary64.fadeAlpha (Binary64.step s f))
          (take k (Binary64.elapsed <$> fs))).
    { intros k. rewrite Hd1, Ha1. reflexivity. }
    assert (Hone : Binary64.roundedSum (Binary64.fadeDuration s)
                     (Binary64.fadeAlpha s)
                     (take 1 (Binary64.elapsed <$> f :: fs)) = a1)
      by reflexivity.
    change (Binary64.play (f :: fs) s)
      with (Binary64.play fs (Binary64.step s f)).
    destruct (Binary64.ge a1 (Binary64.of_Z 1)) eqn:Ege; cbn [negb] in Hf1.
    + destruct (Binary64_play_at_rest fs _ Ho1 Hf1) as (Ho' & Hf' & Ha' & Hop').
      split; [exact Ho'|]. split.
      * intros k Hk Hge Hbefore.
        destruct (decide (k = 1)) as [->|Hk1].
        -- rewrite Hone, Hf', Ha', Hop', Ha1, Hop1. auto.
        -- specialize (Hbefore 1 ltac:(lia)). rewrite Hone in Hbefore.
           congruence.
      * intros Hnone. specialize (Hnone 1 ltac:(cbn [length]; lia)).
        rewrite Hone in Hnone. congruence.
    + assert (Hop1' : Binary64.img_opacity (Binary64.step s f)
                      = Some (Binary64.fadeAlpha (Binary64.step s f)))
        by (rewrite Hop1, Ha1; reflexivity).
      destruct (IH _ Ho1 Hf1 Hop1') as (Ho' & Hend & Hon).
      split; [exact Ho'|]. split.
      * intros k Hk Hge Hbefore. destruct k as [|k]; [lia|].
        destruct k as [|k].
        { rewrite Hone in Hge. congruence. }
        rewrite Hshift in Hge |- *.
        apply Hend; [cbn [length] in Hk; lia | exact Hge |].
        intros j Hj. rewrite <- Hshift. apply Hbefore. lia.
      * intros Hnone. cbn [length]. rewrite Hshift.
        apply Hon. intros j Hj. rewrite <- Hshift. apply Hnone.
        cbn [length]. lia.
Qed.

(** C2, as amended.  The fade adds, frame after frame, the quotient of the
    time of the frame by the duration, and the quotient and the sum are
    binary64 numbers, each rounded.  While the handler is fading, an
    [update(dt, r)] sets [fadeAlpha] to the rounded sum of [fadeAlpha] and
    of the rounded quotient of [dt] (16 when the loop restarted) by
    [fadeDuration]; if that number is at least 1 the fade ends, fading
    unset and the opacity exactly 1; otherwise the handler is still fading
    and the opacity is that number.  So, from the oriented view and a first
    frame that finds the controls idle, the opacity after the frames is the
    rounded running sum of the quotients as long as no such sum has reached
    1, and it is 1, the fade ended, from the first frame whose sum has. *)
Theorem fade_follows_the_rounded_sum (s : Binary64.Oriented)
    (f : Binary64.frame) (fs : list Binary64.frame) :
  Binary64.isOrientingDoc s = true ->
  Binary64.frame_state f = (-1)%Z ->
  let one := Binary64.of_Z 1 in
  let sum k :=
    Binary64.roundedSum (Binary64.fadeDuration s) (Binary64.of_Z 0)
      (take k (Binary64.elapsed <$> f :: fs)) in
  let s' := Binary64.play (f :: fs) s in
  (forall (v : Binary64.Oriented) (dt : Binary64.double) (r : bool),
     Binary64.isFadingDoc v = true -> Binary64.isOrientingDoc v = false ->
     let a := Binary64.add (Binary64.fadeAlpha v)
                (Binary64.div (if r then Binary64.of_Z 16 else dt)
                   (Binary64.fadeDuration v)) in
     Binary64.fadeAlpha (Binary64.update dt r v) = a
     /\ (Binary64.ge a one = true ->
         Binary64.isFadingDoc (Binary64.update dt r v) = false
         /\ Binary64.img_opacity (Binary64.update dt r v) = Some one)
     /\ (Binary64.ge a one = false ->
         Binary64.isFadingDoc (Binary64.update dt r v) = true
         /\ Binary64.img_opacity (Binary64.update dt r v) = Some a))
  /\ (forall k, 1 <= k <= length (f :: fs) ->
        Binary64.ge (sum k) one = true ->
        (forall j, 1 <= j < k -> Binary64.ge (sum j) one = false) ->
        Binary64.isFadingDoc s' = false
        /\ Binary64.isOrientingDoc s' = false
        /\ Binary64.fadeAlpha s' = sum k
        /\ Binary64.img_opacity s' = Some one)
  /\ ((forall j, 1 <= j <= length (f :: fs) ->
         Binary64.ge (sum j) one = false) ->
      Binary64.isFadingDoc s' = true
      /\ Binary64.isOrientingDoc s' = false
      /\ Binary64.fadeAlpha s' = sum (length (f :: fs))
      /\ Binary64.img_opacity s' = Some (sum (length (f :: fs)))).
Proof.
  intros Ho Hidle one sum s'. split.
  - intros v dt r Hfv Hov a. destruct v. cbn in Hfv, Hov. subst.
    unfold Binary64.update, Binary64.fade.
    cbn -[Binary64.of_Z Binary64.ge Binary64.add Binary64.div].
    cbn [Binary64.fadeAlpha Binary64.fadeDuration] in a.
    fold a. fold one.
    destruct (Binary64.ge a one); split; try reflexivity;
      split; intros E; try discriminate; split; reflexivity.
  - set (s0 := Binary64.beginFade
                 (Binary64.set_controls_state (Binary64.frame_state f) s)).
    assert (Eplay : s' = Binary64.play (f :: fs) s0).
    { unfold s', s0. cbn [Binary64.play foldl]. f_equal.
      destruct s. cbn in Ho. subst. unfold Binary64.step. rewrite Hidle.
      reflexivity. }
    destruct (Binary64_play_fading (f :: fs) s0 eq_refl eq_refl eq_refl)
      as (Ho' & Hend & Hon).
    cbv zeta in Hend, Hon. rewrite <- Eplay in Ho', Hend, Hon.
    split.
    + intros k Hk Hge Hbefore.
      destruct (Hend k Hk Hge Hbefore) as (? & ? & ?). auto.
    + intros Hnone. destruct (Hon Hnone) as (? & ? & ?). auto.
Qed.

(** While it fades, [update] keeps the slider and the output with the
    image: when it finds the handler fading, or orienting with the controls
    idle, the image has an opacity [o], the slider is at the rounded product
    of [o] by 100 and the output shows the integer part of that product. *)
Theorem update_moves_the_slider_with_the_image
    (dt : Binary64.double) (r : bool) (s : Binary64.Oriented) :
  Binary64.isOrientingDoc s && (Binary64.controls_state s =? -1)%Z
  || Binary64.isFadingDoc s = true ->
  exists o,
    Binary64.img_opacity (Binary64.update dt r s) = Some o
    /\ Binary64.slider_value (Binary64.update dt r s)
       = Some (Binary64.mul o (Binary64.of_Z 100))
    /\ Binary64.output_value (Binary64.update dt r s)
       = Some (Binary64.trunc (Binary64.mul o (Binary64.of_Z 100))).
Proof.
  intros Hf. unfold Binary64.update. cbv zeta.
  assert (Hfaded : forall d v, exists o,
    Binary64.img_opacity (Binary64.fade d v) = Some o
    /\ Binary64.slider_value (Binary64.fade d v)
       = Some (Binary64.mul o (Binary64.of_Z 100))
    /\ Binary64.output_value (Binary64.fade d v)
       = Some (Binary64.trunc (Binary64.mul o (Binary64.of_Z 100)))).
  { intros d v. unfold Binary64.fade. cbv zeta.
    destruct (Binary64.ge _ (Binary64.of_Z 1)); cbn; eexists;
      (split; [reflexivity|]); split; reflexivity. }
  destruct (Binary64.isOrientingDoc s && (Binary64.controls_state s =? -1)%Z)
    eqn:Eb.
  - cbn. apply Hfaded.
  - cbn in Hf. rewrite Hf. apply Hfaded.
Qed.

(** * The properties on the small catalog *)

(** C8 asks that [focusOnDoc()] display the image, enter the orienting state
    and hide the billboards whether the pose is valid or not.  On the handler
    [Demo.dated] (a TemporalController in its options, no global named
    [temporal]) the call throws a ReferenceError at [temporal.changeTime]:
    the image of the current document is displayed and the travel to its
    valid pose is asked for, but the handler is not orienting and the
    billboards are still in the scene. *)
Theorem focusOnDoc_stops_at_temporal :
  let r := focusOnDoc Demo.dated in
  temporal (this Demo.dated) = Some 0
  /\ global_temporal (env Demo.dated) = None
  /\ (validPose <$> currentDocument Demo.dated) = Some true
  /\ r.1 = Thrown ReferenceError
  /\ opacity r.2 = Some (DNum (Num 0))
  /\ (exists p q, called (env r.2) = initiateTravel p q :: called (env Demo.dated))
  /\ isOrientingDoc (this r.2) = false
  /\ elements (scene (env r.2) ∩ {[PlaneOf 0; FrameOf 0]})
     = [FrameOf 0; PlaneOf 0].
Proof.
  cbv zeta. repeat split; try (vm_compute; reflexivity).
  eexists _, _. vm_compute. reflexivity.
Qed.


(** The loaded handler shows its first document: previous changes nothing. *)
Lemma browsing_steps_by_one_and_stops_witness :
  indexed Demo.loaded
  /\ currentDoc (this Demo.loaded) = Some 0
  /\ 0 < length (AllDocuments (this Demo.loaded))
  /\ previousDoc Demo.loaded = (Returned, Demo.loaded).
Proof.
  assert (H1 : indexed Demo.loaded) by (vm_compute; reflexivity).
  assert (H2 : currentDoc (this Demo.loaded) = Some 0)
    by (vm_compute; reflexivity).
  assert (H3 : 0 < length (AllDocuments (this Demo.loaded)))
    by (vm_compute; lia).
  repeat (split; [assumption|]).
  exact (proj2 (proj2 (proj2
    (browsing_steps_by_one_and_stops Demo.loaded 0 H1 H2 H3)))
    eq_refl).
Defined.

(** The three rows of the small catalog, on a new handler. *)
Lemma every_row_becomes_a_document_witness :
  AllDocuments (this (DocumentsHandler Demo.options Demo.page)) = []
  /\ Forall (fun docData => 7 <= length docData) Demo.rows
  /\ length (AllDocuments
               (this (@initialize Demo.platform Demo.rows
                        (DocumentsHandler Demo.options Demo.page)).2))
     = length Demo.rows.
Proof.
  assert (H1 : AllDocuments (this (DocumentsHandler Demo.options Demo.page))
               = []) by reflexivity.
  assert (H2 : Forall (fun docData => 7 <= length docData) Demo.rows)
    by (repeat constructor; simpl; lia).
  repeat (split; [assumption|]).
  exact (proj1 (@every_row_becomes_a_document Demo.platform _ _ H1 H2)).
Defined.

(** C4 as it was stated fails on two arrays: [initialize] does not leave
    one Document per row.
    The second of two rows stops before its title: the first row is loaded
    and the call throws.  The three rows of the small catalog, loaded a
    second time: the handler holds six documents. *)
Lemma a_short_row_and_a_second_load :
  length (AllDocuments
            (this (@initialize Demo.platform [Demo.cut; ["4"; "512"]]
                     (DocumentsHandler Demo.options Demo.page)).2))
  <> length [Demo.cut; ["4"; "512"]]
  /\ (@initialize Demo.platform [Demo.cut; ["4"; "512"]]
        (DocumentsHandler Demo.options Demo.page)).1 = Thrown TypeError
  /\ length (AllDocuments
               (this (@initialize Demo.platform Demo.rows Demo.loaded).2))
     <> length Demo.rows
  /\ length (AllDocuments
               (this (@initialize Demo.platform Demo.rows Demo.loaded).2))
     = 6.
Proof.
  split; [vm_compute; discriminate|]. split; [vm_compute; reflexivity|].
  split; [vm_compute; discriminate | vm_compute; reflexivity].
Qed.

(** A click in the middle of the window, on the shown billboards: the ray
    goes through a foreign object and the frame of the first document, then
    through its plane. *)
Lemma click_focuses_on_first_billboard_witness :
  consistent Demo.shown
  /\ AllDocuments (this Demo.shown) !! 0 = Some Demo.bellecour
  /\ billboardGeometry Demo.bellecour = Some Demo.plane
  /\ exists w', @onMouseClick Demo.platform Demo.click Demo.shown
                = (Returned, w')
       /\ currentDoc (this w') = Some 0
       /\ isOrientingDoc (this w') = true
       /\ isFadingDoc (this w') = false
       /\ displayedHidden Demo.bellecour w'
       /\ billboardsHidden w'
       /\ called (env w')
          = focusCalls Demo.bellecour Demo.shown ++ called (env Demo.shown).
Proof.
  assert (H1 : consistent Demo.shown) by (vm_compute; reflexivity).
  assert (H2 : temporal (this Demo.shown) = None
               \/ is_Some (global_temporal (env Demo.shown)))
    by (left; vm_compute; reflexivity).
  assert (H3 : @intersectObjects Demo.platform
                 (nsub (nmul (ndiv (clientX Demo.click)
                                (innerWidth (env Demo.shown))) (Num 2)) (Num 1))
                 (nadd (nmul (nneg (ndiv (clientY Demo.click)
                                      (innerHeight (env Demo.shown))))
                          (Num 2)) (Num 1))
                 Demo.shown
               = [ {| object_ref := Foreign 0; userData := no_userData |};
                   {| object_ref := FrameOf 0; userData := no_userData |} ]
                 ++ Demo.object_of Demo.plane
                 :: [ {| object_ref := FrameOf 2; userData := no_userData |};
                      {| object_ref := PlaneOf 2;
                         userData := {| ud_type := Some "billboard";
                                        ud_doc := Some 2 |} |} ])
    by (vm_compute; reflexivity).
  assert (H4 : Forall (fun h => ~ ud_type (userData h) = Some "billboard")
                 [ {| object_ref := Foreign 0; userData := no_userData |};
                   {| object_ref := FrameOf 0; userData := no_userData |} ])
    by (repeat constructor; discriminate).
  assert (H5 : AllDocuments (this Demo.shown) !! 0 = Some Demo.bellecour)
    by (vm_compute; reflexivity).
  assert (H6 : billboardGeometry Demo.bellecour = Some Demo.plane)
    by (vm_compute; reflexivity).
  repeat (split; [assumption|]).
  exact (proj2 (proj1 (@click_focuses_on_first_billboard Demo.platform
                         Demo.click Demo.shown)
                  _ _ _ H3 H4 eq_refl)
           0 Demo.bellecour Demo.plane H1 H2 H5 H6 eq_refl).
Defined.

(** Hiding the billboards of the loaded handler. *)
Lemma billboards_shown_and_hidden_together_witness :
  consistent Demo.loaded
  /\ exists w', hideBillboards true Demo.loaded = (Returned, w')
       /\ billboardsHidden w' /\ onlyBillboardsAdded Demo.loaded w'.
Proof.
  assert (H1 : consistent Demo.loaded) by (vm_compute; reflexivity).
  split; [assumption|].
  exact (proj1 (proj2
    (billboards_shown_and_hidden_together Demo.loaded H1))).
Defined.

(** The loaded handler was given no TemporalController. *)
Lemma focusOnDoc_orients_witness :
  consistent Demo.loaded
  /\ currentDocument Demo.loaded = Some Demo.bellecour
  /\ (temporal (this Demo.loaded) = None
      \/ is_Some (global_temporal (env Demo.loaded)))
  /\ exists w', focusOnDoc Demo.loaded = (Returned, w')
       /\ isOrientingDoc (this w') = true
       /\ isFadingDoc (this w') = false
       /\ displayedHidden Demo.bellecour w'
       /\ billboardsHidden w'
       /\ called (env w')
          = focusCalls Demo.bellecour Demo.loaded ++ called (env Demo.loaded)
       /\ (initiateTravel (viewPosition Demo.bellecour)
             (viewQuaternion Demo.bellecour)
             ∈ focusCalls Demo.bellecour Demo.loaded
           <-> validPose Demo.bellecour = true).
Proof.
  assert (H1 : consistent Demo.loaded) by (vm_compute; reflexivity).
  assert (H2 : currentDocument Demo.loaded = Some Demo.bellecour)
    by (vm_compute; reflexivity).
  assert (H3 : temporal (this Demo.loaded) = None
               \/ is_Some (global_temporal (env Demo.loaded)))
    by (left; vm_compute; reflexivity).
  repeat (split; [assumption|]).
  exact (focusOnDoc_orients Demo.loaded Demo.bellecour H1 H2 H3).
Defined.

(** ** The further properties on the small catalog *)

(** Showing, then hiding, the billboards of the loaded handler. *)
Lemma last_forced_call_decides_witness :
  consistent Demo.loaded
  /\ exists w1 w2,
       showBillboards true Demo.loaded = (Returned, w1)
       /\ hideBillboards true w1 = (Returned, w2)
       /\ this w2 = this Demo.loaded
       /\ scene (env w2) = scene (env (hideBillboards true Demo.loaded).2)
       /\ scene (env w2)
          = scene (env Demo.loaded)
            ∖ billboardObjects (AllDocuments (this Demo.loaded)).
Proof.
  assert (H1 : consistent Demo.loaded) by (vm_compute; reflexivity).
  split; [assumption|].
  exact (last_forced_call_decides Demo.loaded true false H1).
Defined.

(** Toggling twice the billboards that are shown. *)
Lemma toggling_twice_settles_the_billboards_witness :
  consistent Demo.shown
  /\ exists w1 w2,
       toggleBillboards Demo.shown = (Returned, w1)
       /\ toggleBillboards w1 = (Returned, w2)
       /\ billboardsAreActive (this w1)
          = negb (billboardsAreActive (this Demo.shown))
       /\ billboardsAreActive (this w2) = billboardsAreActive (this Demo.shown)
       /\ scene (env w2)
          = (if billboardsAreActive (this Demo.shown)
             then scene (env Demo.shown)
                  ∪ billboardObjects (AllDocuments (this Demo.shown))
             else scene (env Demo.shown)
                  ∖ billboardObjects (AllDocuments (this Demo.shown)))
       /\ (if billboardsAreActive (this Demo.shown)
           then billboardsShown w2 else billboardsHidden w2).
Proof.
  assert (H1 : consistent Demo.shown) by (vm_compute; reflexivity).
  split; [assumption|].
  exact (toggling_twice_settles_the_billboards Demo.shown H1).
Defined.

(** Closing the central window of the focused handler. *)
Lemma closeDocFull_restores_the_billboards_witness :
  consistent Demo.focused
  /\ exists w',
       closeDocFull Demo.focused = (Returned, w')
       /\ this w' = this Demo.focused
       /\ getProperty "docFull" "style.display" w' = Some (DStr "none").
Proof.
  assert (H1 : consistent Demo.focused) by (vm_compute; reflexivity).
  split; [assumption|].
  destruct (@closeDocFull_restores_the_billboards Demo.platform
              Demo.focused H1) as (w' & E & Ht & Hd & _).
  exists w'. repeat split; assumption.
Defined.

(** An empty file, on a new handler. *)
Lemma initialize_with_no_row_witness :
  AllDocuments (this (DocumentsHandler Demo.options Demo.page)) = []
  /\ (@initialize Demo.platform [] (DocumentsHandler Demo.options Demo.page)).1
     = Thrown TypeError.
Proof.
  assert (H1 : AllDocuments (this (DocumentsHandler Demo.options Demo.page))
               = []) by reflexivity.
  split; [assumption|].
  exact (f_equal fst
    (proj1 (@initialize_with_no_row Demo.platform _ H1))).
Defined.

(** The first row of the small catalog, then a row of two fields. *)
Lemma initialize_stops_at_a_short_row_witness :
  Forall (fun docData => 7 <= length docData) (take 1 Demo.rows)
  /\ length ["1"; "205"] < 7
  /\ exists docs,
       @initialize Demo.platform
         (take 1 Demo.rows ++ ["1"; "205"] :: drop 2 Demo.rows)
         (DocumentsHandler Demo.options Demo.page)
       = (Thrown TypeError,
          with_this (set_AllDocuments
            (AllDocuments (this (DocumentsHandler Demo.options Demo.page))
             ++ docs)) (DocumentsHandler Demo.options Demo.page))
       /\ length docs = length (take 1 Demo.rows).
Proof.
  assert (H1 : Forall (fun docData => 7 <= length docData) (take 1 Demo.rows))
    by (repeat constructor; simpl; lia).
  assert (H2 : length ["1"; "205"] < 7) by (simpl; lia).
  repeat (split; [assumption|]).
  destruct (@initialize_stops_at_a_short_row Demo.platform
              (DocumentsHandler Demo.options Demo.page)
              (take 1 Demo.rows) (drop 2 Demo.rows) ["1"; "205"] H1 H2)
    as (docs & E & Hlen & _).
  exists docs. split; assumption.
Defined.

(** The three rows of the small catalog, on a new handler. *)
Lemma initialize_shows_the_first_document_witness :
  AllDocuments (this (DocumentsHandler Demo.options Demo.page)) = []
  /\ Forall (fun docData => 7 <= length docData) Demo.rows
  /\ exists w' d,
       @initialize Demo.platform Demo.rows
         (DocumentsHandler Demo.options Demo.page) = (Returned, w')
       /\ currentDoc (this w') = Some 0
       /\ AllDocuments (this w') !! 0 = Some d
       /\ browserShows d w'.
Proof.
  assert (H1 : AllDocuments (this (DocumentsHandler Demo.options Demo.page))
               = []) by reflexivity.
  assert (H2 : Forall (fun docData => 7 <= length docData) Demo.rows)
    by (repeat constructor; simpl; lia).
  repeat (split; [assumption|]).
  destruct (@initialize_shows_the_first_document Demo.platform
              (DocumentsHandler Demo.options Demo.page) _ _ H1 H2)
    as (w' & d & E & Hc & Hd & _ & Hs & _).
  exists w', d. repeat split; assumption || apply Hs.
Defined.

(** A frame on the handler whose billboards are shown. *)
Lemma update_turns_the_billboards_to_the_camera_witness :
  consistent Demo.shown
  /\ exists w', update (Num 16) false Demo.shown = (Returned, w')
       /\ AllDocuments (this w')
          = facing (camera_position (env Demo.shown))
              <$> AllDocuments (this Demo.shown).
Proof.
  assert (H1 : consistent Demo.shown) by (vm_compute; reflexivity).
  split; [assumption|].
  destruct (update_turns_the_billboards_to_the_camera (Num 16) false
              Demo.shown H1) as (w' & E & Hd & _).
  exists w'. split; assumption.
Defined.

(** The catalog is loaded, a document is focused on and its window closed. *)
Lemma billboards_stay_hidden_without_the_button_witness :
  forallb quietEvent [Initialize Demo.rows; FocusOnDoc; CloseDocFull] = true
  /\ scene (env (@run Demo.platform
                   [Initialize Demo.rows; FocusOnDoc; CloseDocFull]
                   (DocumentsHandler Demo.options Demo.page)))
     ⊆ scene Demo.page.
Proof.
  assert (H1 : forallb quietEvent
                 [Initialize Demo.rows; FocusOnDoc; CloseDocFull] = true)
    by reflexivity.
  split; [assumption|].
  exact (proj1 (proj2
    (@billboards_stay_hidden_without_the_button Demo.platform
       Demo.options Demo.page _ H1))).
Defined.

(** A frame, once the catalog is loaded and the billboards are shown. *)
Lemma the_frame_and_the_billboards_never_throw_witness :
  neverThrows (Update (Num 16) false) = true
  /\ exists w',
       @handle Demo.platform (Update (Num 16) false)
         (@run Demo.platform [Initialize Demo.rows; ToggleBillboards]
            (DocumentsHandler Demo.options Demo.page))
       = (Returned, w').
Proof.
  assert (H1 : neverThrows (Update (Num 16) false) = true) by reflexivity.
  split; [assumption|].
  exact (@the_frame_and_the_billboards_never_throw Demo.platform
           Demo.options Demo.page [Initialize Demo.rows; ToggleBillboards]
           (Update (Num 16) false) H1).
Defined.

(** The button of the billboards and a frame, before the file is loaded. *)
Lemma browsing_before_the_catalog_is_loaded_witness :
  forallb (fun ev => negb (isInitialize ev))
    [ToggleBillboards; Update (Num 16) false] = true
  /\ nextDoc (@run Demo.platform [ToggleBillboards; Update (Num 16) false]
                (DocumentsHandler Demo.options Demo.page))
     = (Thrown TypeError,
        @run Demo.platform [ToggleBillboards; Update (Num 16) false]
          (DocumentsHandler Demo.options Demo.page)).
Proof.
  assert (H1 : forallb (fun ev => negb (isInitialize ev))
                 [ToggleBillboards; Update (Num 16) false] = true)
    by reflexivity.
  split; [assumption|].
  exact (proj1 (proj2
    (@browsing_before_the_catalog_is_loaded Demo.platform
       Demo.options Demo.page _ H1))).
Defined.

(** Five times next on the three documents of the loaded handler. *)
Lemma next_goes_to_the_last_document_and_stays_witness :
  indexed Demo.loaded
  /\ currentDoc (this Demo.loaded) = Some 0
  /\ 0 < length (AllDocuments (this Demo.loaded))
  /\ currentDoc (this (@run Demo.platform (replicate 5 NextDoc) Demo.loaded))
     = Some (Nat.min (0 + 5) (length (AllDocuments (this Demo.loaded)) - 1)).
Proof.
  assert (H1 : indexed Demo.loaded) by (vm_compute; reflexivity).
  assert (H2 : currentDoc (this Demo.loaded) = Some 0)
    by (vm_compute; reflexivity).
  assert (H3 : 0 < length (AllDocuments (this Demo.loaded)))
    by (vm_compute; lia).
  repeat (split; [assumption|]).
  exact (proj1 (proj2
    (@next_goes_to_the_last_document_and_stays Demo.platform
       Demo.loaded 0 5 H1 H2 H3))).
Defined.

(** Twice previous from the first document of the loaded handler. *)
Lemma previous_goes_to_the_first_document_and_stays_witness :
  indexed Demo.loaded
  /\ currentDoc (this Demo.loaded) = Some 0
  /\ 0 < length (AllDocuments (this Demo.loaded))
  /\ currentDoc
       (this (@run Demo.platform (replicate 2 PreviousDoc) Demo.loaded))
     = Some (0 - 2).
Proof.
  assert (H1 : indexed Demo.loaded) by (vm_compute; reflexivity).
  assert (H2 : currentDoc (this Demo.loaded) = Some 0)
    by (vm_compute; reflexivity).
  assert (H3 : 0 < length (AllDocuments (this Demo.loaded)))
    by (vm_compute; lia).
  repeat (split; [assumption|]).
  exact (proj1 (proj2
    (@previous_goes_to_the_first_document_and_stays Demo.platform
       Demo.loaded 0 2 H1 H2 H3))).
Defined.

(** Next from the first document of the loaded handler, whose index is 0. *)
Lemma browsing_follows_the_index_column_witness :
  currentDocument Demo.loaded = Some Demo.bellecour
  /\ forall d', AllDocuments (this Demo.loaded) !! (0 + 1) = Some d' ->
       exists w', nextDoc Demo.loaded = (Returned, w')
         /\ currentDoc (this w') = Some (0 + 1) /\ browserShows d' w'.
Proof.
  assert (H1 : currentDocument Demo.loaded = Some Demo.bellecour)
    by (vm_compute; reflexivity).
  split; [assumption|].
  intros d'.
  exact (proj1 (browsing_follows_the_index_column Demo.loaded
                  Demo.bellecour H1) 0 d' eq_refl).
Defined.

(** A row of seven fields. *)
Lemma a_row_cut_short_has_no_billboard_witness :
  7 <= length Demo.cut
  /\ length Demo.cut <= 16
  /\ exists d, @readRow Demo.platform 3 Demo.cut = Some d
       /\ useBillboard d = false
       /\ billboardGeometry d = None /\ billboardGeometryFrame d = None
       /\ (length Demo.cut <= 10 -> validPose d = false).
Proof.
  assert (H1 : 7 <= length Demo.cut) by (simpl; lia).
  assert (H2 : length Demo.cut <= 16) by (simpl; lia).
  repeat (split; [assumption|]).
  exact (@a_row_cut_short_has_no_billboard Demo.platform 3 Demo.cut H1 H2).
Defined.

(** A click in the middle of the window, on the shown billboards: the ray
    goes through a foreign object and the frame of the first document before
    it reaches its plane. *)
Lemma a_click_orients_on_the_document_of_the_billboard_witness :
  consistent Demo.shown
  /\ (temporal (this Demo.shown) = None
      \/ is_Some (global_temporal (env Demo.shown)))
  /\ AllDocuments (this Demo.shown) !! 0 = Some Demo.bellecour
  /\ billboardGeometry Demo.bellecour = Some Demo.plane
  /\ exists w', @onMouseClick Demo.platform Demo.click Demo.shown
                = (Returned, w')
       /\ currentDocument w' = Some Demo.bellecour
       /\ isOrientingDoc (this w') = true
       /\ getProperty "docBrowserTitle" "innerHTML" w'
          = getProperty "docBrowserTitle" "innerHTML" Demo.shown.
Proof.
  assert (H1 : consistent Demo.shown) by (vm_compute; reflexivity).
  assert (H2 : temporal (this Demo.shown) = None
               \/ is_Some (global_temporal (env Demo.shown)))
    by (left; vm_compute; reflexivity).
  assert (H3 : @intersectObjects Demo.platform
                 (mouseOf Demo.click Demo.shown).1
                 (mouseOf Demo.click Demo.shown).2 Demo.shown
               = [ {| object_ref := Foreign 0; userData := no_userData |};
                   {| object_ref := FrameOf 0; userData := no_userData |} ]
                 ++ Demo.object_of Demo.plane
                 :: drop 3 (@intersectObjects Demo.platform
                              (mouseOf Demo.click Demo.shown).1
                              (mouseOf Demo.click Demo.shown).2 Demo.shown))
    by (vm_compute; reflexivity).
  assert (H4 : Forall (fun x => ud_type (userData x) <> Some "billboard")
                 [ {| object_ref := Foreign 0; userData := no_userData |};
                   {| object_ref := FrameOf 0; userData := no_userData |} ])
    by (repeat constructor; discriminate).
  assert (H5 : AllDocuments (this Demo.shown) !! 0 = Some Demo.bellecour)
    by (vm_compute; reflexivity).
  assert (H6 : billboardGeometry Demo.bellecour = Some Demo.plane)
    by (vm_compute; reflexivity).
  repeat (split; [assumption|]).
  destruct (@a_click_orients_on_the_document_of_the_billboard Demo.platform
              Demo.click Demo.shown _ _ _ 0 Demo.bellecour Demo.plane
              H1 H2 H3 H4 H5 H6 eq_refl)
    as (w' & E & Hcur & Ho & _ & _ & Ht & _).
  exists w'. repeat split; assumption.
Defined.

(** A click in the middle of a window of 800 by 600. *)
Lemma a_click_in_the_window_is_cast_from_the_picture_witness :
  clientX Demo.click = Num 400 /\ clientY Demo.click = Num 300
  /\ innerWidth (env Demo.loaded) = Num 800
  /\ innerHeight (env Demo.loaded) = Num 600
  /\ (0 < 800)%Q /\ (0 < 600)%Q
  /\ (0 <= 400)%Q /\ (400 <= 800)%Q /\ (0 <= 300)%Q /\ (300 <= 600)%Q
  /\ exists mx my,
       mouseOf Demo.click Demo.loaded = (Num mx, Num my)
       /\ (-1 <= mx)%Q /\ (mx <= 1)%Q /\ (-1 <= my)%Q /\ (my <= 1)%Q.
Proof.
  assert (H1 : clientX Demo.click = Num 400) by reflexivity.
  assert (H2 : clientY Demo.click = Num 300) by reflexivity.
  assert (H3 : innerWidth (env Demo.loaded) = Num 800)
    by (vm_compute; reflexivity).
  assert (H4 : innerHeight (env Demo.loaded) = Num 600)
    by (vm_compute; reflexivity).
  assert (H5 : (0 < 800)%Q) by reflexivity.
  assert (H6 : (0 < 600)%Q) by reflexivity.
  assert (H7 : (0 <= 400)%Q) by discriminate.
  assert (H8 : (400 <= 800)%Q) by discriminate.
  assert (H9 : (0 <= 300)%Q) by discriminate.
  assert (H10 : (300 <= 600)%Q) by discriminate.
  repeat (split; [assumption|]).
  destruct (a_click_in_the_window_is_cast_from_the_picture
              Demo.click Demo.loaded 400 300 800 600
              H1 H2 H3 H4 H5 H6 H7 H8 H9 H10)
    as (mx & my & E & B1 & B2 & B3 & B4 & _).
  exists mx, my.
  split; [exact E|]. split; [exact B1|]. split; [exact B2|].
  split; [exact B3 | exact B4].
Defined.

(** C2 as it was stated fails on ten frames of 100 ms and a fade of 1000
    ms: the claim gives the opacity [min(1, 1000 / 1000)], which is 1, and
    the fade ended; the tenth rounded sum is 0.99999999999999989, and the
    handler is still fading at that opacity.  The eleventh frame ends the
    fade.  Nor is the first step exact: a tenth is no binary64 number. *)
Lemma ten_tenths_do_not_end_the_fade :
  let s := Binary64.play (replicate 10 (Demo.tick 100)) Demo.oriented in
  Binary64.isFadingDoc s = true
  /\ Binary64.img_opacity s = Some (S754_finite false 9007199254740991 (-53))
  /\ (exists o, (Binary64.exact <$> Binary64.img_opacity s) = Some (Some o)
                /\ (o < Qmin 1 (10 * 100 / 1000))%Q)
  /\ Binary64.isFadingDoc (Binary64.step s (Demo.tick 100)) = false
  /\ Binary64.img_opacity (Binary64.step s (Demo.tick 100))
     = Some (Binary64.of_Z 1)
  /\ (exists a,
        Binary64.exact
          (Binary64.fadeAlpha (Binary64.play [Demo.tick 100] Demo.oriented))
        = Some a
        /\ ~ (a == 0 + 100 / 1000)%Q).
Proof.
  cbv zeta. split; [vm_compute; reflexivity|].
  split; [vm_compute; reflexivity|]. split.
  { eexists. split; [vm_compute; reflexivity|]. vm_compute. reflexivity. }
  split; [vm_compute; reflexivity|]. split; [vm_compute; reflexivity|].
  eexists. split; [vm_compute; reflexivity|]. vm_compute. discriminate.
Qed.

(** Three frames of 250, 500 and 500 ms on a fade of 1000 ms: the third sum
    is the first that reaches 1. *)
Lemma fade_follows_the_rounded_sum_witness :
  Binary64.isOrientingDoc Demo.oriented = true
  /\ Binary64.frame_state (Demo.tick 250) = (-1)%Z
  /\ Binary64.isFadingDoc
       (Binary64.play [Demo.tick 250; Demo.tick 500; Demo.tick 500]
          Demo.oriented) = false
  /\ Binary64.img_opacity
       (Binary64.play [Demo.tick 250; Demo.tick 500; Demo.tick 500]
          Demo.oriented) = Some (Binary64.of_Z 1).
Proof.
  assert (H1 : Binary64.isOrientingDoc Demo.oriented = true) by reflexivity.
  assert (H2 : Binary64.frame_state (Demo.tick 250) = (-1)%Z) by reflexivity.
  repeat (split; [assumption|]).
  destruct (proj1 (proj2
    (fade_follows_the_rounded_sum Demo.oriented (Demo.tick 250)
       [Demo.tick 500; Demo.tick 500] H1 H2)) 3)
    as (Hf & _ & _ & Hop).
  - simpl. lia.
  - vm_compute. reflexivity.
  - intros j Hj. assert (Hj' : j = 1 \/ j = 2) by lia.
    destruct Hj' as [-> | ->]; vm_compute; reflexivity.
  - split; assumption.
Defined.

(** A frame of 250 ms in the middle of a fade of 1000 ms. *)
Lemma update_moves_the_slider_with_the_image_witness :
  Binary64.isOrientingDoc (Binary64.play [Demo.tick 250] Demo.oriented)
  && (Binary64.controls_state (Binary64.play [Demo.tick 250] Demo.oriented)
      =? -1)%Z
  || Binary64.isFadingDoc (Binary64.play [Demo.tick 250] Demo.oriented) = true
  /\ exists o,
       Binary64.img_opacity
         (Binary64.update (Binary64.of_Z 250) false
            (Binary64.play [Demo.tick 250] Demo.oriented)) = Some o
       /\ Binary64.slider_value
            (Binary64.update (Binary64.of_Z 250) false
               (Binary64.play [Demo.tick 250] Demo.oriented))
          = Some (Binary64.mul o (Binary64.of_Z 100))
       /\ Binary64.output_value
            (Binary64.update (Binary64.of_Z 250) false
               (Binary64.play [Demo.tick 250] Demo.oriented))
          = Some (Binary64.trunc (Binary64.mul o (Binary64.of_Z 100))).
Proof.
  assert (H1 : Binary64.isOrientingDoc
                 (Binary64.play [Demo.tick 250] Demo.oriented)
               && (Binary64.controls_state
                     (Binary64.play [Demo.tick 250] Demo.oriented) =? -1)%Z
               || Binary64.isFadingDoc
                    (Binary64.play [Demo.tick 250] Demo.oriented) = true)
    by (vm_compute; reflexivity).
  split; [assumption|].
  exact (update_moves_the_slider_with_the_image (Binary64.of_Z 250) false
           (Binary64.play [Demo.tick 250] Demo.oriented) H1).
Defined.

(** 290 ms into a fade of 1000 ms the slider is at 28.999999999999996 and
    the output shows 28. *)
Example the_slider_after_290_ms :
  let s := Binary64.play [Demo.tick 290] Demo.oriented in
  Binary64.slider_value s = Some (S754_finite false 8162774324609023 (-48))
  /\ (Binary64.exact <$> Binary64.slider_value s)
     = Some (Some (8162774324609023 # 281474976710656)%Q)
  /\ Binary64.output_value s = Some (Binary64.of_Z 28).
Proof. repeat split; vm_compute; reflexivity. Qed.

(** ** The small catalog at work *)

Example loaded_catalog :
  length (AllDocuments (this Demo.loaded)) = 3
  /\ currentDoc (this Demo.loaded) = Some 0
  /\ useBillboard <$> AllDocuments (this Demo.loaded) = [true; false; true]
  /\ elements (scene (env Demo.loaded)) = [Foreign 0].
Proof. repeat split; vm_compute; reflexivity. Qed.

Example shown_scene :
  elements (scene (env Demo.shown))
  = [Foreign 0; FrameOf 2; FrameOf 0; PlaneOf 2; PlaneOf 0].
Proof. vm_compute. reflexivity. Qed.

Example click_on_the_shown_billboards :
  let w := @run Demo.platform
             [MouseClick {| clientX := Num 400; clientY := Num 300 |}]
             Demo.shown in
  currentDoc (this w) = Some 0
  /\ isOrientingDoc (this w) = true
  /\ elements (scene (env w)) = [Foreign 0].
Proof. repeat split; vm_compute; reflexivity. Qed.

Example next_on_the_loaded_catalog :
  currentDoc (this (nextDoc Demo.loaded).2) = Some 1
  /\ getProperty "docBrowserTitle" "innerHTML" (nextDoc Demo.loaded).2
     = Some (DStr "Fourviere").
Proof. repeat split; vm_compute; reflexivity. Qed.
